(** * News-Tracker: deduplication, quality gates, pipeline and monitor

    A shallow embedding of the decision logic of [src/dedupe.py],
    [src/quality_gates.py], [src/pipeline.py] and [src/monitor.py],
    followed by the properties established about it.

    Conventions of the embedding.
    - A Python [str] is a Rocq [string]; the string built-ins ([lower],
      [strip], [split], [in], slicing, [len]) are given for ASCII text,
      where a character is one byte.
    - A Python [float] is a binary64 [float] with the primitive IEEE
      operations, so comparisons against thresholds behave as in Python.
    - A [dict] with fixed keys is a record; a key that may be absent is an
      [option] field.  A [dict] used as a map is a [gmap].
    - The SQLite table [article_hashes] is the list of its rows in rowid
      order.
    - Code that may raise returns an [outcome]; [try]/[except] and
      [try]/[finally] are combinators on it.
    - Imported libraries (hashlib, re, sentence_transformers, numpy, time,
      uuid) and the collaborators of the pipeline are fields of a class,
      so every property holds whatever they compute. *)

From Stdlib Require Import ZArith NArith String Ascii List Floats Uint63.
From stdpp Require Import base option list gmap strings pretty.

Set Warnings "-inexact-float".
Local Open Scope string_scope.

(* ===================================================================== *)
(** ** Python built-ins on strings *)
(* ===================================================================== *)

Module Py.

(** [c.isspace()] on the ASCII range: TAB..CR, FS..US and the blank. *)
Definition isspace (c : ascii) : bool :=
  let n := nat_of_ascii c in
  ((9 <=? n)%nat && (n <=? 13)%nat) || ((28 <=? n)%nat && (n <=? 32)%nat).

Definition isupper (c : ascii) : bool :=
  let n := nat_of_ascii c in (65 <=? n)%nat && (n <=? 90)%nat.

Definition isdigit (c : ascii) : bool :=
  let n := nat_of_ascii c in (48 <=? n)%nat && (n <=? 57)%nat.

Definition islower (c : ascii) : bool :=
  let n := nat_of_ascii c in (97 <=? n)%nat && (n <=? 122)%nat.

Definition lower_char (c : ascii) : ascii :=
  if isupper c then ascii_of_nat (nat_of_ascii c + 32) else c.

Fixpoint map_chars (f : ascii -> ascii) (s : string) : string :=
  match s with
  | EmptyString => EmptyString
  | String c s' => String (f c) (map_chars f s')
  end.

(** [s.lower()] *)
Definition lower (s : string) : string := map_chars lower_char s.

(** [s.replace(a, b)] for one-character [a] and [b]. *)
Definition replace_char (a b : ascii) (s : string) : string :=
  map_chars (fun c => if Ascii.eqb c a then b else c) s.

Fixpoint lstrip (s : string) : string :=
  match s with
  | EmptyString => EmptyString
  | String c s' => if isspace c then lstrip s' else s
  end.

Fixpoint rstrip (s : string) : string :=
  match s with
  | EmptyString => EmptyString
  | String c s' =>
      match rstrip s' with
      | EmptyString => if isspace c then EmptyString else String c EmptyString
      | r => String c r
      end
  end.

(** [s.strip()] *)
Definition strip (s : string) : string := rstrip (lstrip s).

(** [s.split()]: maximal runs of non-blank characters, in order.  [cur] is
    the word being read, if any. *)
Fixpoint split_from (cur : option string) (s : string) : list string :=
  match s with
  | EmptyString => match cur with Some w => [w] | None => [] end
  | String c s' =>
      if isspace c then
        match cur with
        | Some w => w :: split_from None s'
        | None => split_from None s'
        end
      else
        split_from
          (Some (match cur with
                 | Some w => w +:+ String c EmptyString
                 | None => String c EmptyString
                 end)) s'
  end.

Definition split (s : string) : list string := split_from None s.

(** [sep.join(l)] *)
Fixpoint join (sep : string) (l : list string) : string :=
  match l with
  | [] => EmptyString
  | [w] => w
  | w :: l' => w +:+ sep +:+ join sep l'
  end.

(** [needle in hay] *)
Fixpoint contains (needle hay : string) : bool :=
  String.prefix needle hay ||
  match hay with
  | EmptyString => false
  | String _ hay' => contains needle hay'
  end.

(** [s[:n]] *)
Definition take (n : nat) (s : string) : string := String.substring 0 n s.

(** [len(s)] *)
Definition len (s : string) : nat := String.length s.

(** Truth value of a string: [not s] is [negb (truthy s)]. *)
Definition truthy (s : string) : bool :=
  match s with EmptyString => false | _ => true end.

(** [l.append(x)] and [l.extend(l')], as functions of the list. *)
Definition append {A} (l : list A) (x : A) : list A := app l [x].
Definition extend {A} (l l' : list A) : list A := app l l'.

Definition int_to_float (n : nat) : float :=
  PrimFloat.of_uint63 (Uint63.of_Z (Z.of_nat n)).

End Py.

(* ===================================================================== *)
(** ** Exceptions *)
(* ===================================================================== *)

(** The two classes of exception the code tells apart: [except Exception]
    catches the first and lets the second through. *)
Inductive exn : Type :=
| Exception (msg : string)
| KeyboardInterrupt.

Inductive outcome (A : Type) : Type :=
| Ret (a : A)
| Raise (e : exn).

Arguments Ret {A} a.
Arguments Raise {A} e.

Definition obind {A B} (m : outcome A) (k : A -> outcome B) : outcome B :=
  match m with
  | Ret a => k a
  | Raise e => Raise e
  end.

Declare Scope outcome_scope.
Delimit Scope outcome_scope with outcome.
Notation "x <~ m ;; k" := (obind m (fun x => k))
  (at level 100, m at next level, right associativity) : outcome_scope.

(* ===================================================================== *)
(** ** SHA-256 (FIPS 180-4), the function behind [hashlib.sha256] *)
(* ===================================================================== *)

Module Sha256.
Local Open Scope N_scope.

Definition w32 (x : N) : N := N.land x 0xffffffff.
Definition add32 (x y : N) : N := w32 (x + y).
Definition rotr (n x : N) : N := N.lor (N.shiftr x n) (w32 (N.shiftl x (32 - n))).
Definition not32 (x : N) : N := N.lxor x 0xffffffff.

Definition Ch (x y z : N) : N := N.lxor (N.land x y) (N.land (not32 x) z).
Definition Maj (x y z : N) : N :=
  N.lxor (N.lxor (N.land x y) (N.land x z)) (N.land y z).
Definition Sigma0 (x : N) : N := N.lxor (N.lxor (rotr 2 x) (rotr 13 x)) (rotr 22 x).
Definition Sigma1 (x : N) : N := N.lxor (N.lxor (rotr 6 x) (rotr 11 x)) (rotr 25 x).
Definition sigma0 (x : N) : N := N.lxor (N.lxor (rotr 7 x) (rotr 18 x)) (N.shiftr x 3).
Definition sigma1 (x : N) : N := N.lxor (N.lxor (rotr 17 x) (rotr 19 x)) (N.shiftr x 10).

(** The constants are derived as the standard defines them: from the
    first primes, the first 32 bits of the fractional part of their cube
    roots (round constants) and of their square roots (initial hash). *)
Definition coprime_to_all (ps : list N) (k : N) : bool :=
  forallb (fun p => negb (k mod p =? 0)) ps.

Fixpoint sieve (fuel : nat) (k : N) (ps : list N) : list N :=
  match fuel with
  | O => ps
  | S fuel' =>
      sieve fuel' (k + 1) (if coprime_to_all ps k then app ps [k] else ps)
  end.

Definition first_primes (n : nat) : list N := firstn n (sieve 310 2 []).

(** The integer cube root of [x] below 2^(bit+1), one bit at a time. *)
Fixpoint cube_root (bit : nat) (x acc : N) : N :=
  let candidate := acc + N.shiftl 1 (N.of_nat bit) in
  let acc := if candidate * candidate * candidate <=? x then candidate else acc in
  match bit with
  | O => acc
  | S bit' => cube_root bit' x acc
  end.

Definition K : list N :=
  Eval vm_compute in
    List.map (fun p => w32 (cube_root 35 (N.shiftl p 96) 0)) (first_primes 64).

Definition H0 : list N :=
  Eval vm_compute in
    List.map (fun p => w32 (N.sqrt (N.shiftl p 64))) (first_primes 8).

Definition bytes_of (s : string) : list N :=
  List.map N_of_ascii (list_ascii_of_string s).

(** Big-endian bytes of [x], [n] of them. *)
Fixpoint be_bytes (n : nat) (x : N) : list N :=
  match n with
  | O => []
  | S n' => N.land (N.shiftr x (8 * N.of_nat n')) 0xff :: be_bytes n' x
  end.

(** The message followed by 0x80, zero bytes up to 56 modulo 64, and the bit
    length on eight bytes. *)
Definition pad (msg : list N) : list N :=
  let l := N.of_nat (length msg) in
  let zeros := N.to_nat ((55 + 64 - l mod 64) mod 64) in
  msg ++ 0x80 :: List.repeat 0 zeros ++ be_bytes 8 (8 * l).

Fixpoint words_of (fuel : nat) (bs : list N) : list N :=
  match fuel, bs with
  | S f, a :: b :: c :: d :: bs' =>
      (N.shiftl a 24 + N.shiftl b 16 + N.shiftl c 8 + d) :: words_of f bs'
  | _, _ => []
  end.

(** The message schedule, newest word first: [rw] holds w(t-1), w(t-2), ... *)
Fixpoint extend (n : nat) (rw : list N) : list N :=
  match n with
  | O => rw
  | S n' =>
      let w := add32 (add32 (sigma1 (nth 1 rw 0)) (nth 6 rw 0))
                     (add32 (sigma0 (nth 14 rw 0)) (nth 15 rw 0)) in
      extend n' (w :: rw)
  end.

Definition schedule (block : list N) : list N := rev (extend 48 (rev block)).

Record regs := { ra : N; rb : N; rc : N; rd : N; re : N; rf : N; rg : N; rh : N }.

Definition round (r : regs) (kw : N * N) : regs :=
  let t1 := add32 (add32 (add32 (rh r) (Sigma1 (re r))) (Ch (re r) (rf r) (rg r)))
                  (add32 (fst kw) (snd kw)) in
  let t2 := add32 (Sigma0 (ra r)) (Maj (ra r) (rb r) (rc r)) in
  {| ra := add32 t1 t2; rb := ra r; rc := rb r; rd := rc r;
     re := add32 (rd r) t1; rf := re r; rg := rf r; rh := rg r |}.

Definition regs_of (h : list N) : regs :=
  {| ra := nth 0 h 0; rb := nth 1 h 0; rc := nth 2 h 0; rd := nth 3 h 0;
     re := nth 4 h 0; rf := nth 5 h 0; rg := nth 6 h 0; rh := nth 7 h 0 |}.

Definition compress (h : list N) (block : list N) : list N :=
  let r := fold_left round (combine K (schedule block)) (regs_of h) in
  List.map (fun p => add32 (fst p) (snd p))
    (combine h [ra r; rb r; rc r; rd r; re r; rf r; rg r; rh r]).

Fixpoint blocks (fuel : nat) (ws : list N) (h : list N) : list N :=
  match fuel, ws with
  | S f, _ :: _ => blocks f (skipn 16 ws) (compress h (firstn 16 ws))
  | _, _ => h
  end.

Definition hex_digit (d : N) : ascii :=
  if d <? 10 then ascii_of_N (48 + d) else ascii_of_N (87 + d).

Definition hex_byte (b : N) : string :=
  String (hex_digit (N.shiftr b 4)) (String (hex_digit (N.land b 0xf)) EmptyString).

Definition digest (s : string) : list N :=
  let bs := pad (bytes_of s) in
  blocks (length bs) (words_of (length bs) bs) H0.

(** [hashlib.sha256(s.encode("utf-8")).hexdigest()] *)
Definition hexdigest (s : string) : string :=
  fold_right (fun b acc => hex_byte b +:+ acc) EmptyString
    (concat (List.map (be_bytes 4) (digest s))).

End Sha256.


(* ===================================================================== *)
(** ** src/dedupe.py *)
(* ===================================================================== *)

Module Dedupe.

(** What [dedupe.py] imports: hashlib, and sentence_transformers with numpy
    when they are installed ([HAS_ML_DEPS]).  [st_encode] stands for
    [SentenceTransformer(model_name).encode(text, normalize_embeddings=True)],
    loading of the model included. *)
Class Libs := {
  embedding : Type;
  sha256_hexdigest : string -> string;
  HAS_ML_DEPS : bool;
  st_encode : string -> outcome embedding;
  np_dot : embedding -> embedding -> outcome float;
}.

(** A row of the table [article_hashes]; [hash_id] is its primary key. *)
Record row := {
  hash_id : string;
  canonical_url : string;
  normalized_title : string;
  title_hash : string;
  body_hash : option string;
  created_at : string;
  wp_post_id : option Z;
}.

(** The dictionary [check_duplicate] returns.  The key [wp_post_id] is
    present for a duplicate only; an absent key and a NULL column are both
    [None] here. *)
Record decision := {
  is_duplicate : bool;
  reason : option string;
  similar_to : option string;
  match_wp_post_id : option Z;
  similarity_score : option float;
}.

(** The fields of a [Deduplicator] the decisions depend on. *)
Record Deduplicator := {
  similarity_threshold : float;
}.

Definition punctuation : list ascii := list_ascii_of_string ".,;:!?-_".

Definition _normalize_title (title : string) : string :=
  if negb (Py.truthy title) then ""
  else
    let normalized := Py.strip (Py.lower title) in
    let normalized :=
      fold_left (fun acc char => Py.replace_char char " "%char acc)
                punctuation normalized in
    Py.join " " (Py.split normalized).

Definition combined_key (canonical_url normalized_title : string) : string :=
  canonical_url +:+ "|" +:+ normalized_title.

(** INSERT OR REPLACE on the primary key: a row with the same [hash_id] is
    deleted, and the new row gets the highest rowid. *)
Definition insert_or_replace (r : row) (db : list row) : list row :=
  filter (fun x => hash_id x ≠ hash_id r) db ++ [r].

(** SELECT ... WHERE col = ? followed by [fetchone()] / [fetchall()]. *)
Definition select_by_hash_id (db : list row) (h : string) : list row :=
  filter (fun x => hash_id x = h) db.

Definition select_by_canonical_url (db : list row) (u : string) : list row :=
  filter (fun x => canonical_url x = u) db.

Definition select_by_title_hash (db : list row) (th : string) : list row :=
  filter (fun x => title_hash x = th) db.

Definition fetchone (rows : list row) : option row := head rows.

Definition not_duplicate : decision :=
  {| is_duplicate := false; reason := None; similar_to := None;
     match_wp_post_id := None; similarity_score := None |}.

Definition duplicate_of (why : string) (h : string) (p : option Z) (score : float)
  : decision :=
  {| is_duplicate := true; reason := Some why; similar_to := Some h;
     match_wp_post_id := p; similarity_score := Some score |}.

Section WithLibs.
Context `{Libs}.
Local Open Scope outcome_scope.

Definition _compute_hash (text : string) : string := sha256_hexdigest text.

Definition _compute_embedding (text : string) : outcome (option embedding) :=
  if negb HAS_ML_DEPS then Ret None
  else
    let text := if (1000 <? Py.len text)%nat then Py.take 1000 text else text in
    e <~ st_encode text ;; Ret (Some e).

Definition _cosine_similarity (vec1 vec2 : embedding) : outcome float :=
  np_dot vec1 vec2.

(** The [for] loop over [title_matches]; [best] is the pair
    ([best_similarity], [best_match]). *)
Fixpoint scan_title_matches (current_title_emb : embedding)
    (title_matches : list row) (best : float * option (string * option Z))
  : outcome (float * option (string * option Z)) :=
  match title_matches with
  | [] => Ret best
  | m :: rest =>
      match_title_emb <~ _compute_embedding (normalized_title m) ;;
      match match_title_emb with
      | None => scan_title_matches current_title_emb rest best
      | Some match_emb =>
          similarity <~ _cosine_similarity current_title_emb match_emb ;;
          if PrimFloat.ltb (fst best) similarity
          then scan_title_matches current_title_emb rest
                 (similarity, Some (hash_id m, wp_post_id m))
          else scan_title_matches current_title_emb rest best
      end
  end.

(** The body of the [try] of the third control: [Ret (Some d)] when it
    returns [d], [Ret None] when it falls through, [Raise e] when it
    raises.  Subscripting [best_match] while it is still [None] is a
    TypeError. *)
Definition semantic_title_check (self : Deduplicator)
    (title_matches : list row) (normalized_title : string)
  : outcome (option decision) :=
  current_title_emb <~ _compute_embedding normalized_title ;;
  match current_title_emb with
  | None => Ret None
  | Some cur =>
      best <~ scan_title_matches cur title_matches (0%float, None) ;;
      if PrimFloat.leb (similarity_threshold self) (fst best) then
        match snd best with
        | Some (h, p) =>
            Ret (Some (duplicate_of "semantic_similarity_title" h p (fst best)))
        | None => Raise (Exception "'NoneType' object is not subscriptable")
        end
      else Ret None
  end.

Definition check_duplicate (self : Deduplicator) (db : list row)
    (canonical_url title : string) (body : option string) : outcome decision :=
  let normalized_title := _normalize_title title in
  let title_hash := _compute_hash normalized_title in
  let combined := combined_key canonical_url normalized_title in
  let hash_id := _compute_hash combined in
  match fetchone (select_by_hash_id db hash_id) with
  | Some exact_match =>
      Ret (duplicate_of "exact_hash_match" (Dedupe.hash_id exact_match)
             (wp_post_id exact_match) 1%float)
  | None =>
      match fetchone (select_by_canonical_url db canonical_url) with
      | Some url_match =>
          Ret (duplicate_of "same_canonical_url" (Dedupe.hash_id url_match)
                 (wp_post_id url_match) 1%float)
      | None =>
          let title_matches := select_by_title_hash db title_hash in
          match title_matches with
          | [] => Ret not_duplicate
          | _ :: _ =>
              match semantic_title_check self title_matches normalized_title with
              | Ret (Some d) => Ret d
              | Ret None => Ret not_duplicate
              | Raise (Exception _) => Ret not_duplicate
              | Raise KeyboardInterrupt => Raise KeyboardInterrupt
              end
          end
      end
  end.

(** [register_article]: the id it returns and the table after the commit.
    [now] is [datetime.now().isoformat()]. *)
Definition register_article (db : list row) (canonical_url title : string)
    (body : option string) (wp_post_id : option Z) (now : string)
  : string * list row :=
  let normalized_title := _normalize_title title in
  let title_hash := _compute_hash normalized_title in
  let body_hash :=
    match body with
    | Some b => if Py.truthy b then Some (_compute_hash b) else None
    | None => None
    end in
  let combined := combined_key canonical_url normalized_title in
  let hash_id := _compute_hash combined in
  let created_at := now in
  (hash_id,
   insert_or_replace
     {| hash_id := hash_id; canonical_url := canonical_url;
        normalized_title := normalized_title; title_hash := title_hash;
        body_hash := body_hash; created_at := created_at;
        wp_post_id := wp_post_id |} db).

(** The value both [check_duplicate] and [register_article] compute as
    [hash_id]: the fingerprint id of the spec. *)
Definition fingerprint_id (canonical_url title : string) : string :=
  _compute_hash (combined_key canonical_url (_normalize_title title)).

(** The arguments of one call of [register_article], with its clock. *)
Definition registration : Type :=
  string * string * option string * option Z * string.

(** The table after a sequence of registrations. *)
Definition register_each (db : list row) (calls : list registration) : list row :=
  fold_left
    (fun db '(canonical_url, title, body, wp_post_id, now) =>
       snd (register_article db canonical_url title body wp_post_id now))
    calls db.

End WithLibs.

(** Libraries for concrete runs: the real SHA-256, and a sentence encoder
    that is not installed. *)
Definition hash_only_libs : Libs :=
  {| embedding := unit;
     sha256_hexdigest := Sha256.hexdigest;
     HAS_ML_DEPS := false;
     st_encode := fun _ => Raise (Exception "No module named 'sentence_transformers'");
     np_dot := fun _ _ => Ret 0%float |}.

(** Libraries whose encoder is installed and fails on every text. *)
Definition failing_model_libs : Libs :=
  {| embedding := unit;
     sha256_hexdigest := Sha256.hexdigest;
     HAS_ML_DEPS := true;
     st_encode := fun _ => Raise (Exception "model download failed");
     np_dot := fun _ _ => Ret 0%float |}.

Definition default_deduplicator : Deduplicator :=
  {| similarity_threshold := 0.85%float |}.

End Dedupe.

(* ===================================================================== *)
(** ** The dictionaries exchanged between the steps *)
(* ===================================================================== *)

(** What [ArticleExtractor.extract] returns, restricted to the keys the
    pipeline and the gates read. *)
Record extracted := {
  ex_url : option string;
  ex_canonical_url : option string;
  ex_title : option string;
  ex_text : option string;
  ex_source_name : option string;
}.

(** What [ArticleRewriter.rewrite] returns, restricted likewise. *)
Record rewritten := {
  headline : option string;
  lead : option string;
  body_markdown : option string;
  word_count : option Z;
  category : option string;
}.

(** [d.get(key, "")] *)
Definition get_str (field : option string) : string := default "" field.

(* ===================================================================== *)
(** ** src/quality_gates.py *)
(* ===================================================================== *)

Module QualityGates.

(** What [quality_gates.py] imports.  [re_search pattern ignorecase text]
    tells whether [re.search] finds a match; [format_2f] is the format
    specification [:.2f]. *)
Class Libs := {
  embedding : Type;
  st_encode : string -> outcome embedding;
  np_dot : embedding -> embedding -> outcome float;
  re_search : string -> bool -> string -> bool;
  format_2f : float -> string;
}.

Inductive risk : Type := Low | Medium | High.

Global Instance risk_eq_dec : EqDecision risk.
Proof. solve_decision. Defined.

Definition risk_str (r : risk) : string :=
  match r with Low => "low" | Medium => "medium" | High => "high" end.

Record QualityGates := {
  similarity_threshold : float;
  min_length : Z;
  max_length : Z;
  risk_keywords_high : list string;
  risk_keywords_medium : list string;
}.

(** The object [QualityGates.__init__] builds. *)
Definition new (similarity_threshold : float) (min_length max_length : Z)
  : QualityGates :=
  {| similarity_threshold := similarity_threshold;
     min_length := min_length;
     max_length := max_length;
     risk_keywords_high :=
       [ "diffamazione"; "calunnia"; "hate speech"; "incitamento";
         "dati sensibili"; "codice fiscale"; "numero carta"; "password" ];
     risk_keywords_medium :=
       [ "gossip"; "scandalo"; "polemica"; "controversia" ] |}.

(** The verdict [check] returns; the spec calls [ok] "passed". *)
Record verdict := {
  ok : bool;
  issues : list string;
  risk_level : risk;
  similarity_score : float;
  needs_review : bool;
}.

Definition dangerous_patterns : list string :=
  [ "<script"; "<iframe"; "javascript:"; "onclick="; "onerror=" ].

Definition sensitive_patterns : list string :=
  [ "\b\d{16}\b";
    "\b[A-Z]{6}\d{2}[A-Z]\d{2}[A-Z]\d{3}[A-Z]\b";
    "\b\d{4}\s?\d{4}\s?\d{4}\s?\d{4}\b" ].

Definition _count_words (text : string) : nat := length (Py.split text).

(** The dictionary [word_freq] after the loop over [words]. *)
Definition word_frequencies (words : list string) : gmap string nat :=
  fold_left
    (fun (word_freq : gmap string nat) word =>
       if (4 <? Py.len word)%nat
       then <[word := (default 0%nat (word_freq !! word) + 1)%nat]> word_freq
       else word_freq)
    words ∅.

(** [max(word_freq.values()) if word_freq else 0] *)
Definition max_frequency (word_freq : gmap string nat) : nat :=
  map_fold (fun _ n acc => Nat.max n acc) 0%nat word_freq.

Section WithLibs.
Context `{Libs}.

Definition _check_similarity (self : QualityGates)
    (original_text rewritten_text : string) : outcome (bool * float) :=
  let orig_limited := Py.take 2000 original_text in
  let rew_limited := Py.take 2000 rewritten_text in
  let body :=
    (orig_emb <~ st_encode orig_limited ;;
     rew_emb <~ st_encode rew_limited ;;
     similarity <~ np_dot orig_emb rew_emb ;;
     let is_too_similar := PrimFloat.leb (similarity_threshold self) similarity in
     Ret (is_too_similar, similarity))%outcome in
  match body with
  | Ret r => Ret r
  | Raise (Exception _) => Ret (false, 0%float)
  | Raise KeyboardInterrupt => Raise KeyboardInterrupt
  end.

Definition _check_sanity (self : QualityGates) (rewritten_data : rewritten)
  : list string :=
  let body := get_str (body_markdown rewritten_data) in
  let headline := get_str (headline rewritten_data) in
  let lead := get_str (lead rewritten_data) in
  let word_count := default 0%Z (word_count rewritten_data) in
  let issues := [] in
  let issues :=
    if (word_count <? min_length self)%Z
    then Py.append issues ("Articolo troppo corto: " +:+ pretty word_count +:+
                    " parole (min: " +:+ pretty (min_length self) +:+ ")")
    else issues in
  let issues :=
    if (max_length self <? word_count)%Z
    then Py.append issues ("Articolo troppo lungo: " +:+ pretty word_count +:+
                    " parole (max: " +:+ pretty (max_length self) +:+ ")")
    else issues in
  let issues :=
    if negb (Py.truthy body) || (Py.len (Py.strip body) <? 100)%nat
    then Py.append issues ("Corpo articolo vuoto o troppo corto") else issues in
  let issues :=
    if negb (Py.truthy headline) || (Py.len (Py.strip headline) <? 10)%nat
    then Py.append issues ("Headline vuota o troppo corta") else issues in
  let issues :=
    if negb (Py.truthy lead) || (Py.len (Py.strip lead) <? 20)%nat
    then Py.append issues ("Lead vuoto o troppo corto") else issues in
  let body_lower := Py.lower body in
  let words := Py.split body_lower in
  let issues :=
    if (0 <? length words)%nat then
      let max_freq := max_frequency (word_frequencies words) in
      if PrimFloat.ltb (PrimFloat.mul (Py.int_to_float (length words)) 0.1%float)
                       (Py.int_to_float max_freq)
      then Py.append issues ("Ripetizioni eccessive nel contenuto") else issues
    else issues in
  fold_left
    (fun issues pattern =>
       if re_search pattern true body
       then Py.append issues ("Contenuto contiene pattern pericoloso: " +:+ pattern)
       else issues)
    dangerous_patterns issues.

Definition _check_policy (self : QualityGates) (rewritten_data : rewritten)
    (original_data : extracted) : risk * list string :=
  let body := Py.lower (get_str (body_markdown rewritten_data)) in
  let headline := Py.lower (get_str (headline rewritten_data)) in
  let lead := Py.lower (get_str (lead rewritten_data)) in
  let combined_text := headline +:+ " " +:+ lead +:+ " " +:+ body in
  let st : risk * list string := (Low, []) in
  let st :=
    fold_left
      (fun (st : risk * list string) keyword =>
         if Py.contains (Py.lower keyword) combined_text
         then (High, Py.append (snd st) ("Contenuto ad alto rischio: keyword '" +:+ keyword
                                +:+ "' trovata"))
         else st)
      (risk_keywords_high self) st in
  let st :=
    if decide (fst st ≠ High) then
      fold_left
        (fun (st : risk * list string) keyword =>
           if Py.contains (Py.lower keyword) combined_text
           then ((if decide (fst st = Low) then Medium else fst st),
                 Py.append (snd st) ("Contenuto a medio rischio: keyword '" +:+ keyword
                            +:+ "' trovata"))
           else st)
        (risk_keywords_medium self) st
    else st in
  fold_left
    (fun (st : risk * list string) pattern =>
       if re_search pattern false combined_text
       then (High, Py.append (snd st) ("Dati sensibili rilevati: pattern " +:+ pattern))
       else st)
    sensitive_patterns st.

Definition check (self : QualityGates) (original_data : extracted)
    (rewritten_data : rewritten) : outcome verdict :=
  let original_text := get_str (ex_text original_data) in
  let rewritten_text := get_str (body_markdown rewritten_data) in
  (sim <~ _check_similarity self original_text rewritten_text ;;
   let '(is_too_similar, similarity_score) := sim in
   let all_issues :=
     if is_too_similar
     then ["Testo troppo simile all'originale (similarity: "
           +:+ format_2f similarity_score +:+ ")"]
     else [] in
   let sanity_issues := _check_sanity self rewritten_data in
   let all_issues := Py.extend all_issues sanity_issues in
   let '(risk_level, policy_issues) :=
     _check_policy self rewritten_data original_data in
   let all_issues := Py.extend all_issues policy_issues in
   let ok := (length all_issues =? 0)%nat && bool_decide (risk_level ≠ High) in
   let needs_review :=
     bool_decide (risk_level = Medium) || bool_decide (risk_level = High)
     || is_too_similar || (0 <? length sanity_issues)%nat in
   Ret {| ok := ok; issues := all_issues; risk_level := risk_level;
          similarity_score := similarity_score;
          needs_review := needs_review |})%outcome.

End WithLibs.

End QualityGates.

(* ===================================================================== *)
(** ** The regular expressions of the gates, for concrete runs *)
(* ===================================================================== *)

(** A matcher for the eight patterns [quality_gates.py] hands to
    [re.search], on ASCII text: literal characters, the classes [\d],
    [\s] and [[A-Z]], counted repetition, [?] and [\b]. *)
Module Re.

Inductive atom : Type :=
| Lit (c : ascii)
| Digit
| Space
| Upper.

Inductive item : Type :=
| One (a : atom)
| Maybe (a : atom)
| WordBoundary.

Definition word_char (c : ascii) : bool :=
  Py.isdigit c || Py.isupper c || Py.islower c || Ascii.eqb c "_".

Definition atom_matches (ignorecase : bool) (a : atom) (c : ascii) : bool :=
  match a with
  | Lit l =>
      if ignorecase then Ascii.eqb (Py.lower_char c) (Py.lower_char l)
      else Ascii.eqb c l
  | Digit => Py.isdigit c
  | Space => Py.isspace c
  | Upper => Py.isupper c || (ignorecase && Py.islower c)
  end.

Definition at_boundary (prev : option ascii) (s : string) : bool :=
  let before := match prev with Some c => word_char c | None => false end in
  let after := match s with String c _ => word_char c | EmptyString => false end in
  xorb before after.

(** Does the sequence [p] match a prefix of [s]?  [prev] is the character
    just before [s]. *)
Fixpoint match_here (ignorecase : bool) (p : list item) (prev : option ascii)
    (s : string) : bool :=
  match p with
  | [] => true
  | WordBoundary :: p' => at_boundary prev s && match_here ignorecase p' prev s
  | One a :: p' =>
      match s with
      | String c s' =>
          atom_matches ignorecase a c && match_here ignorecase p' (Some c) s'
      | EmptyString => false
      end
  | Maybe a :: p' =>
      match s with
      | String c s' =>
          (atom_matches ignorecase a c && match_here ignorecase p' (Some c) s')
          || match_here ignorecase p' prev s
      | EmptyString => match_here ignorecase p' prev s
      end
  end.

Fixpoint search_from (ignorecase : bool) (p : list item) (prev : option ascii)
    (s : string) : bool :=
  match_here ignorecase p prev s ||
  match s with
  | String c s' => search_from ignorecase p (Some c) s'
  | EmptyString => false
  end.

Definition literal (s : string) : list item :=
  List.map (fun c => One (Lit c)) (list_ascii_of_string s).

Definition times (n : nat) (a : atom) : list item := List.repeat (One a) n.

(** The compiled form of each pattern the gates use. *)
Definition compile (pattern : string) : option (list item) :=
  if String.eqb pattern "\b\d{16}\b" then
    Some (WordBoundary :: times 16 Digit ++ [WordBoundary])
  else if String.eqb pattern "\b[A-Z]{6}\d{2}[A-Z]\d{2}[A-Z]\d{3}[A-Z]\b" then
    Some (WordBoundary :: times 6 Upper ++ times 2 Digit ++ times 1 Upper
          ++ times 2 Digit ++ times 1 Upper ++ times 3 Digit ++ times 1 Upper
          ++ [WordBoundary])
  else if String.eqb pattern "\b\d{4}\s?\d{4}\s?\d{4}\s?\d{4}\b" then
    Some (WordBoundary :: times 4 Digit ++ Maybe Space :: times 4 Digit
          ++ Maybe Space :: times 4 Digit ++ Maybe Space :: times 4 Digit
          ++ [WordBoundary])
  else if bool_decide (pattern ∈ QualityGates.dangerous_patterns) then
    Some (literal pattern)
  else None.

Definition search (pattern : string) (ignorecase : bool) (text : string) : bool :=
  match compile pattern with
  | Some p => search_from ignorecase p None text
  | None => false
  end.

End Re.

Module QualityDemo.

(** Libraries for concrete runs of the gates: the matcher above, and a
    sentence encoder that cannot be loaded, so that the similarity check
    takes its fallback. *)
Definition no_model_libs : QualityGates.Libs :=
  {| QualityGates.embedding := unit;
     QualityGates.st_encode := fun _ => Raise (Exception "model not found");
     QualityGates.np_dot := fun _ _ => Ret 0%float;
     QualityGates.re_search := Re.search;
     QualityGates.format_2f := fun _ => "0.00" |}.

(** Libraries whose encoder finds every two texts identical. *)
Definition same_text_libs : QualityGates.Libs :=
  {| QualityGates.embedding := unit;
     QualityGates.st_encode := fun _ => Ret tt;
     QualityGates.np_dot := fun _ _ => Ret 1%float;
     QualityGates.re_search := Re.search;
     QualityGates.format_2f := fun _ => "1.00" |}.

Definition default_gates : QualityGates.QualityGates :=
  QualityGates.new 0.85%float 200 2000.

Definition sentence : string :=
  "The council approved the new budget after a long debate on Tuesday. ".

Definition good_rewrite : rewritten :=
  {| headline := Some "Council approves the budget";
     lead := Some "After a long debate the council approved the budget.";
     body_markdown := Some (sentence +:+ sentence +:+ sentence);
     word_count := Some 250%Z;
     category := Some "news" |}.

Definition gossip_rewrite : rewritten :=
  {| headline := Some "Council approves the budget";
     lead := Some "The latest gossip: the council approved the budget.";
     body_markdown := Some (sentence +:+ sentence +:+ sentence);
     word_count := Some 250%Z;
     category := Some "news" |}.

Definition script_rewrite : rewritten :=
  {| headline := Some "Council approves the budget";
     lead := Some "After a long debate the council approved the budget.";
     body_markdown := Some (sentence +:+ "<SCRIPT>alert(1)</SCRIPT>" +:+ sentence);
     word_count := Some 250%Z;
     category := Some "news" |}.

Definition card_rewrite : rewritten :=
  {| headline := Some "Council approves the budget";
     lead := Some "Pay with 1234 5678 9012 3456 to support the council.";
     body_markdown := Some (sentence +:+ sentence +:+ sentence);
     word_count := Some 250%Z;
     category := Some "news" |}.

Definition source_article : extracted :=
  {| ex_url := Some "https://example.org/budget?utm=1";
     ex_canonical_url := Some "https://example.org/budget";
     ex_title := Some "Budget approved by the council";
     ex_text := Some (sentence +:+ sentence);
     ex_source_name := Some "Example" |}.

End QualityDemo.

(* ===================================================================== *)
(** ** src/pipeline.py *)
(* ===================================================================== *)

(** The dictionary [stats] of [NewsPipeline.run]: the RunState of the
    spec.  The key [completed_at] is absent until the run is finalized. *)
Module Stats.

Inductive run_status : Type := Running | Completed.
Inductive step : Type := Fetching | Processing | StepCompleted.

Record article_ref := {
  url : string;
  title : string;
  number : nat;
  total : nat;
}.

Record t := {
  total_candidates : nat;
  processed : nat;
  created : nat;
  skipped : nat;
  failed : nat;
  run_id : string;
  status : run_status;
  current_step : step;
  current_article : option article_ref;
  started_at : string;
  completed_at : option string;
}.

Definition initial (run_id started_at : string) : t :=
  {| total_candidates := 0; processed := 0; created := 0; skipped := 0;
     failed := 0; run_id := run_id; status := Running;
     current_step := Fetching; current_article := None;
     started_at := started_at; completed_at := None |}.

Definition set_total_candidates (n : nat) (s : t) : t :=
  {| total_candidates := n; processed := processed s; created := created s;
     skipped := skipped s; failed := failed s; run_id := run_id s;
     status := status s; current_step := current_step s;
     current_article := current_article s; started_at := started_at s;
     completed_at := completed_at s |}.

Definition set_current_step (c : step) (s : t) : t :=
  {| total_candidates := total_candidates s; processed := processed s;
     created := created s; skipped := skipped s; failed := failed s;
     run_id := run_id s; status := status s; current_step := c;
     current_article := current_article s; started_at := started_at s;
     completed_at := completed_at s |}.

Definition set_current_article (a : option article_ref) (s : t) : t :=
  {| total_candidates := total_candidates s; processed := processed s;
     created := created s; skipped := skipped s; failed := failed s;
     run_id := run_id s; status := status s; current_step := current_step s;
     current_article := a; started_at := started_at s;
     completed_at := completed_at s |}.

Definition incr_processed (s : t) : t :=
  {| total_candidates := total_candidates s; processed := processed s + 1;
     created := created s; skipped := skipped s; failed := failed s;
     run_id := run_id s; status := status s; current_step := current_step s;
     current_article := current_article s; started_at := started_at s;
     completed_at := completed_at s |}.

Definition incr_created (s : t) : t :=
  {| total_candidates := total_candidates s; processed := processed s;
     created := created s + 1; skipped := skipped s; failed := failed s;
     run_id := run_id s; status := status s; current_step := current_step s;
     current_article := current_article s; started_at := started_at s;
     completed_at := completed_at s |}.

Definition incr_skipped (s : t) : t :=
  {| total_candidates := total_candidates s; processed := processed s;
     created := created s; skipped := skipped s + 1; failed := failed s;
     run_id := run_id s; status := status s; current_step := current_step s;
     current_article := current_article s; started_at := started_at s;
     completed_at := completed_at s |}.

Definition incr_failed (s : t) : t :=
  {| total_candidates := total_candidates s; processed := processed s;
     created := created s; skipped := skipped s; failed := failed s + 1;
     run_id := run_id s; status := status s; current_step := current_step s;
     current_article := current_article s; started_at := started_at s;
     completed_at := completed_at s |}.

(** The four assignments at the head of the [finally] block. *)
Definition finalize (now : string) (s : t) : t :=
  {| total_candidates := total_candidates s; processed := processed s;
     created := created s; skipped := skipped s; failed := failed s;
     run_id := run_id s; status := Completed; current_step := StepCompleted;
     current_article := None; started_at := started_at s;
     completed_at := Some now |}.

End Stats.

Module Pipeline.

Inductive article_status : Type := Skipped | Created | Failed.

Definition status_str (s : article_status) : string :=
  match s with Skipped => "skipped" | Created => "created" | Failed => "failed" end.

(** What [process_article] returns. *)
Record result := {
  status : article_status;
  reason : option string;
  post_id : option Z;
  timing : gmap string float;
}.

(** A candidate of [SourceFetcher.fetch_all]. *)
Record candidate := {
  cand_url : string;
  cand_source : option string;
  cand_title : option string;
}.

(** A call that leaves the process, or a file it writes. *)
Inductive event : Type :=
| EvFetchAll (limit : option nat)
| EvExtract (url : string) (source_name : option string)
| EvCheckDuplicate (canonical_url title : string)
| EvRewrite (url : option string)
| EvQualityCheck (url : option string)
| EvSaveRewritten (url : option string) (passed : bool)
| EvCreatePost (url : option string)
| EvRegisterArticle (canonical_url title : string) (wp_post_id : option Z)
| EvSaveStatus (stats : Stats.t)
| EvLogOperation (url : string) (st : article_status) (reason : option string)
    (timing : gmap string float) (post_id : option Z)
| EvGenerateReport (run_id : string) (stats : Stats.t)
| EvSleep (seconds : nat).

(** Everything outside the interpreter: how often the clock was read, the
    table of the deduplicator, the status file, the reports written, and
    the calls made so far, oldest first. *)
Record world := {
  clock_reads : nat;
  article_hashes : list Dedupe.row;
  status_file : option Stats.t;
  reports : list (string * Stats.t);
  events : list event;
}.

Definition tick (w : world) : world :=
  {| clock_reads := S (clock_reads w); article_hashes := article_hashes w;
     status_file := status_file w; reports := reports w; events := events w |}.

Definition record_event (e : event) (w : world) : world :=
  {| clock_reads := clock_reads w; article_hashes := article_hashes w;
     status_file := status_file w; reports := reports w;
     events := app (events w) [e] |}.

Definition set_article_hashes (db : list Dedupe.row) (w : world) : world :=
  {| clock_reads := clock_reads w; article_hashes := db;
     status_file := status_file w; reports := reports w; events := events w |}.

Definition set_status_file (s : Stats.t) (w : world) : world :=
  {| clock_reads := clock_reads w; article_hashes := article_hashes w;
     status_file := Some s; reports := reports w; events := events w |}.

Definition add_report (r : string * Stats.t) (w : world) : world :=
  {| clock_reads := clock_reads w; article_hashes := article_hashes w;
     status_file := status_file w; reports := app (reports w) [r];
     events := events w |}.

(** The libraries and collaborators of the pipeline.  A collaborator sees
    the calls made before it, so it may answer differently each time; the
    clock is read by position. *)
Class Collaborators := {
  dedupe_libs :: Dedupe.Libs;
  quality_libs :: QualityGates.Libs;
  time_time : nat -> float;
  time_strftime : nat -> string;
  datetime_now_isoformat : nat -> string;
  uuid4_str : nat -> string;
  fetcher_fetch_all : list event -> option nat -> outcome (list candidate);
  extractor_extract : list event -> string -> option string -> outcome extracted;
  rewriter_rewrite : list event -> extracted -> outcome rewritten;
  wp_create_post_from_pipeline :
    list event -> rewritten -> extracted -> QualityGates.verdict ->
    outcome (option Z);
  time_sleep : list event -> nat -> outcome unit;
}.

Record WordPressClient := { wp_url : string }.

Record NewsPipeline := {
  dry_run : bool;
  deduplicator : Dedupe.Deduplicator;
  quality_gates : QualityGates.QualityGates;
  wp_client : option WordPressClient;
}.

(** A computation over the world and one frame of mutable locals of type
    [L]: the dictionary [timing] in [process_article], the dictionary
    [stats] in [run].  The state survives a raise, so a handler sees the
    locals as the body left them. *)
Definition M (L A : Type) : Type := world * L -> outcome A * (world * L).

Definition ret {L A} (a : A) : M L A := fun s => (Ret a, s).

Definition bind {L A B} (m : M L A) (k : A -> M L B) : M L B :=
  fun s =>
    match m s with
    | (Ret a, s') => k a s'
    | (Raise e, s') => (Raise e, s')
    end.

Definition raise {L A} (e : exn) : M L A := fun s => (Raise e, s).

Declare Scope pipeline_scope.
Delimit Scope pipeline_scope with pipeline.
Notation "x <- m ;; k" := (bind m (fun x => k))
  (at level 100, m at next level, right associativity) : pipeline_scope.
Notation "m ;; k" := (bind m (fun _ => k))
  (at level 100, right associativity) : pipeline_scope.

(** [try: body except ...: handler]; the handler declines the exceptions
    its clauses do not name. *)
Definition try_except {L A} (body : M L A) (handler : exn -> option (M L A))
  : M L A :=
  fun s =>
    match body s with
    | (Ret a, s') => (Ret a, s')
    | (Raise e, s') =>
        match handler e with
        | Some h => h s'
        | None => (Raise e, s')
        end
    end.

(** [try: body finally: final] *)
Definition try_finally {L A} (body : M L A) (final : M L unit) : M L A :=
  fun s =>
    let '(r, s') := body s in
    match final s' with
    | (Ret _, s'') => (r, s'')
    | (Raise e, s'') => (Raise e, s'')
    end.

Definition except_Exception {L A} (h : string -> M L A) (e : exn)
  : option (M L A) :=
  match e with
  | Exception msg => Some (h msg)
  | KeyboardInterrupt => None
  end.

Definition locals {L} : M L L := fun s => (Ret (snd s), s).

Definition update_locals {L} (f : L -> L) : M L unit :=
  fun s => (Ret tt, (fst s, f (snd s))).

Definition update_world {L} (f : world -> world) : M L unit :=
  fun s => (Ret tt, (f (fst s), snd s)).

Definition lift {L A} (o : outcome A) : M L A := fun s => (o, s).

(** Run [m] with a fresh frame [init]; the caller's frame is untouched. *)
Definition with_frame {L L' A} (init : L') (m : M L' A) : M L A :=
  fun s =>
    let '(r, s') := m (fst s, init) in (r, (fst s', snd s)).

(** A call to a collaborator: it is recorded, and answered from the calls
    made before it. *)
Definition call {L A} (e : event) (answer : list event -> outcome A) : M L A :=
  fun s => (answer (events (fst s)), (record_event e (fst s), snd s)).

(** [d[key]] on a key that may be absent. *)
Definition subscript {L A} (key : string) (field : option A) : M L A :=
  match field with
  | Some v => ret v
  | None => raise (Exception ("'" +:+ key +:+ "'"))
  end.

Section WithCollaborators.
Context `{Collaborators}.
Local Open Scope pipeline_scope.

(** [time.time()] *)
Definition now_seconds {L} : M L float :=
  fun s => (Ret (time_time (clock_reads (fst s))), (tick (fst s), snd s)).

(** [time.strftime("%Y-%m-%dT%H:%M:%S")] *)
Definition now_stamp {L} : M L string :=
  fun s => (Ret (time_strftime (clock_reads (fst s))), (tick (fst s), snd s)).

(** [timing[key] = time.time() - since] *)
Definition record_elapsed (key : string) (since : float)
  : M (gmap string float) unit :=
  t <- now_seconds ;;
  update_locals (fun timing => <[key := PrimFloat.sub t since]> timing).

Definition deduplicator_check_duplicate {L} (self : NewsPipeline)
    (canonical_url title : string) (body : option string) : M L Dedupe.decision :=
  fun s =>
    (Dedupe.check_duplicate (deduplicator self) (article_hashes (fst s))
       canonical_url title body,
     (record_event (EvCheckDuplicate canonical_url title) (fst s), snd s)).

Definition deduplicator_register_article {L} (self : NewsPipeline)
    (canonical_url title : string) (body : option string)
    (wp_post_id : option Z) : M L string :=
  fun s =>
    let w := fst s in
    let '(h, db) :=
      Dedupe.register_article (article_hashes w) canonical_url title body
        wp_post_id (datetime_now_isoformat (clock_reads w)) in
    (Ret h,
     (record_event (EvRegisterArticle canonical_url title wp_post_id)
        (set_article_hashes db (tick w)), snd s)).

Definition quality_gates_check {L} (self : NewsPipeline)
    (extracted_data : extracted) (rewritten_data : rewritten)
  : M L QualityGates.verdict :=
  call (EvQualityCheck (ex_url extracted_data))
       (fun _ => QualityGates.check (quality_gates self) extracted_data
                   rewritten_data).

(** [_save_rewritten_data] writes one file and swallows its own errors. *)
Definition _save_rewritten_data {L} (extracted_data : extracted)
    (rewritten_data : rewritten) (quality_result : QualityGates.verdict)
  : M L unit :=
  update_world
    (record_event (EvSaveRewritten (ex_url extracted_data)
                     (QualityGates.ok quality_result))).

Definition skipped_because (why : string) : M (gmap string float) result :=
  timing <- locals ;;
  ret {| status := Skipped; reason := Some why; post_id := None;
         timing := timing |}.

(** The body of the [try] of [process_article]; [start_time] was read
    before it. *)
Definition article_steps (self : NewsPipeline) (candidate : candidate)
    (start_time : float) : M (gmap string float) result :=
  let url := cand_url candidate in
  step_start <- now_seconds ;;
  extracted_data <-
    call (EvExtract url (cand_source candidate))
         (fun h => extractor_extract h url (cand_source candidate)) ;;
  record_elapsed "extract" step_start ;;
  let text := Py.strip (get_str (ex_text extracted_data)) in
  let title := Py.strip (get_str (ex_title extracted_data)) in
  if negb (Py.truthy text) || (Py.len text <? 100)%nat then
    skipped_because
      ("empty_content: " +:+ pretty (Py.len text) +:+ " caratteri")
  else if negb (Py.truthy title) || (Py.len title <? 10)%nat then
    skipped_because
      ("empty_title: " +:+ pretty (Py.len title) +:+ " caratteri")
  else
    step_start <- now_seconds ;;
    canonical_url <-
      subscript "canonical_url" (ex_canonical_url extracted_data) ;;
    full_title <- subscript "title" (ex_title extracted_data) ;;
    dedupe_result <-
      deduplicator_check_duplicate self canonical_url full_title
        (ex_text extracted_data) ;;
    record_elapsed "dedupe" step_start ;;
    if Dedupe.is_duplicate dedupe_result then
      skipped_because
        ("duplicate: " +:+ default "None" (Dedupe.reason dedupe_result))
    else
      step_start <- now_seconds ;;
      rewritten_data <-
        call (EvRewrite (ex_url extracted_data))
             (fun h => rewriter_rewrite h extracted_data) ;;
      record_elapsed "rewrite" step_start ;;
      step_start <- now_seconds ;;
      quality_result <-
        quality_gates_check self extracted_data rewritten_data ;;
      record_elapsed "quality" step_start ;;
      _save_rewritten_data extracted_data rewritten_data quality_result ;;
      if negb (QualityGates.ok quality_result)
         || bool_decide (QualityGates.risk_level quality_result
                         = QualityGates.High)
      then
        skipped_because
          ("quality_gate_failed: "
           +:+ Py.join ", " (QualityGates.issues quality_result))
      else
        match wp_client self with
        | None => skipped_because "wp_client_not_configured"
        | Some _ =>
            step_start <- now_seconds ;;
            created_id <-
              call (EvCreatePost (ex_url extracted_data))
                   (fun h => wp_create_post_from_pipeline h rewritten_data
                               extracted_data quality_result) ;;
            record_elapsed "wp_post" step_start ;;
            match created_id with
            | None | Some 0%Z =>
                timing <- locals ;;
                ret {| status := Failed;
                       reason := Some "wp_post_creation_failed";
                       post_id := None; timing := timing |}
            | Some _ =>
                canonical_url <-
                  subscript "canonical_url"
                    (ex_canonical_url extracted_data) ;;
                full_title <- subscript "title" (ex_title extracted_data) ;;
                deduplicator_register_article self canonical_url full_title
                  (ex_text extracted_data) created_id ;;
                record_elapsed "total" start_time ;;
                timing <- locals ;;
                ret {| status := Created; reason := None;
                       post_id := created_id; timing := timing |}
            end
        end.

(** The [except Exception as e] clause of [process_article]; [msg] is
    [str(e)]. *)
Definition article_failed (start_time : float) (msg : string)
  : M (gmap string float) result :=
  record_elapsed "total" start_time ;;
  timing <- locals ;;
  ret {| status := Failed; reason := Some msg; post_id := None;
         timing := timing |}.

Definition process_article {L} (self : NewsPipeline) (candidate : candidate)
  : M L result :=
  with_frame (∅ : gmap string float)
    (start_time <- now_seconds ;;
     try_except (article_steps self candidate start_time)
       (except_Exception (article_failed start_time))).

(** [_save_status] rewrites the status file and swallows its own errors. *)
Definition _save_status : M Stats.t unit :=
  stats <- locals ;;
  update_world (fun w => record_event (EvSaveStatus stats) (set_status_file stats w)).

(** [logger.log_operation(operation="pipeline", ...)] *)
Definition log_operation (url : string) (r : result) : M Stats.t unit :=
  update_world
    (record_event (EvLogOperation url (status r) (reason r) (timing r)
                     (post_id r))).

(** [logger.generate_report(run_id, stats)] *)
Definition generate_report (run_id : string) : M Stats.t unit :=
  stats <- locals ;;
  update_world
    (fun w => record_event (EvGenerateReport run_id stats)
                (add_report (run_id, stats) w)).

Definition count_result (r : result) : Stats.t -> Stats.t :=
  match status r with
  | Created => Stats.incr_created
  | Skipped => Stats.incr_skipped
  | Failed => Stats.incr_failed
  end.

(** The loop [for i, candidate in enumerate(candidates, 1)]; [n] is
    [len(candidates)] and [i] the number of the head of [todo]. *)
Fixpoint process_candidates (self : NewsPipeline) (n i : nat)
    (todo : list candidate) : M Stats.t unit :=
  match todo with
  | [] => ret tt
  | candidate :: rest =>
      update_locals
        (Stats.set_current_article
           (Some {| Stats.url := cand_url candidate;
                    Stats.title := Py.take 80 (get_str (cand_title candidate));
                    Stats.number := i; Stats.total := n |})) ;;
      _save_status ;;
      result <- process_article self candidate ;;
      update_locals Stats.incr_processed ;;
      log_operation (cand_url candidate) result ;;
      update_locals (count_result result) ;;
      (if (i <? n)%nat then call (EvSleep 2) (fun h => time_sleep h 2)
       else ret tt) ;;
      process_candidates self n (S i) rest
  end.

(** The body of the [try] of [run]. *)
Definition fetch_and_process (self : NewsPipeline) (limit : option nat)
  : M Stats.t unit :=
  candidates <- call (EvFetchAll limit) (fun h => fetcher_fetch_all h limit) ;;
  update_locals (Stats.set_total_candidates (length candidates)) ;;
  update_locals (Stats.set_current_step Stats.Processing) ;;
  _save_status ;;
  process_candidates self (length candidates) 1 candidates.

(** The two [except] clauses of [run]: each logs and goes on. *)
Definition except_interrupt_or_error (e : exn) : option (M Stats.t unit) :=
  match e with
  | KeyboardInterrupt => Some (ret tt)
  | Exception _ => Some (ret tt)
  end.

(** The [finally] block of [run]. *)
Definition finish_run (run_id : string) : M Stats.t unit :=
  completed_at <- now_stamp ;;
  update_locals (Stats.finalize completed_at) ;;
  _save_status ;;
  generate_report run_id.

Definition run {L} (self : NewsPipeline) (limit : option nat) : M L unit :=
  fun s =>
    let run_id := Py.take 8 (uuid4_str (clock_reads (fst s))) in
    with_frame (Stats.initial run_id (time_strftime (S (clock_reads (fst s)))))
      (update_world (fun w => tick (tick w)) ;;
       _save_status ;;
       try_finally
         (try_except (fetch_and_process self limit) except_interrupt_or_error)
         (finish_run run_id))
      s.

End WithCollaborators.

End Pipeline.

(** Collaborators for concrete runs: three pages, one of which cannot be
    downloaded and one of which has a five-character title; a clock that
    advances one second per reading; a publisher that always answers 42.
    What the fetcher and the pause between two articles do is left
    open. *)
Module PipelineDemo.
Import Pipeline.

Definition budget_url : string := "https://example.org/budget".
Definition broken_url : string := "https://example.org/broken".
Definition short_url : string := "https://example.org/short".

Definition page (url : string) : outcome extracted :=
  if String.eqb url broken_url then Raise (Exception "HTTP 500")
  else if String.eqb url short_url then
    Ret {| ex_url := Some url; ex_canonical_url := Some url;
           ex_title := Some "Hello";
           ex_text := Some (QualityDemo.sentence +:+ QualityDemo.sentence);
           ex_source_name := Some "Example" |}
  else
    Ret {| ex_url := Some url; ex_canonical_url := Some url;
           ex_title := Some "Budget approved by the council";
           ex_text := Some (QualityDemo.sentence +:+ QualityDemo.sentence);
           ex_source_name := Some "Example" |}.

Definition budget_candidate : candidate :=
  {| cand_url := budget_url; cand_source := Some "Example";
     cand_title := Some "Budget approved by the council" |}.

Definition broken_candidate : candidate :=
  {| cand_url := broken_url; cand_source := Some "Example";
     cand_title := Some "A page that is gone" |}.

Definition short_candidate : candidate :=
  {| cand_url := short_url; cand_source := Some "Example";
     cand_title := Some "Hello" |}.

Definition feed : list candidate :=
  [budget_candidate; broken_candidate; short_candidate].

Definition dull_feed : list candidate :=
  [short_candidate; broken_candidate; short_candidate].

Definition collaborators_for (fetched : outcome (list candidate))
    (pause : outcome unit) : Collaborators :=
  {| dedupe_libs := Dedupe.hash_only_libs;
     quality_libs := QualityDemo.no_model_libs;
     time_time := Py.int_to_float;
     time_strftime := fun n => "2024-05-01T10:00:" +:+ pretty n;
     datetime_now_isoformat := fun n => "2024-05-01T10:00:" +:+ pretty n;
     uuid4_str := fun _ => "0f8fad5b-d9cb-469f-a165-70867728950e";
     fetcher_fetch_all := fun _ _ => fetched;
     extractor_extract := fun _ url _ => page url;
     rewriter_rewrite := fun _ _ => Ret QualityDemo.good_rewrite;
     wp_create_post_from_pipeline := fun _ _ _ _ => Ret (Some 42%Z);
     time_sleep := fun _ _ => pause |}.

Definition collaborators : Collaborators :=
  collaborators_for (Ret feed) (Ret tt).

(** A user who interrupts the first pause between two articles. *)
Definition interrupted : Collaborators :=
  collaborators_for (Ret feed) (Raise KeyboardInterrupt).

(** A fetcher that fails. *)
Definition offline : Collaborators :=
  collaborators_for (Raise (Exception "network unreachable")) (Ret tt).

Definition publishing_pipeline : NewsPipeline :=
  {| dry_run := false;
     deduplicator := Dedupe.default_deduplicator;
     quality_gates := QualityDemo.default_gates;
     wp_client := Some {| wp_url := "https://blog.example.org" |} |}.

Definition dry_run_pipeline : NewsPipeline :=
  {| dry_run := true;
     deduplicator := Dedupe.default_deduplicator;
     quality_gates := QualityDemo.default_gates;
     wp_client := None |}.

Definition empty_world : world :=
  {| clock_reads := 0; article_hashes := []; status_file := None;
     reports := []; events := [] |}.

End PipelineDemo.

(* ===================================================================== *)
(** ** src/monitor.py *)
(* ===================================================================== *)

Module Monitor.

Inductive level : Type := INFO | WARNING | ERROR.

(** A thread running [_monitor_loop]. *)
Inductive thread_state : Type := Alive | Exited.

Global Instance thread_state_eq_dec : EqDecision thread_state.
Proof. solve_decision. Defined.

Record article_summary := {
  sum_url : option string;
  sum_title : option string;
  sum_source : option string;
  sum_processed_at : string;
  sum_post_id : option Z;
}.

(** The dictionary [self.stats]. *)
Record stats_t := {
  running : bool;
  started_at : option string;
  last_check : option string;
  stat_poll_interval : nat;
  total_checks : nat;
  total_articles_found : nat;
  total_articles_processed : nat;
  last_articles : list article_summary;
}.

Record FeedMonitor := {
  config_dir : string;
  poll_interval : nat;
  dry_run : bool;
  is_running : bool;
  monitor_thread : option nat;
  pipeline : option Pipeline.NewsPipeline;
  stats : stats_t;
}.

(** [FeedMonitor.__init__] *)
Definition new (config_dir : string) (poll_interval : nat) (dry_run : bool)
  : FeedMonitor :=
  {| config_dir := config_dir; poll_interval := poll_interval;
     dry_run := dry_run; is_running := false; monitor_thread := None;
     pipeline := None;
     stats := {| running := false; started_at := None; last_check := None;
                 stat_poll_interval := poll_interval; total_checks := 0;
                 total_articles_found := 0; total_articles_processed := 0;
                 last_articles := [] |} |}.

(** The monitor object together with what it acts on: the threads it has
    started (a thread is named by its position), the statistics file, and
    the messages handed to the logger. *)
Record process := {
  self : FeedMonitor;
  threads : list thread_state;
  stats_file : option stats_t;
  log : list (level * string);
}.

Definition boot (m : FeedMonitor) : process :=
  {| self := m; threads := []; stats_file := None; log := [] |}.

Definition with_self (m : FeedMonitor) (p : process) : process :=
  {| self := m; threads := threads p; stats_file := stats_file p; log := log p |}.

Definition logged (l : level) (msg : string) (p : process) : process :=
  {| self := self p; threads := threads p; stats_file := stats_file p;
     log := app (log p) [(l, msg)] |}.

(** [_save_stats] writes [self.stats] and swallows its own errors. *)
Definition _save_stats (p : process) : process :=
  {| self := self p; threads := threads p;
     stats_file := Some (stats (self p)); log := log p |}.

(** [self.is_running = b; self.stats["running"] = b], and with
    [started_at] given also [self.stats["started_at"] = now]. *)
Definition set_running (b : bool) (started : option string) (m : FeedMonitor)
  : FeedMonitor :=
  {| config_dir := config_dir m; poll_interval := poll_interval m;
     dry_run := dry_run m; is_running := b;
     monitor_thread := monitor_thread m; pipeline := pipeline m;
     stats :=
       {| running := b;
          started_at := match started with
                        | Some now => Some now
                        | None => started_at (stats m)
                        end;
          last_check := last_check (stats m);
          stat_poll_interval := stat_poll_interval (stats m);
          total_checks := total_checks (stats m);
          total_articles_found := total_articles_found (stats m);
          total_articles_processed := total_articles_processed (stats m);
          last_articles := last_articles (stats m) |} |}.

(** [self.pipeline = pl] then a new thread in [self.monitor_thread],
    started. *)
Definition spawn_loop (pl : Pipeline.NewsPipeline) (p : process) : process :=
  let m := self p in
  {| self :=
       {| config_dir := config_dir m; poll_interval := poll_interval m;
          dry_run := dry_run m; is_running := is_running m;
          monitor_thread := Some (length (threads p)); pipeline := Some pl;
          stats := stats m |};
     threads := app (threads p) [Alive];
     stats_file := stats_file p; log := log p |}.

(** The two warnings of [start] and [stop]. *)
Definition already_running : string := "Monitor già in esecuzione".
Definition not_running : string := "Monitor non in esecuzione".

(** [start]; [now] is [datetime.now().isoformat()] and [new_pipeline] what
    the constructor [NewsPipeline(...)] does. *)
Definition start (now : string) (new_pipeline : outcome Pipeline.NewsPipeline)
    (p : process) : outcome unit * process :=
  if is_running (self p) then
    (Ret tt, logged WARNING already_running p)
  else
    let p := with_self (set_running true (Some now) (self p)) p in
    let p := _save_stats p in
    match new_pipeline with
    | Raise e => (Raise e, p)
    | Ret pl =>
        let p := spawn_loop pl p in
        (Ret tt,
         logged INFO ("Monitor avviato (controllo ogni "
                      +:+ pretty (poll_interval (self p)) +:+ " secondi)") p)
    end.

Definition stop (p : process) : process :=
  if negb (is_running (self p)) then
    logged WARNING not_running p
  else
    let p := with_self (set_running false None (self p)) p in
    let p := _save_stats p in
    logged INFO "Monitor fermato" p.

(** Thread [tid] evaluates the condition of [while self.is_running] in
    [_monitor_loop] and returns when it is false. *)
Definition loop_poll (tid : nat) (p : process) : process :=
  match threads p !! tid with
  | Some Alive =>
      if is_running (self p) then p
      else {| self := self p; threads := <[tid := Exited]> (threads p);
              stats_file := stats_file p; log := log p |}
  | _ => p
  end.

(** The threads still inside [_monitor_loop]. *)
Definition active_loops (p : process) : nat :=
  length (filter (fun t => t = Alive) (threads p)).

(** The loop threads evaluate their condition, in the order [tids]. *)
Definition loop_polls (tids : list nat) (p : process) : process :=
  fold_left (fun p tid => loop_poll tid p) tids p.

Definition demo_pipeline : Pipeline.NewsPipeline := PipelineDemo.publishing_pipeline.

End Monitor.

(* ===================================================================== *)
(** * Further definitions *)
(* ===================================================================== *)

(** Predicates on the characters of a string, used to state what the
    string functions produce. *)
Module Text.

Fixpoint all_chars (p : ascii -> bool) (s : string) : bool :=
  match s with
  | EmptyString => true
  | String c s' => p c && all_chars p s'
  end.

Definition blank (s : string) : bool := all_chars Py.isspace s.

(** A word as [split()] returns them: not empty and without blanks. *)
Definition word (w : string) : bool :=
  Py.truthy w && all_chars (fun c => negb (Py.isspace c)) w.

(** What [_normalize_title] does to one character: lower case, and the
    eight separators turned into a blank. *)
Definition fold_char (c : ascii) : ascii :=
  let c := Py.lower_char c in
  if bool_decide (c ∈ Dedupe.punctuation) then " "%char else c.

End Text.

Module DedupeDemo.

(** Libraries whose sentence encoder is installed and finds every two
    texts similar to the degree [s]. *)
Definition constant_similarity_libs (s : float) : Dedupe.Libs :=
  {| Dedupe.embedding := unit;
     Dedupe.sha256_hexdigest := Sha256.hexdigest;
     Dedupe.HAS_ML_DEPS := true;
     Dedupe.st_encode := fun _ => Ret tt;
     Dedupe.np_dot := fun _ _ => Ret s |}.

(** The table after the registration of one article. *)
Definition one_article : list Dedupe.row :=
  snd (@Dedupe.register_article Dedupe.hash_only_libs []
         "https://example.org/a" "Hello World" None (Some 7%Z)
         "2024-05-01T10:00:00").

End DedupeDemo.

Module QualityText.

(** The text [_check_policy] scans: its local [combined_text]. *)
Definition combined_text (rewritten_data : rewritten) : string :=
  Py.lower (get_str (headline rewritten_data)) +:+ " "
  +:+ Py.lower (get_str (lead rewritten_data)) +:+ " "
  +:+ Py.lower (get_str (body_markdown rewritten_data)).

(** The issue [_check_sanity] reports for a word count below the minimum
    and above the maximum. *)
Definition too_short (self : QualityGates.QualityGates) (word_count : Z) : string :=
  "Articolo troppo corto: " +:+ pretty word_count +:+ " parole (min: "
  +:+ pretty (QualityGates.min_length self) +:+ ")".

Definition too_long (self : QualityGates.QualityGates) (word_count : Z) : string :=
  "Articolo troppo lungo: " +:+ pretty word_count +:+ " parole (max: "
  +:+ pretty (QualityGates.max_length self) +:+ ")".

End QualityText.

(** The calls [process_article] makes for an article that goes through
    every step, in the order in which the source makes them: extraction,
    duplicate check, rewriting, quality gates, the file of the rewritten
    article, publication, registration. *)
Module ArticleCalls.
Import Pipeline.

Definition in_order (c : candidate) (url : option string)
    (canonical_url title : string) (passed : bool) (id : Z) : list event :=
  [EvExtract (cand_url c) (cand_source c);
   EvCheckDuplicate canonical_url title;
   EvRewrite url;
   EvQualityCheck url;
   EvSaveRewritten url passed;
   EvCreatePost url;
   EvRegisterArticle canonical_url title (Some id)].

(** The entries of the audit trail, the registrations and the pauses
    among the calls of a run. *)
Definition is_log_operation (e : event) : bool :=
  match e with EvLogOperation _ _ _ _ _ => true | _ => false end.

Definition is_register_article (e : event) : bool :=
  match e with EvRegisterArticle _ _ _ => true | _ => false end.

Definition is_sleep (e : event) : bool :=
  match e with EvSleep _ => true | _ => false end.

Definition count (p : event -> bool) (calls : list event) : nat :=
  length (List.filter p calls).

End ArticleCalls.

(** The budget page of [PipelineDemo] published from an empty world, and
    the world this leaves behind. *)
Module PipelineRuns.
Import Pipeline PipelineDemo.

Definition first_pass : outcome result * (world * unit) :=
  @process_article collaborators unit publishing_pipeline budget_candidate
    (empty_world, tt).

Definition world_after_first_pass : world := fst (snd first_pass).

Definition dry_pass : outcome result * (world * unit) :=
  @process_article collaborators unit dry_run_pipeline budget_candidate
    (empty_world, tt).

End PipelineRuns.

(* ===================================================================== *)
(** ** src/fetch_sources.py *)
(* ===================================================================== *)

Module Fetch.

(** A candidate as [fetch_rss_feeds] builds it.  [fetch_all] reads
    [source] and [published_at] with [.get], so both may be absent. *)
Record candidate := {
  url : string;
  source : option string;
  published_at : option string;
  title : string;
  description : string;
}.

(** A row of the table [processed_urls]. *)
Record url_row := {
  url_hash : string;
  row_url : string;
  first_seen_at : string;
  last_seen_at : string;
  processed : Z;
}.

(** What the fetcher takes from outside: [hashlib.sha256(...).hexdigest()];
    the candidates [fetch_rss_feeds] collects over the network; and
    [date_parser.parse(published_at) < two_days_ago], which answers
    [None] when it raises the [ValueError] or [TypeError] that [fetch_all]
    catches. *)
Class Libs := {
  sha256_hexdigest : string -> string;
  fetch_rss_feeds : outcome (list candidate);
  older_than_two_days : string -> outcome (option bool);
}.

Section WithLibs.
Context `{Libs}.
Local Open Scope outcome_scope.

(** [_is_url_processed]: [result is not None and result[0] == 1]. *)
Definition _is_url_processed (db : list url_row) (url : string) : bool :=
  let url_hash := sha256_hexdigest url in
  match head (filter (fun r => Fetch.url_hash r = url_hash) db) with
  | Some result => bool_decide (processed result = 1%Z)
  | None => false
  end.

(** [_mark_url_seen]: INSERT OR REPLACE under the primary key [url_hash]
    and the unique column [url]; [first_seen_at] is kept from the row the
    key selects, if there is one.  [now] is [datetime.now().isoformat()]. *)
Definition _mark_url_seen (db : list url_row) (url : string)
    (processed : bool) (now : string) : list url_row :=
  let url_hash := sha256_hexdigest url in
  let first_seen :=
    match head (filter (fun r => Fetch.url_hash r = url_hash) db) with
    | Some r => first_seen_at r
    | None => now
    end in
  app (filter (fun r => Fetch.url_hash r ≠ url_hash /\ row_url r ≠ url) db)
      [{| url_hash := url_hash; row_url := url; first_seen_at := first_seen;
          last_seen_at := now;
          processed := if processed then 1%Z else 0%Z |}].

(** The table after [fetch_rss_feeds] has marked the URLs [seen], each at
    its time: the only calls the code makes pass [processed=False]. *)
Definition mark_each (db : list url_row) (seen : list (string * string))
  : list url_row :=
  fold_left (fun db '(url, now) => _mark_url_seen db url false now) seen db.

(** [x.get("published_at") or ""], the sort key. *)
Definition date_key (x : candidate) : string :=
  match published_at x with
  | Some s => if Py.truthy s then s else ""
  | None => ""
  end.

(** [l.sort(key=..., reverse=True)]: the stable sort, largest key first;
    of two candidates with the same key the one that came first stays
    first. *)
Fixpoint insert_by_date (x : candidate) (sorted : list candidate)
  : list candidate :=
  match sorted with
  | [] => [x]
  | y :: rest =>
      if String.ltb (date_key x) (date_key y) then y :: insert_by_date x rest
      else x :: sorted
  end.

Definition sort_by_date (l : list candidate) : list candidate :=
  foldr insert_by_date [] l.

(** The dictionary [by_source], in insertion order. *)
Definition groups : Type := list (string * list candidate).

Fixpoint lookup_source (source : string) (by_source : groups)
  : option (list candidate) :=
  match by_source with
  | [] => None
  | (s, l) :: rest =>
      if String.eqb s source then Some l else lookup_source source rest
  end.

(** [by_source[source] = l] on a key that is present. *)
Fixpoint set_source (source : string) (l : list candidate) (by_source : groups)
  : groups :=
  match by_source with
  | [] => []
  | (s, l') :: rest =>
      if String.eqb s source then (s, l) :: rest
      else (s, l') :: set_source source l rest
  end.

(** One round of the grouping loop. *)
Definition group_one (by_source : groups) (c : candidate) : groups :=
  let source := default "Unknown" (Fetch.source c) in
  match lookup_source source by_source with
  | None => app by_source [(source, [c])]
  | Some l => set_source source (app l [c]) by_source
  end.

Definition group_by_source (all_candidates : list candidate) : groups :=
  fold_left group_one all_candidates [].

(** [sources_list.remove(source)]: the first occurrence goes. *)
Fixpoint remove_first (source : string) (sources_list : list string)
  : list string :=
  match sources_list with
  | [] => []
  | s :: rest =>
      if String.eqb s source then rest else s :: remove_first source rest
  end.

(** [len([c for c in distributed if c.get("source") == source])] *)
Definition taken_from (source : string) (distributed : list candidate) : nat :=
  length (filter (fun c => Fetch.source c = Some source) distributed).

(** The loop [for i in range(limit)], with [todo] rounds left.
    Subscripting [sources_list] out of range is an IndexError, a key
    missing from [by_source] a KeyError. *)
Fixpoint distribute (todo i max_per_source : nat) (by_source : groups)
    (sources_list : list string) (distributed : list candidate)
  : outcome (list candidate) :=
  match todo with
  | 0 => Ret distributed
  | S todo' =>
      let source_idx :=
        match sources_list with
        | [] => 0
        | _ :: _ => i mod length sources_list
        end in
      match sources_list !! source_idx with
      | None => Raise (Exception "list index out of range")
      | Some source =>
          match lookup_source source by_source with
          | None => Raise (Exception ("'" +:+ source +:+ "'"))
          | Some pending =>
              let '(pending, by_source, distributed) :=
                match pending with
                | first :: rest =>
                    if (taken_from source distributed <? max_per_source)%nat
                    then (rest, set_source source rest by_source,
                          app distributed [first])
                    else (pending, by_source, distributed)
                | [] => (pending, by_source, distributed)
                end in
              match pending with
              | [] =>
                  let sources_list := remove_first source sources_list in
                  match sources_list with
                  | [] => Ret distributed
                  | _ :: _ =>
                      distribute todo' (S i) max_per_source by_source
                        sources_list distributed
                  end
              | _ :: _ =>
                  distribute todo' (S i) max_per_source by_source
                    sources_list distributed
              end
          end
      end
  end.

(** The branch [if limit and limit > 0] of [fetch_all]. *)
Definition round_robin (limit : nat) (all_candidates : list candidate)
  : outcome (list candidate) :=
  let by_source :=
    map (fun '(source, l) => (source, sort_by_date l))
        (group_by_source all_candidates) in
  let sources_list := map fst by_source in
  let max_per_source :=
    match sources_list with
    | [] => limit
    | _ :: _ => limit / length sources_list + 1
    end in
  distributed <~ distribute limit 0 max_per_source by_source sources_list [] ;;
  Ret (sort_by_date distributed).

(** The last loop of [fetch_all]: candidates the date parser finds older
    than two days are left out. *)
Fixpoint drop_old (all_candidates : list candidate)
  : outcome (list candidate) :=
  match all_candidates with
  | [] => Ret []
  | c :: rest =>
      old <~ match published_at c with
             | Some p => if Py.truthy p then older_than_two_days p
                         else Ret None
             | None => Ret None
             end ;;
      filtered <~ drop_old rest ;;
      match old with
      | Some true => Ret filtered
      | _ => Ret (c :: filtered)
      end
  end.

(** Whether the last loop leaves [c] out. *)
Definition reported_old (c : candidate) : bool :=
  match published_at c with
  | Some p =>
      if Py.truthy p then
        match older_than_two_days p with
        | Ret (Some true) => true
        | _ => false
        end
      else false
  | None => false
  end.

(** The order the docstring of [fetch_all] promises, most recent first:
    no candidate has a smaller key than one that comes after it. *)
Fixpoint newest_first (l : list candidate) : Prop :=
  match l with
  | [] => True
  | x :: rest =>
      Forall (fun y => String.ltb (date_key x) (date_key y) = false) rest
      /\ newest_first rest
  end.

(** [fetch_all] *)
Definition fetch_all (limit : option Z) : outcome (list candidate) :=
  rss_candidates <~ fetch_rss_feeds ;;
  let all_candidates := rss_candidates in
  all_candidates <~
    match limit with
    | Some n =>
        if negb (n =? 0)%Z && (0 <? n)%Z
        then round_robin (Z.to_nat n) all_candidates
        else Ret (sort_by_date all_candidates)
    | None => Ret (sort_by_date all_candidates)
    end ;;
  drop_old all_candidates.

End WithLibs.

End Fetch.

(** A fetcher for concrete runs: two feeds, three entries, one of them a
    week old; the real SHA-256. *)
Module FetchDemo.
Import Fetch.

Definition council : candidate :=
  {| url := "https://example.org/council"; source := Some "Example";
     published_at := Some "2024-05-01T09:00:00";
     title := "Budget approved by the council"; description := "" |}.

Definition bridge : candidate :=
  {| url := "https://example.org/bridge"; source := Some "Example";
     published_at := Some "2024-05-01T11:30:00";
     title := "The bridge reopens"; description := "" |}.

Definition harvest : candidate :=
  {| url := "https://news.example.net/harvest"; source := Some "Courier";
     published_at := Some "2024-04-24T08:00:00";
     title := "A good harvest"; description := "" |}.

Definition libs_with (entries : list candidate) : Libs :=
  {| sha256_hexdigest := Sha256.hexdigest;
     fetch_rss_feeds := Ret entries;
     older_than_two_days :=
       fun p => Ret (Some (String.ltb p "2024-04-29T12:00:00")) |}.

Definition libs : Libs := libs_with [council; bridge; harvest].

Definition quiet : Libs := libs_with [].

End FetchDemo.

(* ===================================================================== *)
(** ** src/rewrite.py *)
(* ===================================================================== *)

Module Rewrite.

(** [s.split(sep)] for a separator that is not empty: [skip] characters
    of a separator just found are still to be passed over, [cur] is the
    piece being read. *)
Fixpoint split_sep_from (sep : string) (skip : nat) (cur : string)
    (s : string) : list string :=
  match s with
  | EmptyString => [cur]
  | String c s' =>
      match skip with
      | S k => split_sep_from sep k cur s'
      | 0 =>
          if String.prefix sep s
          then cur :: split_sep_from sep (Py.len sep - 1) EmptyString s'
          else split_sep_from sep 0 (cur +:+ String c EmptyString) s'
      end
  end.

Definition split_sep (sep s : string) : list string :=
  split_sep_from sep 0 EmptyString s.

(** [s.replace(c, "")] for a one-character [c]. *)
Fixpoint remove_char (c : ascii) (s : string) : string :=
  match s with
  | EmptyString => EmptyString
  | String a s' =>
      if Ascii.eqb a c then remove_char c s' else String a (remove_char c s')
  end.

(** [s.find(c)] and [s.rfind(c)] for a one-character [c]; -1 when [c]
    does not occur. *)
Fixpoint find_from (c : ascii) (i : Z) (s : string) : Z :=
  match s with
  | EmptyString => (-1)%Z
  | String a s' => if Ascii.eqb a c then i else find_from c (i + 1)%Z s'
  end.

Definition find (c : ascii) (s : string) : Z := find_from c 0%Z s.

Fixpoint rfind_from (c : ascii) (i : Z) (found : Z) (s : string) : Z :=
  match s with
  | EmptyString => found
  | String a s' =>
      rfind_from c (i + 1)%Z (if Ascii.eqb a c then i else found) s'
  end.

Definition rfind (c : ascii) (s : string) : Z := rfind_from c 0%Z (-1)%Z s.

(** The keys of the dictionary of [rewrite] that the pipeline and the
    quality gates read. *)
Definition read_by_pipeline (headline lead body_markdown : string)
    (word_count : Z) (category : string) : rewritten :=
  {| headline := Some headline; lead := Some lead;
     body_markdown := Some body_markdown; word_count := Some word_count;
     category := Some category |}.

Record ArticleRewriter := {
  provider : string;
  model : string;
  api_key : option string;
}.

(** The dictionary [rewrite] returns. *)
Record article := {
  headline : string;
  lead : string;
  body_markdown : string;
  tags : list string;
  category : string;
  meta_title : string;
  meta_description : string;
  word_count : Z;
  rewritten_at : string;
  stub_mode : bool;
}.

(** The JSON object of an LLM answer, as far as [_validate_and_complete]
    reads it; a key is absent or holds a value of the expected type. *)
Record answer := {
  ans_headline : option string;
  ans_lead : option string;
  ans_body_markdown : option string;
  ans_tags : option (list string);
  ans_category : option string;
  ans_meta_title : option string;
  ans_meta_description : option string;
}.

(** What the rewriter takes from outside: the clock; the text of the
    answers of the two APIs, for the prompt built from the article; the
    JSON parser. *)
Class Libs := {
  time_strftime : string;
  openai_content : ArticleRewriter -> extracted -> outcome string;
  anthropic_text : ArticleRewriter -> extracted -> outcome string;
  json_loads : string -> outcome answer;
}.

Section WithLibs.
Context `{Libs}.
Local Open Scope outcome_scope.

Definition as_rewritten (a : article) : rewritten :=
  read_by_pipeline (headline a) (lead a) (body_markdown a) (word_count a)
    (category a).

Definition _stub_rewrite (extracted_data : extracted) : article :=
  let title := get_str (ex_title extracted_data) in
  let text := get_str (ex_text extracted_data) in
  let sentences := firstn 3 (split_sep ". " text) in
  let lead :=
    match sentences with
    | [] => Py.take 200 text
    | _ :: _ => Py.join ". " sentences +:+ "."
    end in
  let body := if (2000 <? Py.len text)%nat then Py.take 2000 text else text in
  {| headline := Py.take 100 title;
     lead := Py.take 300 lead;
     body_markdown := body;
     tags := [];
     category := "news";
     meta_title := Py.take 60 title;
     meta_description := Py.take 160 lead;
     word_count := Z.of_nat (length (Py.split body));
     rewritten_at := time_strftime;
     stub_mode := true |}.

Definition _validate_and_complete (result : answer) (extracted_data : extracted)
  : article :=
  let body_markdown := get_str (ans_body_markdown result) in
  let body_text := remove_char "*" (remove_char "#" body_markdown) in
  {| headline := default (get_str (ex_title extracted_data)) (ans_headline result);
     lead := get_str (ans_lead result);
     body_markdown := body_markdown;
     tags := default [] (ans_tags result);
     category := default "news" (ans_category result);
     meta_title := default (get_str (ans_headline result)) (ans_meta_title result);
     meta_description :=
       default (get_str (ans_lead result)) (ans_meta_description result);
     word_count := Z.of_nat (length (Py.split body_text));
     rewritten_at := time_strftime;
     stub_mode := false |}.

(** A [try] whose [except Exception] clause returns the stub. *)
Definition or_stub (extracted_data : extracted) (body : outcome article)
  : outcome article :=
  match body with
  | Ret a => Ret a
  | Raise (Exception _) => Ret (_stub_rewrite extracted_data)
  | Raise KeyboardInterrupt => Raise KeyboardInterrupt
  end.

Definition _rewrite_openai (self : ArticleRewriter) (extracted_data : extracted)
  : outcome article :=
  or_stub extracted_data
    (content <~ openai_content self extracted_data ;;
     result <~ json_loads content ;;
     Ret (_validate_and_complete result extracted_data)).

Definition _rewrite_anthropic (self : ArticleRewriter)
    (extracted_data : extracted) : outcome article :=
  or_stub extracted_data
    (content <~ anthropic_text self extracted_data ;;
     let json_start := find "{" content in
     let json_end := (rfind "}" content + 1)%Z in
     result <~
       (if (0 <=? json_start)%Z && (json_start <? json_end)%Z then
          json_loads
            (String.substring (Z.to_nat json_start)
               (Z.to_nat (json_end - json_start)) content)
        else Raise (Exception "Nessun JSON trovato nella risposta")) ;;
     Ret (_validate_and_complete result extracted_data)).

Definition rewrite (self : ArticleRewriter) (extracted_data : extracted)
  : outcome article :=
  match api_key self with
  | None => Ret (_stub_rewrite extracted_data)
  | Some key =>
      if negb (Py.truthy key) then Ret (_stub_rewrite extracted_data)
      else
        or_stub extracted_data
          (if String.eqb (provider self) "openai"
           then _rewrite_openai self extracted_data
           else if String.eqb (provider self) "anthropic"
           then _rewrite_anthropic self extracted_data
           else Ret (_stub_rewrite extracted_data))
  end.

End WithLibs.

(** A rewriter without credentials, on a clock that stands still. *)
Definition offline_libs : Libs :=
  {| time_strftime := "2024-05-01T10:00:00";
     openai_content := fun _ _ => Raise (Exception "Connection error.");
     anthropic_text := fun _ _ => Raise (Exception "Connection error.");
     json_loads := fun _ => Raise (Exception "Expecting value") |}.

Definition no_key : ArticleRewriter :=
  {| provider := "openai"; model := "gpt-4o-mini"; api_key := None |}.

Definition with_key : ArticleRewriter :=
  {| provider := "openai"; model := "gpt-4o-mini"; api_key := Some "sk-test" |}.

End Rewrite.

(** The round of the monitor, [FeedMonitor._check_feeds]: a computation
    over the world of the pipeline with the monitor, its statistics file
    and its log as locals.  No other thread acts during a round, so
    [self.is_running] is what it was when the round began. *)
Module MonitorFeeds.
Import Pipeline.

(** The [try] around the e-mail notification, as one call: the import,
    [get_email_notifier()], the test of [enabled] and
    [send_new_articles_notification] on the articles it is given. *)
Class Notifier := {
  notify_new_articles : list event -> list candidate -> outcome unit;
}.

(** A candidate of the fetcher as the pipeline and the monitor read it. *)
Definition as_candidate (c : Fetch.candidate) : candidate :=
  {| cand_url := Fetch.url c; cand_source := Fetch.source c;
     cand_title := Some (Fetch.title c) |}.

(** The fetcher of [src/fetch_sources.py] in the place of the
    collaborator. *)
Definition fetcher_of `{Fetch.Libs} (limit : option nat)
  : outcome (list candidate) :=
  match Fetch.fetch_all (Z.of_nat <$> limit) with
  | Ret l => Ret (map as_candidate l)
  | Raise e => Raise e
  end.

Definition with_stats (f : Monitor.stats_t -> Monitor.stats_t)
    (p : Monitor.process) : Monitor.process :=
  let m := Monitor.self p in
  Monitor.with_self
    {| Monitor.config_dir := Monitor.config_dir m;
       Monitor.poll_interval := Monitor.poll_interval m;
       Monitor.dry_run := Monitor.dry_run m;
       Monitor.is_running := Monitor.is_running m;
       Monitor.monitor_thread := Monitor.monitor_thread m;
       Monitor.pipeline := Monitor.pipeline m;
       Monitor.stats := f (Monitor.stats m) |} p.

(** [self.stats["last_check"] = now; self.stats["total_checks"] += 1] *)
Definition checked_at (now : string) (st : Monitor.stats_t) : Monitor.stats_t :=
  {| Monitor.running := Monitor.running st;
     Monitor.started_at := Monitor.started_at st;
     Monitor.last_check := Some now;
     Monitor.stat_poll_interval := Monitor.stat_poll_interval st;
     Monitor.total_checks := Monitor.total_checks st + 1;
     Monitor.total_articles_found := Monitor.total_articles_found st;
     Monitor.total_articles_processed := Monitor.total_articles_processed st;
     Monitor.last_articles := Monitor.last_articles st |}.

(** [self.stats["total_articles_found"] += n] *)
Definition found (n : nat) (st : Monitor.stats_t) : Monitor.stats_t :=
  {| Monitor.running := Monitor.running st;
     Monitor.started_at := Monitor.started_at st;
     Monitor.last_check := Monitor.last_check st;
     Monitor.stat_poll_interval := Monitor.stat_poll_interval st;
     Monitor.total_checks := Monitor.total_checks st;
     Monitor.total_articles_found := Monitor.total_articles_found st + n;
     Monitor.total_articles_processed := Monitor.total_articles_processed st;
     Monitor.last_articles := Monitor.last_articles st |}.

(** [self.stats["total_articles_processed"] += n] *)
Definition processed (n : nat) (st : Monitor.stats_t) : Monitor.stats_t :=
  {| Monitor.running := Monitor.running st;
     Monitor.started_at := Monitor.started_at st;
     Monitor.last_check := Monitor.last_check st;
     Monitor.stat_poll_interval := Monitor.stat_poll_interval st;
     Monitor.total_checks := Monitor.total_checks st;
     Monitor.total_articles_found := Monitor.total_articles_found st;
     Monitor.total_articles_processed :=
       Monitor.total_articles_processed st + n;
     Monitor.last_articles := Monitor.last_articles st |}.

(** [last_articles.insert(0, a)] and then [last_articles[:10]]. *)
Definition remembered (a : Monitor.article_summary) (st : Monitor.stats_t)
  : Monitor.stats_t :=
  {| Monitor.running := Monitor.running st;
     Monitor.started_at := Monitor.started_at st;
     Monitor.last_check := Monitor.last_check st;
     Monitor.stat_poll_interval := Monitor.stat_poll_interval st;
     Monitor.total_checks := Monitor.total_checks st;
     Monitor.total_articles_found := Monitor.total_articles_found st;
     Monitor.total_articles_processed := Monitor.total_articles_processed st;
     Monitor.last_articles := firstn 10 (a :: Monitor.last_articles st) |}.

(** What the loop over the candidates may change of the monitor: the log,
    and the last articles, of which it keeps ten. *)
Definition articles_only (p p' : Monitor.process) : Prop :=
  Monitor.threads p' = Monitor.threads p
  /\ Monitor.stats_file p' = Monitor.stats_file p
  /\ Monitor.is_running (Monitor.self p') = Monitor.is_running (Monitor.self p)
  /\ Monitor.pipeline (Monitor.self p') = Monitor.pipeline (Monitor.self p)
  /\ Monitor.total_checks (Monitor.stats (Monitor.self p'))
     = Monitor.total_checks (Monitor.stats (Monitor.self p))
  /\ Monitor.last_check (Monitor.stats (Monitor.self p'))
     = Monitor.last_check (Monitor.stats (Monitor.self p))
  /\ Monitor.total_articles_found (Monitor.stats (Monitor.self p'))
     = Monitor.total_articles_found (Monitor.stats (Monitor.self p))
  /\ Monitor.total_articles_processed (Monitor.stats (Monitor.self p'))
     = Monitor.total_articles_processed (Monitor.stats (Monitor.self p))
  /\ length (Monitor.last_articles (Monitor.stats (Monitor.self p')))
     <= Nat.max 10
          (length (Monitor.last_articles (Monitor.stats (Monitor.self p)))).

Section WithCollaborators.
Context `{Collaborators} `{Notifier}.
Local Open Scope pipeline_scope.

(** [datetime.now().isoformat()] *)
Definition now_isoformat {L} : M L string :=
  fun s =>
    (Ret (datetime_now_isoformat (clock_reads (fst s))), (tick (fst s), snd s)).

Definition log_message (l : Monitor.level) (msg : string)
  : M Monitor.process unit :=
  update_locals (Monitor.logged l msg).

(** [self.pipeline], on which an attribute is then read. *)
Definition the_pipeline (attribute : string) : M Monitor.process NewsPipeline :=
  p <- locals ;;
  match Monitor.pipeline (Monitor.self p) with
  | Some pl => ret pl
  | None =>
      raise (Exception ("'NoneType' object has no attribute '"
                        +:+ attribute +:+ "'"))
  end.

(** The body of the [try] inside the loop over the candidates. *)
Definition process_one (candidate : candidate) (processed_count : nat)
  : M Monitor.process nat :=
  pl <- the_pipeline "process_article" ;;
  result <- process_article pl candidate ;;
  match status result with
  | Created =>
      processed_at <- now_isoformat ;;
      update_locals
        (with_stats
           (remembered
              {| Monitor.sum_url := Some (cand_url candidate);
                 Monitor.sum_title := cand_title candidate;
                 Monitor.sum_source := cand_source candidate;
                 Monitor.sum_processed_at := processed_at;
                 Monitor.sum_post_id := post_id result |})) ;;
      ret (processed_count + 1)
  | _ => ret processed_count
  end.

(** The loop [for candidate in candidates]; it returns
    [processed_count]. *)
Fixpoint process_new (candidates : list candidate) (processed_count : nat)
  : M Monitor.process nat :=
  match candidates with
  | [] => ret processed_count
  | candidate :: rest =>
      p <- locals ;;
      if negb (Monitor.is_running (Monitor.self p)) then ret processed_count
      else
        processed_count <-
          try_except (process_one candidate processed_count)
            (except_Exception
               (fun msg =>
                  log_message Monitor.ERROR
                    ("Errore processing articolo " +:+ cand_url candidate
                     +:+ ": " +:+ msg) ;;
                  ret processed_count)) ;;
        process_new rest processed_count
  end.

(** The body of the outer [try]; it answers [true] when it left the
    function by its [return]. *)
Definition check_new : M Monitor.process bool :=
  pl <- the_pipeline "fetcher" ;;
  candidates <-
    call (EvFetchAll (Some 20)) (fun h => fetcher_fetch_all h (Some 20)) ;;
  match candidates with
  | [] =>
      log_message Monitor.INFO "Nessun nuovo articolo trovato" ;;
      update_locals Monitor._save_stats ;;
      ret true
  | _ :: _ =>
      update_locals (with_stats (found (length candidates))) ;;
      log_message Monitor.INFO
        ("Trovati " +:+ pretty (length candidates)
         +:+ " nuovi articoli, avvio processing...") ;;
      try_except
        (fun s => (notify_new_articles (events (fst s)) (firstn 10 candidates), s))
        (except_Exception
           (fun msg =>
              log_message Monitor.WARNING
                ("Errore invio notifica email: " +:+ msg))) ;;
      processed_count <- process_new candidates 0 ;;
      update_locals (with_stats (processed processed_count)) ;;
      (if (0 <? processed_count)%nat
       then log_message Monitor.INFO
              ("✅ Processati " +:+ pretty processed_count
               +:+ " nuovi articoli")
       else log_message Monitor.INFO
              "Nessun articolo processato (tutti scartati o già esistenti)") ;;
      ret false
  end.

Definition _check_feeds : M Monitor.process unit :=
  check_start <- now_isoformat ;;
  log_message Monitor.INFO "🔍 Controllo feed RSS in corso..." ;;
  update_locals (with_stats (checked_at check_start)) ;;
  returned <-
    try_except check_new
      (except_Exception
         (fun msg =>
            log_message Monitor.ERROR
              ("Errore durante controllo feed: " +:+ msg) ;;
            ret false)) ;;
  if returned : bool then ret tt else update_locals Monitor._save_stats.

End WithCollaborators.

(** A monitor that was started, with the pipeline of [PipelineDemo]. *)
Definition started : Monitor.process :=
  snd (Monitor.start "2024-05-01T09:59:00" (Ret Monitor.demo_pipeline)
         (Monitor.boot (Monitor.new "./config" 300 false))).

Definition silent : Notifier :=
  {| notify_new_articles := fun _ _ => Ret tt |}.

(** Collaborators whose fetcher is the one of [src/fetch_sources.py] over
    feeds that give nothing. *)
Definition quiet_feeds : Collaborators :=
  {| dedupe_libs := Dedupe.hash_only_libs;
     quality_libs := QualityDemo.no_model_libs;
     time_time := Py.int_to_float;
     time_strftime := fun n => "2024-05-01T10:00:" +:+ pretty n;
     datetime_now_isoformat := fun n => "2024-05-01T10:00:" +:+ pretty n;
     uuid4_str := fun _ => "0f8fad5b-d9cb-469f-a165-70867728950e";
     fetcher_fetch_all := fun _ limit => @fetcher_of FetchDemo.quiet limit;
     extractor_extract := fun _ url _ => PipelineDemo.page url;
     rewriter_rewrite := fun _ _ => Ret QualityDemo.good_rewrite;
     wp_create_post_from_pipeline := fun _ _ _ _ => Ret (Some 42%Z);
     time_sleep := fun _ _ => Ret tt |}.

End MonitorFeeds.

(* ===================================================================== *)
(** * Properties *)
(* ===================================================================== *)

(** ** The built-ins and libraries on known values *)

Example sha256_constants :
  length Sha256.K = 64
  /\ nth 0 Sha256.K 0%N = 0x428a2f98%N
  /\ nth 63 Sha256.K 0%N = 0xc67178f2%N
  /\ nth 0 Sha256.H0 0%N = 0x6a09e667%N
  /\ nth 7 Sha256.H0 0%N = 0x5be0cd19%N.
Proof. repeat split; vm_compute; reflexivity. Qed.

Example sha256_of_empty :
  Sha256.hexdigest ""
  = "e3b0c44298fc1c149afbf4c8996fb92427ae41e4649b934ca495991b7852b855".
Proof. vm_compute. reflexivity. Qed.

Example sha256_of_abc :
  Sha256.hexdigest "abc"
  = "ba7816bf8f01cfea414140de5dae2223b00361a396177a9cb410ff61f20015ad".
Proof. vm_compute. reflexivity. Qed.

Example sha256_of_two_blocks :
  Sha256.hexdigest
    "aaaaaaaaaaaaaaaaaaaaaaaaaaaaaaaaaaaaaaaaaaaaaaaaaaaaaaaaaaaaaaaaaaaaaa"
  = "6bd5e5034855a11241f0dee8fc72850ffd9955b28347a86428b5fa19119f6ad0".
Proof. vm_compute. reflexivity. Qed.

Example normalize_case_and_punctuation :
  Dedupe._normalize_title "  Hello,   World!  " = "hello world".
Proof. vm_compute. reflexivity. Qed.

Example normalize_keeps_bar :
  Dedupe._normalize_title "b|c" = "b|c" /\ Dedupe._normalize_title "c" = "c".
Proof. split; vm_compute; reflexivity. Qed.

Example normalize_separators :
  Dedupe._normalize_title "Re-Use_of: A.B" = "re use of a b".
Proof. vm_compute. reflexivity. Qed.

Example search_card_number :
  Re.search "\b\d{16}\b" false "x 1234567890123456 y" = true
  /\ Re.search "\b\d{16}\b" false "x 12345678901234567 y" = false
  /\ Re.search "<script" true "<p><ScRiPt src=x>" = true.
Proof. repeat split; vm_compute; reflexivity. Qed.

(** ** The deduplicator *)

Section DedupeProperties.
Context `{Dedupe.Libs}.
Import Dedupe.

Lemma register_article_id db u t body p now :
  fst (register_article db u t body p now) = fingerprint_id u t.
Proof. reflexivity. Qed.

Lemma register_article_row db u t body p now :
  exists r,
    snd (register_article db u t body p now) = insert_or_replace r db
    /\ hash_id r = fingerprint_id u t
    /\ canonical_url r = u
    /\ wp_post_id r = p
    /\ created_at r = now.
Proof. eexists; repeat split; reflexivity. Qed.

(** After INSERT OR REPLACE the key of the new row selects that row and
    nothing else. *)
Lemma select_inserted r db :
  select_by_hash_id (insert_or_replace r db) (hash_id r) = [r].
Proof.
  unfold select_by_hash_id, insert_or_replace.
  rewrite filter_app.
  assert (Hnone : filter (fun x => hash_id x = hash_id r)
                    (filter (fun x => hash_id x ≠ hash_id r) db) = []).
  { induction db as [|x db IH]; [reflexivity|].
    destruct (decide (hash_id x = hash_id r)) as [Heq|Hne].
    - rewrite (filter_cons_False (fun x => hash_id x ≠ hash_id r)); [exact IH|].
      intros Hc; exact (Hc Heq).
    - rewrite (filter_cons_True (fun x => hash_id x ≠ hash_id r)) by exact Hne.
      rewrite filter_cons_False by exact Hne. exact IH. }
  rewrite Hnone. simpl. rewrite filter_cons_True by reflexivity. reflexivity.
Qed.

(** A key that selects a row keeps selecting one after any INSERT OR
    REPLACE. *)
Lemma select_survives_insert r db h :
  select_by_hash_id db h ≠ [] ->
  select_by_hash_id (insert_or_replace r db) h ≠ [].
Proof.
  destruct (decide (hash_id r = h)) as [<-|Hne].
  - intros _. rewrite select_inserted. discriminate.
  - unfold select_by_hash_id, insert_or_replace. intros Hsel.
    rewrite filter_app. intros Hnil. apply app_eq_nil in Hnil as [Hnil _].
    apply Hsel. clear Hsel.
    induction db as [|x db IH]; [reflexivity|].
    destruct (decide (hash_id x = h)) as [Hx|Hx].
    + exfalso.
      rewrite (filter_cons_True (fun x => hash_id x ≠ hash_id r)) in Hnil
        by congruence.
      rewrite filter_cons_True in Hnil by exact Hx. discriminate.
    + rewrite filter_cons_False by exact Hx. apply IH.
      destruct (decide (hash_id x = hash_id r)) as [Hr|Hr].
      * rewrite (filter_cons_False (fun x => hash_id x ≠ hash_id r)) in Hnil;
          [exact Hnil | intros Hc; exact (Hc Hr)].
      * rewrite (filter_cons_True (fun x => hash_id x ≠ hash_id r)) in Hnil
          by exact Hr.
        rewrite filter_cons_False in Hnil by exact Hx. exact Hnil.
Qed.

Lemma select_survives_registrations calls : forall db h,
  select_by_hash_id db h ≠ [] ->
  select_by_hash_id (register_each db calls) h ≠ [].
Proof.
  induction calls as [|[[[[u t] body] p] now] calls IH]; intros db h Hsel.
  - exact Hsel.
  - unfold register_each. simpl. apply IH.
    unfold register_article. simpl. apply select_survives_insert, Hsel.
Qed.

(** Every row selected by a key carries that key. *)
Lemma selected_hash_id db h r :
  fetchone (select_by_hash_id db h) = Some r -> hash_id r = h.
Proof.
  unfold fetchone. intros Hhead.
  apply head_Some_elem_of in Hhead.
  apply list_elem_of_filter in Hhead as [Hh _]. exact Hh.
Qed.

(** The first control of [check_duplicate] decides as soon as the
    fingerprint id selects a row. *)
Lemma check_duplicate_exact self db u t body :
  select_by_hash_id db (fingerprint_id u t) ≠ [] ->
  exists p,
    check_duplicate self db u t body
    = Ret (duplicate_of "exact_hash_match" (fingerprint_id u t) p 1%float).
Proof.
  intros Hsel. unfold check_duplicate.
  fold (fingerprint_id u t).
  destruct (fetchone (select_by_hash_id db (fingerprint_id u t))) as [r|] eqn:Hr.
  - exists (wp_post_id r). rewrite (selected_hash_id _ _ _ Hr). reflexivity.
  - apply head_None in Hr. contradiction.
Qed.

(** C1 (amended).  A pair that was registered, whatever was registered
    after it, is reported by [check_duplicate] as a duplicate of its own
    fingerprint id with similarity 1.0; the reason the code gives is the
    string [exact_hash_match]. *)
Theorem check_duplicate_registered_pair
    (self : Deduplicator) (db : list row) (u t : string)
    (body : option string) (p : option Z) (now : string)
    (later : list registration) (body' : option string) :
  let db1 := snd (register_article db u t body p now) in
  exists d,
    check_duplicate self (register_each db1 later) u t body' = Ret d
    /\ is_duplicate d = true
    /\ reason d = Some "exact_hash_match"
    /\ similar_to d = Some (fst (register_article db u t body p now))
    /\ similarity_score d = Some 1%float.
Proof.
  intros db1.
  destruct (check_duplicate_exact self (register_each db1 later) u t body')
    as [q Hq].
  - apply select_survives_registrations.
    destruct (register_article_row db u t body p now) as (r & Hdb & Hid & _).
    subst db1. rewrite Hdb, <- Hid, select_inserted. discriminate.
  - exists (duplicate_of "exact_hash_match" (fingerprint_id u t) q 1%float).
    repeat split. exact Hq.
Qed.

(** C2.  Two registrations of the same pair return the same id, and the
    table then holds exactly one row under that id: the row of the second
    call, with its body hash, its post id and its clock. *)
Theorem register_article_twice
    (db : list row) (u t : string)
    (body1 body2 : option string) (p1 p2 : option Z) (now1 now2 : string) :
  let first := register_article db u t body1 p1 now1 in
  let second := register_article (snd first) u t body2 p2 now2 in
  fst first = fst second
  /\ select_by_hash_id (snd second) (fst second)
     = [ {| hash_id := fst second;
            canonical_url := u;
            normalized_title := _normalize_title t;
            title_hash := _compute_hash (_normalize_title t);
            body_hash :=
              match body2 with
              | Some b => if Py.truthy b then Some (_compute_hash b) else None
              | None => None
              end;
            created_at := now2;
            wp_post_id := p2 |} ].
Proof.
  intros first second. split; [reflexivity|].
  subst second. unfold register_article at 1 2. simpl.
  match goal with
  | |- select_by_hash_id (insert_or_replace ?r _) _ = _ =>
      exact (select_inserted r _)
  end.
Qed.

(** C10.  The pairs ("a|b", "c") and ("a", "b|c") differ and have the same
    fingerprint id, whatever the hash function: the text that is hashed is
    "a|b|c" for both.  Registering the second after the first leaves one
    row under that id, and once the first is registered the second is
    reported as an exact duplicate. *)
Theorem separator_collision
    (self : Deduplicator) (db : list row)
    (body1 body2 : option string) (p1 p2 : option Z) (now1 now2 : string) :
  let first := register_article db "a|b" "c" body1 p1 now1 in
  let second := register_article (snd first) "a" "b|c" body2 p2 now2 in
  ("a|b", "c") <> ("a", "b|c")
  /\ fst first = _compute_hash "a|b|c"
  /\ fst second = _compute_hash "a|b|c"
  /\ (exists r, select_by_hash_id (snd second) (fst first) = [r]
                /\ canonical_url r = "a" /\ normalized_title r = "b|c")
  /\ (exists q,
        check_duplicate self (snd first) "a" "b|c" body2
        = Ret (duplicate_of "exact_hash_match" (fst first) q 1%float)).
Proof.
  intros first second.
  assert (Hsame : fingerprint_id "a|b" "c" = fingerprint_id "a" "b|c")
    by reflexivity.
  split; [discriminate|].
  split; [reflexivity|].
  split; [reflexivity|].
  split.
  - eexists. split.
    + subst second. unfold register_article at 1. simpl.
      match goal with
      | |- select_by_hash_id (insert_or_replace ?r _) _ = _ =>
          exact (select_inserted r _)
      end.
    + split; reflexivity.
  - destruct (check_duplicate_exact self (snd first) "a" "b|c" body2) as [q Hq].
    + rewrite <- Hsame.
      destruct (register_article_row db "a|b" "c" body1 p1 now1)
        as (r & Hdb & Hid & _).
      subst first. rewrite Hdb, <- Hid, select_inserted. discriminate.
    + exists q. rewrite Hq. reflexivity.
Qed.

(** Without the sentence encoder no title is ever compared. *)
Lemma semantic_title_check_unavailable self title_matches normalized_title :
  HAS_ML_DEPS = false ->
  semantic_title_check self title_matches normalized_title = Ret None.
Proof.
  intros Hno. unfold semantic_title_check, _compute_embedding.
  rewrite Hno. reflexivity.
Qed.

(** An encoder that fails on the new title makes the whole comparison
    raise. *)
Lemma semantic_title_check_encoder_fails self title_matches normalized_title e :
  HAS_ML_DEPS = true ->
  st_encode (if (1000 <? Py.len normalized_title)%nat
             then Py.take 1000 normalized_title else normalized_title)
  = Raise e ->
  semantic_title_check self title_matches normalized_title = Raise e.
Proof.
  intros Hyes Hfail. unfold semantic_title_check, _compute_embedding.
  rewrite Hyes. simpl. rewrite Hfail. reflexivity.
Qed.

(** C3.  When no row has the fingerprint id or the canonical URL of the
    new article and some rows have its title hash, [check_duplicate]
    returns the decision "not a duplicate" (it does not raise) as soon as
    the sentence encoder is not installed, or the comparison of the titles
    raises an [Exception]. *)
Theorem title_hash_match_without_oracle
    (self : Deduplicator) (db : list row) (u t : string)
    (body : option string) :
  fetchone (select_by_hash_id db (fingerprint_id u t)) = None ->
  fetchone (select_by_canonical_url db u) = None ->
  select_by_title_hash db (_compute_hash (_normalize_title t)) <> [] ->
  (HAS_ML_DEPS = false
   \/ exists msg,
        semantic_title_check self
          (select_by_title_hash db (_compute_hash (_normalize_title t)))
          (_normalize_title t)
        = Raise (Exception msg)) ->
  exists d,
    check_duplicate self db u t body = Ret d
    /\ is_duplicate d = false
    /\ reason d = None.
Proof.
  intros Hexact Hurl Htitle Horacle.
  exists not_duplicate. split; [|split; reflexivity].
  unfold check_duplicate. fold (fingerprint_id u t).
  rewrite Hexact, Hurl.
  destruct (select_by_title_hash db (_compute_hash (_normalize_title t)))
    as [|m ms] eqn:Hms; [contradiction|].
  destruct Horacle as [Hno|[msg Hraise]].
  - rewrite (semantic_title_check_unavailable _ _ _ Hno). reflexivity.
  - rewrite Hraise. reflexivity.
Qed.

End DedupeProperties.

(** C1, as stated: on a concrete pair the reason returned is not the string
    [exact_match]. *)
Lemma registered_pair_reason_differs :
  let db :=
    snd (@Dedupe.register_article Dedupe.hash_only_libs []
           "https://example.org/a" "Hello World" None (Some 7%Z)
           "2024-05-01T10:00:00") in
  exists d,
    @Dedupe.check_duplicate Dedupe.hash_only_libs Dedupe.default_deduplicator
      db "https://example.org/a" "Hello World" None = Ret d
    /\ Dedupe.is_duplicate d = true
    /\ Dedupe.reason d = Some "exact_hash_match"
    /\ Dedupe.reason d <> Some "exact_match".
Proof.
  intros db. eexists. split; [vm_compute; reflexivity|].
  repeat split. discriminate.
Qed.

(** A title that differs only by case and punctuation from a registered
    one, under another URL, with no sentence encoder installed. *)
Lemma title_hash_match_without_oracle_witness :
  let db :=
    snd (@Dedupe.register_article Dedupe.hash_only_libs []
           "https://example.org/a" "Hello World" None (Some 7%Z)
           "2024-05-01T10:00:00") in
  length (@Dedupe.select_by_title_hash db
            (@Dedupe._compute_hash Dedupe.hash_only_libs
               (Dedupe._normalize_title "hello, world!"))) = 1
  /\ exists d,
       @Dedupe.check_duplicate Dedupe.hash_only_libs
         Dedupe.default_deduplicator db "https://example.org/b"
         "hello, world!" None = Ret d
       /\ Dedupe.is_duplicate d = false
       /\ Dedupe.reason d = None.
Proof.
  intros db. split; [vm_compute; reflexivity|].
  apply (@title_hash_match_without_oracle Dedupe.hash_only_libs
           Dedupe.default_deduplicator db "https://example.org/b"
           "hello, world!" None).
  - vm_compute; reflexivity.
  - vm_compute; reflexivity.
  - vm_compute; discriminate.
  - left; reflexivity.
Defined.

(** The same article when the encoder is installed and fails. *)
Example title_hash_match_failing_encoder :
  let db :=
    snd (@Dedupe.register_article Dedupe.failing_model_libs []
           "https://example.org/a" "Hello World" None (Some 7%Z)
           "2024-05-01T10:00:00") in
  @Dedupe.check_duplicate Dedupe.failing_model_libs
    Dedupe.default_deduplicator db "https://example.org/b" "hello, world!" None
  = Ret Dedupe.not_duplicate.
Proof. vm_compute. reflexivity. Qed.

(** ** The quality gates *)

Section QualityProperties.
Context `{QualityGates.Libs}.
Import QualityGates.

Lemma fold_left_preserves {A B} (P : A -> Prop) (f : A -> B -> A) (l : list B) :
  (forall a b, P a -> P (f a b)) -> forall a, P a -> P (fold_left f l a).
Proof.
  intros Hstep. induction l as [|b l IH]; intros a Ha; simpl.
  - exact Ha.
  - apply IH, Hstep, Ha.
Qed.

Lemma extend_nil {A} (l l' : list A) :
  Py.extend l l' = [] <-> l = [] /\ l' = [].
Proof.
  unfold Py.extend. split.
  - apply app_eq_nil.
  - intros [-> ->]. reflexivity.
Qed.

Lemma append_not_nil {A} (l : list A) (x : A) : Py.append l x <> [].
Proof. unfold Py.append. destruct l; discriminate. Qed.

(** A policy issue is never reported at risk level low. *)
Lemma policy_issue_raises_risk self rewritten_data original_data :
  snd (_check_policy self rewritten_data original_data) <> [] ->
  fst (_check_policy self rewritten_data original_data) <> Low.
Proof.
  set (P := fun st : risk * list string => snd st <> [] -> fst st <> Low).
  change (P (_check_policy self rewritten_data original_data)).
  unfold _check_policy. cbv zeta.
  apply fold_left_preserves.
  { intros st pattern Hst. destruct (re_search pattern false _); [|exact Hst].
    intros _. discriminate. }
  match goal with |- P (if ?c then _ else _) => destruct c end.
  - apply fold_left_preserves.
    { intros st keyword Hst. destruct (Py.contains _ _); [|exact Hst].
      intros _. simpl. destruct (decide (fst st = Low)); [discriminate|assumption]. }
    apply fold_left_preserves.
    { intros st keyword Hst. destruct (Py.contains _ _); [|exact Hst].
      intros _. discriminate. }
    intros Hne. contradiction.
  - apply fold_left_preserves.
    { intros st keyword Hst. destruct (Py.contains _ _); [|exact Hst].
      intros _. discriminate. }
    intros Hne. contradiction.
Qed.

(** The issue of the similarity check, if the text is too similar. *)
Lemma check_returns self original_data rewritten_data is_too_similar score :
  _check_similarity self (get_str (ex_text original_data))
    (get_str (body_markdown rewritten_data)) = Ret (is_too_similar, score) ->
  exists similarity_issues,
    (similarity_issues = [] <-> is_too_similar = false)
    /\ check self original_data rewritten_data
       = Ret {| ok :=
                  (length (Py.extend
                             (Py.extend similarity_issues
                                (_check_sanity self rewritten_data))
                             (snd (_check_policy self rewritten_data
                                     original_data))) =? 0)%nat
                  && bool_decide
                       (fst (_check_policy self rewritten_data original_data)
                        <> High);
                issues :=
                  Py.extend
                    (Py.extend similarity_issues
                       (_check_sanity self rewritten_data))
                    (snd (_check_policy self rewritten_data original_data));
                risk_level :=
                  fst (_check_policy self rewritten_data original_data);
                similarity_score := score;
                needs_review :=
                  bool_decide
                    (fst (_check_policy self rewritten_data original_data)
                     = Medium)
                  || bool_decide
                       (fst (_check_policy self rewritten_data original_data)
                        = High)
                  || is_too_similar
                  || (0 <? length (_check_sanity self rewritten_data))%nat |}.
Proof.
  intros Hsim.
  exists (if is_too_similar
          then ["Testo troppo simile all'originale (similarity: "
                +:+ format_2f score +:+ ")"]
          else []).
  split.
  - destruct is_too_similar; split; intros Hx;
      first [reflexivity | discriminate Hx].
  - unfold check. rewrite Hsim. unfold obind.
    destruct (_check_policy self rewritten_data original_data) as [r pol].
    reflexivity.
Qed.

(** [check] raises only when the similarity check is interrupted. *)
Lemma check_total self original_data rewritten_data :
  (exists v, check self original_data rewritten_data = Ret v)
  \/ check self original_data rewritten_data = Raise KeyboardInterrupt.
Proof.
  unfold check, _check_similarity.
  destruct (st_encode (Py.take 2000 (get_str (ex_text original_data))))
    as [a|[msg|]]; simpl.
  2: { left. destruct (_check_policy _ _ _). eexists; reflexivity. }
  2: { right; reflexivity. }
  destruct (st_encode (Py.take 2000 (get_str (body_markdown rewritten_data))))
    as [b|[msg|]]; simpl.
  2: { left. destruct (_check_policy _ _ _). eexists; reflexivity. }
  2: { right; reflexivity. }
  destruct (np_dot a b) as [x|[msg|]]; simpl.
  - left. destruct (_check_policy _ _ _). eexists; reflexivity.
  - left. destruct (_check_policy _ _ _). eexists; reflexivity.
  - right; reflexivity.
Qed.

Lemma length_zero_iff_nil {A} (l : list A) : (length l =? 0)%nat = true <-> l = [].
Proof. destruct l; simpl; split; intros Hx; first [reflexivity | discriminate Hx]. Qed.

Lemma length_pos_iff {A} (l : list A) : (0 <? length l)%nat = true <-> l <> [].
Proof.
  destruct l as [|x l]; split.
  - intros Hx. discriminate Hx.
  - intros Hx. contradiction.
  - intros _. discriminate.
  - intros _. reflexivity.
Qed.

(** C4.  Whenever the similarity check answers ([is_too_similar], score),
    [check] returns a verdict whose issues are those of the three
    sub-checks in order, whose [ok] flag (the "passed" of the spec) holds
    exactly when no sub-check produced an issue and the risk level is not
    high, and whose [needs_review] flag holds exactly when the risk level
    is medium or high, or the text is too similar, or the sanity check
    produced an issue. *)
Theorem check_aggregates
    (self : QualityGates) (original_data : extracted)
    (rewritten_data : rewritten) (is_too_similar : bool) (score : float) :
  _check_similarity self (get_str (ex_text original_data))
    (get_str (body_markdown rewritten_data)) = Ret (is_too_similar, score) ->
  exists v similarity_issues,
    check self original_data rewritten_data = Ret v
    /\ (similarity_issues = [] <-> is_too_similar = false)
    /\ issues v
       = (similarity_issues ++ _check_sanity self rewritten_data
          ++ snd (_check_policy self rewritten_data original_data))%list
    /\ risk_level v = fst (_check_policy self rewritten_data original_data)
    /\ (ok v = true <-> issues v = [] /\ risk_level v <> High)
    /\ (ok v = true <->
         is_too_similar = false
         /\ _check_sanity self rewritten_data = []
         /\ snd (_check_policy self rewritten_data original_data) = []
         /\ risk_level v <> High)
    /\ (needs_review v = true <->
         risk_level v = Medium \/ risk_level v = High
         \/ is_too_similar = true
         \/ _check_sanity self rewritten_data <> []).
Proof.
  intros Hsim.
  destruct (check_returns self original_data rewritten_data _ _ Hsim)
    as (sim & Hsim_nil & Hcheck).
  eexists. exists sim. split; [exact Hcheck|].
  split; [exact Hsim_nil|]. simpl.
  split; [unfold Py.extend; rewrite <- app_assoc; reflexivity|].
  split; [reflexivity|].
  set (sanity := _check_sanity self rewritten_data) in *.
  set (policy := _check_policy self rewritten_data original_data) in *.
  split; [|split].
  - rewrite andb_true_iff, length_zero_iff_nil, bool_decide_eq_true. tauto.
  - rewrite andb_true_iff, length_zero_iff_nil, bool_decide_eq_true.
    rewrite !extend_nil. tauto.
  - rewrite !orb_true_iff, !bool_decide_eq_true, length_pos_iff. tauto.
Qed.

(** C9.  A verdict that does not pass asks for a review. *)
Theorem failed_verdict_needs_review
    (self : QualityGates) (original_data : extracted)
    (rewritten_data : rewritten) (v : verdict) :
  check self original_data rewritten_data = Ret v ->
  ok v = false ->
  needs_review v = true.
Proof.
  intros Hcheck Hfail.
  destruct (_check_similarity self (get_str (ex_text original_data))
              (get_str (body_markdown rewritten_data)))
    as [[its score]|e] eqn:Hsim.
  2: { unfold check in Hcheck. rewrite Hsim in Hcheck. discriminate. }
  destruct (check_returns self original_data rewritten_data _ _ Hsim)
    as (sim & Hsim_nil & Hret).
  rewrite Hret in Hcheck. injection Hcheck as <-. simpl in *.
  pose proof (policy_issue_raises_risk self rewritten_data original_data)
    as Hpolicy.
  set (sanity := _check_sanity self rewritten_data) in *.
  set (policy := _check_policy self rewritten_data original_data) in *.
  rewrite !orb_true_iff, !bool_decide_eq_true, length_pos_iff.
  apply andb_false_iff in Hfail as [Hlen|Hrisk].
  - destruct its; [tauto|].
    destruct sanity as [|i sanity']; [|right; discriminate].
    assert (Hpol : snd policy <> []).
    { intros Hnil. assert (sim = []) as -> by (apply Hsim_nil; reflexivity).
      rewrite Hnil in Hlen. discriminate. }
    specialize (Hpolicy Hpol).
    destruct (fst policy); [contradiction|tauto|tauto].
  - apply bool_decide_eq_false in Hrisk.
    destruct (fst policy); try tauto. exfalso. apply Hrisk. discriminate.
Qed.

End QualityProperties.

(** A rewrite that mentions "gossip": the verdict does not pass and asks
    for a review. *)
Lemma failed_verdict_needs_review_witness :
  exists v,
    @QualityGates.check QualityDemo.no_model_libs QualityDemo.default_gates
      QualityDemo.source_article QualityDemo.gossip_rewrite = Ret v
    /\ QualityGates.ok v = false
    /\ QualityGates.risk_level v = QualityGates.Medium
    /\ QualityGates.needs_review v = true.
Proof.
  eexists. split; [vm_compute; reflexivity|].
  split; [reflexivity|]. split; [reflexivity|].
  eapply (@failed_verdict_needs_review QualityDemo.no_model_libs
            QualityDemo.default_gates QualityDemo.source_article
            QualityDemo.gossip_rewrite).
  - vm_compute; reflexivity.
  - reflexivity.
Defined.

(** A rewrite the encoder finds identical to its source: the similarity
    check answers (true, 1.0), and the verdict does not pass. *)
Lemma check_aggregates_witness :
  exists v,
    @QualityGates.check QualityDemo.same_text_libs QualityDemo.default_gates
      QualityDemo.source_article QualityDemo.good_rewrite = Ret v
    /\ QualityGates.ok v = false
    /\ QualityGates.needs_review v = true.
Proof.
  destruct (@check_aggregates QualityDemo.same_text_libs
              QualityDemo.default_gates QualityDemo.source_article
              QualityDemo.good_rewrite true 1%float)
    as (v & sim & Hcheck & Hsim & _ & _ & _ & Hok & Hreview).
  - vm_compute; reflexivity.
  - exists v. split; [exact Hcheck|]. split.
    + destruct (QualityGates.ok v); [|reflexivity].
      destruct Hok as [Hok _]. destruct (Hok eq_refl) as [Hno _]. discriminate.
    + apply Hreview. right; right; left; reflexivity.
Defined.

Example gates_pass_clean_rewrite :
  @QualityGates.check QualityDemo.no_model_libs QualityDemo.default_gates
    QualityDemo.source_article QualityDemo.good_rewrite
  = Ret {| QualityGates.ok := true; QualityGates.issues := [];
           QualityGates.risk_level := QualityGates.Low;
           QualityGates.similarity_score := 0%float;
           QualityGates.needs_review := false |}.
Proof. vm_compute. reflexivity. Qed.

Example gates_reject_script_tag :
  @QualityGates.check QualityDemo.no_model_libs QualityDemo.default_gates
    QualityDemo.source_article QualityDemo.script_rewrite
  = Ret {| QualityGates.ok := false;
           QualityGates.issues :=
             ["Contenuto contiene pattern pericoloso: <script"];
           QualityGates.risk_level := QualityGates.Low;
           QualityGates.similarity_score := 0%float;
           QualityGates.needs_review := true |}.
Proof. vm_compute. reflexivity. Qed.

Example gates_reject_card_number :
  @QualityGates.check QualityDemo.no_model_libs QualityDemo.default_gates
    QualityDemo.source_article QualityDemo.card_rewrite
  = Ret {| QualityGates.ok := false;
           QualityGates.issues :=
             ["Dati sensibili rilevati: pattern \b\d{4}\s?\d{4}\s?\d{4}\s?\d{4}\b"];
           QualityGates.risk_level := QualityGates.High;
           QualityGates.similarity_score := 0%float;
           QualityGates.needs_review := true |}.
Proof. vm_compute. reflexivity. Qed.

(** ** The article orchestrator *)

Section PipelineProperties.
Context `{Pipeline.Collaborators}.
Import Pipeline.

Lemma nonempty_truthy (s : string) : 0 < Py.len s -> Py.truthy s = true.
Proof. destruct s; simpl; [lia|reflexivity]. Qed.

(** [process_article] leaves the frame of its caller alone. *)
Lemma process_article_frame {L} self c (s : world * L) :
  snd (snd (process_article self c s)) = snd s.
Proof.
  unfold process_article, with_frame.
  match goal with |- context [let '(r, s') := ?m in _] => destruct m as [r [w' t']] end.
  reflexivity.
Qed.

(** An [Exception] raised by any step inside the [try] of
    [process_article] ends the article as failed, with the message of the
    exception as reason and the time since the start under [total]. *)
Lemma process_article_raises {L} self c msg (w w' : world) (l : L)
    (timing_then : gmap string float) :
  article_steps self c (time_time (clock_reads w)) (tick w, ∅)
  = (Raise (Exception msg), (w', timing_then)) ->
  process_article self c (w, l)
  = (Ret {| status := Failed; reason := Some msg; post_id := None;
            timing :=
              <["total" := PrimFloat.sub (time_time (clock_reads w'))
                             (time_time (clock_reads w))]> timing_then |},
     (tick w', l)).
Proof.
  intros Hraise.
  unfold process_article, with_frame. cbn [fst snd].
  unfold bind at 1. unfold now_seconds at 1. cbn [fst snd].
  unfold try_except. rewrite Hraise. reflexivity.
Qed.

(** The first step: an extractor that raises. *)
Lemma article_steps_extract_raises self c e start_time (w : world)
    (timing_then : gmap string float) :
  extractor_extract (events w) (cand_url c) (cand_source c) = Raise e ->
  article_steps self c start_time (w, timing_then)
  = (Raise e,
     (record_event (EvExtract (cand_url c) (cand_source c)) (tick w),
      timing_then)).
Proof.
  intros Hraise. unfold article_steps. cbv zeta.
  unfold bind at 1. unfold now_seconds at 1. cbn [fst snd].
  unfold bind at 1. unfold call at 1. cbn [fst snd tick events].
  rewrite Hraise. reflexivity.
Qed.

(** A title of fewer than ten characters after [strip()], under a text of
    at least a hundred: the article is skipped after the single call to
    the extractor. *)
Lemma process_article_short_title {L} self c ex (w : world) (l : L) :
  extractor_extract (events w) (cand_url c) (cand_source c) = Ret ex ->
  100 <= Py.len (Py.strip (get_str (ex_text ex))) ->
  Py.len (Py.strip (get_str (ex_title ex))) < 10 ->
  process_article self c (w, l)
  = (Ret {| status := Skipped;
            reason :=
              Some ("empty_title: "
                    +:+ pretty (Py.len (Py.strip (get_str (ex_title ex))))
                    +:+ " caratteri");
            post_id := None;
            timing :=
              {[ "extract" := PrimFloat.sub (time_time (S (S (clock_reads w))))
                                (time_time (S (clock_reads w))) ]} |},
     (tick (record_event (EvExtract (cand_url c) (cand_source c))
              (tick (tick w))), l)).
Proof.
  intros Hex Htext Htitle.
  unfold process_article, article_steps, with_frame, try_except, bind,
    now_seconds, call.
  simpl. rewrite Hex. simpl.
  rewrite (nonempty_truthy (Py.strip (get_str (ex_text ex)))) by lia.
  replace (Py.len (Py.strip (get_str (ex_text ex))) <? 100)%nat with false
    by (symmetry; apply Nat.ltb_ge; lia).
  replace (Py.len (Py.strip (get_str (ex_title ex))) <? 10)%nat with true
    by (symmetry; apply Nat.ltb_lt; lia).
  simpl. rewrite orb_true_r. reflexivity.
Qed.

End PipelineProperties.


(** C6, at a failing input: the outcome for the page with the title
    "Hello" is skipped, and its timing map has an entry for the extraction
    and none under [total]. *)
Lemma skipped_outcome_has_no_total :
  exists r s',
    @Pipeline.process_article PipelineDemo.collaborators unit
      PipelineDemo.publishing_pipeline PipelineDemo.short_candidate
      (PipelineDemo.empty_world, tt) = (Ret r, s')
    /\ Pipeline.status r = Pipeline.Skipped
    /\ Pipeline.timing r !! "extract" = Some 1%float
    /\ Pipeline.timing r !! "total" = None.
Proof.
  do 2 eexists. split; [vm_compute; reflexivity|].
  repeat split; vm_compute; reflexivity.
Qed.

(** The sibling paths: a created article and an article that failed on an
    exception both carry [total]; a dry run does not. *)
Example created_outcome_has_total :
  exists r s',
    @Pipeline.process_article PipelineDemo.collaborators unit
      PipelineDemo.publishing_pipeline PipelineDemo.budget_candidate
      (PipelineDemo.empty_world, tt) = (Ret r, s')
    /\ Pipeline.status r = Pipeline.Created
    /\ Pipeline.post_id r = Some 42%Z
    /\ Pipeline.timing r !! "total" = Some 12%float.
Proof.
  do 2 eexists. split; [vm_compute; reflexivity|].
  repeat split; vm_compute; reflexivity.
Qed.

Example raised_outcome_has_total :
  exists r s',
    @Pipeline.process_article PipelineDemo.collaborators unit
      PipelineDemo.publishing_pipeline PipelineDemo.broken_candidate
      (PipelineDemo.empty_world, tt) = (Ret r, s')
    /\ Pipeline.status r = Pipeline.Failed
    /\ Pipeline.reason r = Some "HTTP 500"
    /\ Pipeline.timing r !! "total" = Some 2%float.
Proof.
  do 2 eexists. split; [vm_compute; reflexivity|].
  repeat split; vm_compute; reflexivity.
Qed.

Example dry_run_outcome_has_no_total :
  exists r s',
    @Pipeline.process_article PipelineDemo.collaborators unit
      PipelineDemo.dry_run_pipeline PipelineDemo.budget_candidate
      (PipelineDemo.empty_world, tt) = (Ret r, s')
    /\ Pipeline.status r = Pipeline.Skipped
    /\ Pipeline.reason r = Some "wp_client_not_configured"
    /\ Pipeline.timing r !! "quality" = Some 1%float
    /\ Pipeline.timing r !! "total" = None.
Proof.
  do 2 eexists. split; [vm_compute; reflexivity|].
  repeat split; vm_compute; reflexivity.
Qed.

(** ** The run orchestrator *)

Section RunProperties.
Context `{Pipeline.Collaborators}.
Import Pipeline.
Lemma finish_run_spec run_id (w : world) (st : Stats.t) :
  let final := Stats.finalize (time_strftime (clock_reads w)) st in
  finish_run run_id (w, st)
  = (Ret tt,
     (record_event (EvGenerateReport run_id final)
        (add_report (run_id, final)
           (record_event (EvSaveStatus final)
              (set_status_file final (tick w)))),
      final)).
Proof. reflexivity. Qed.

Lemma fetch_and_process_caught self limit (s : world * Stats.t) :
  exists s',
    try_except (fetch_and_process self limit) except_interrupt_or_error s
    = (Ret tt, s').
Proof.
  unfold try_except.
  destruct (fetch_and_process self limit s) as [[[]|[msg|]] s'];
    eexists; reflexivity.
Qed.
Lemma run_unfold {L} self limit (w : world) (l : L) :
  let run_id := Py.take 8 (uuid4_str (clock_reads w)) in
  let st0 := Stats.initial run_id (time_strftime (S (clock_reads w))) in
  let w0 := record_event (EvSaveStatus st0) (set_status_file st0 (tick (tick w))) in
  exists w1 st1,
    try_except (fetch_and_process self limit) except_interrupt_or_error (w0, st0)
    = (Ret tt, (w1, st1))
    /\ run self limit (w, l)
       = (Ret tt, (fst (snd (finish_run run_id (w1, st1))), l)).
Proof.
  intros run_id st0 w0.
  destruct (fetch_and_process_caught self limit (w0, st0)) as [[w1 st1] Hbody].
  exists w1, st1. split; [exact Hbody|].
  unfold run, with_frame. cbn [fst snd]. fold run_id. fold st0.
  unfold bind at 1. unfold update_world at 1. cbn [fst snd].
  unfold bind at 1. unfold _save_status at 1. unfold bind at 1, locals at 1, update_world at 1.
  cbn [fst snd]. fold w0.
  unfold try_finally. rewrite Hbody.
  rewrite finish_run_spec. reflexivity.
Qed.

Lemma process_candidates_cons self n i c rest (w : world) (st : Stats.t) :
  let st1 :=
    Stats.set_current_article
      (Some {| Stats.url := cand_url c;
               Stats.title := Py.take 80 (get_str (cand_title c));
               Stats.number := i; Stats.total := n |}) st in
  let w1 := record_event (EvSaveStatus st1) (set_status_file st1 w) in
  process_candidates self n i (c :: rest) (w, st)
  = match process_article self c (w1, st1) with
    | (Ret r, (w2, _)) =>
        let st2 := count_result r (Stats.incr_processed st1) in
        let w3 :=
          record_event
            (EvLogOperation (cand_url c) (status r) (reason r) (timing r)
               (post_id r)) w2 in
        if (i <? n)%nat then
          match time_sleep (events w3) 2 with
          | Ret _ =>
              process_candidates self n (S i) rest
                (record_event (EvSleep 2) w3, st2)
          | Raise e => (Raise e, (record_event (EvSleep 2) w3, st2))
          end
        else process_candidates self n (S i) rest (w3, st2)
    | (Raise e, s') => (Raise e, s')
    end.
Proof.
  intros st1 w1.
  pose proof (process_article_frame self c (w1, st1)) as Hframe.
  cbn [process_candidates].
  unfold bind at 1. unfold update_locals at 1. cbn [fst snd]. fold st1.
  unfold bind at 1. unfold _save_status at 1.
  unfold bind at 1, locals at 1, update_world at 1. cbn [fst snd]. fold w1.
  unfold bind at 1.
  destruct (process_article self c (w1, st1)) as [[r|e] [w2 st']].
  - cbn [fst snd] in Hframe. subst st'.
    unfold bind at 1. unfold update_locals at 1. cbn [fst snd].
    unfold bind at 1. unfold log_operation at 1, update_world at 1. cbn [fst snd].
    unfold bind at 1. unfold update_locals at 1. cbn [fst snd].
    unfold bind at 1.
    destruct (i <? n)%nat.
    + unfold call. cbn [fst snd]. destruct (time_sleep _ 2) as [[]|e]; reflexivity.
    + reflexivity.
  - reflexivity.
Qed.

(** The loop over no candidate. *)
Lemma process_candidates_nil self n i (s : world * Stats.t) :
  process_candidates self n i [] s = (Ret tt, s).
Proof. reflexivity. Qed.

(** The [try] body once the fetcher has answered. *)
Lemma fetch_and_process_fetched self limit candidates (w : world) (st : Stats.t) :
  fetcher_fetch_all (events w) limit = Ret candidates ->
  let st1 :=
    Stats.set_current_step Stats.Processing
      (Stats.set_total_candidates (length candidates) st) in
  fetch_and_process self limit (w, st)
  = process_candidates self (length candidates) 1 candidates
      (record_event (EvSaveStatus st1)
         (set_status_file st1 (record_event (EvFetchAll limit) w)), st1).
Proof.
  intros Hfetch st1. unfold fetch_and_process.
  unfold bind at 1. unfold call at 1. cbn [fst snd]. rewrite Hfetch.
  reflexivity.
Qed.

(** C7.  Every run returns normally, whatever the fetcher, the articles
    and the pauses do (return, raise an [Exception], or raise
    [KeyboardInterrupt]): the status file then holds the final statistics
    with status completed, step completed, no current article and
    [completed_at] set, and the last two things written are that status
    and the report of the run, under the run id, with the same statistics.
    For a batch of three candidates of which the second raises an
    [Exception] inside the [try] of [process_article] while the first and
    the third end with a status other than failed, and whose pauses are
    not interrupted, the final counters are three candidates, three
    processed, one failed, two created or skipped, and the audit trail has
    the entry of the third candidate. *)
Theorem run_always_finalizes {L}
    (self : NewsPipeline) (limit : option nat) (w : world) (l : L) :
  let run_id := Py.take 8 (uuid4_str (clock_reads w)) in
  exists w' st stamp,
    run self limit (w, l) = (Ret tt, (w', l))
    /\ status_file w' = Some st
    /\ Stats.status st = Stats.Completed
    /\ Stats.current_step st = Stats.StepCompleted
    /\ Stats.current_article st = None
    /\ Stats.completed_at st = Some stamp
    /\ (exists earlier, reports w' = (earlier ++ [(run_id, st)])%list)
    /\ (exists earlier,
          events w'
          = (earlier ++ [EvSaveStatus st; EvGenerateReport run_id st])%list)
    /\ (forall c1 c2 c3,
          (forall h, fetcher_fetch_all h limit = Ret [c1; c2; c3]) ->
          (forall w2 : world,
             exists msg w2' timing_then,
               article_steps self c2 (time_time (clock_reads w2))
                 (tick w2, ∅)
               = (Raise (Exception msg), (w2', timing_then))) ->
          (forall s : world * Stats.t,
             exists r s', process_article self c1 s = (Ret r, s')
                          /\ status r <> Failed) ->
          (forall s : world * Stats.t,
             exists r s', process_article self c3 s = (Ret r, s')
                          /\ status r <> Failed) ->
          (forall h k, time_sleep h k = Ret tt) ->
          Stats.total_candidates st = 3
          /\ Stats.processed st = 3
          /\ Stats.failed st = 1
          /\ Stats.created st + Stats.skipped st = 2
          /\ (exists r3,
                status r3 <> Failed
                /\ In (EvLogOperation (cand_url c3) (status r3) (reason r3)
                         (timing r3) (post_id r3)) (events w'))).
Proof.
  intros run_id.
  destruct (run_unfold self limit w l) as (w1 & st1 & Hbody & Hrun).
  fold run_id in Hbody, Hrun.
  rewrite finish_run_spec in Hrun. cbn [fst snd] in Hrun.
  do 3 eexists. split; [exact Hrun|].
  split; [reflexivity|]. split; [reflexivity|]. split; [reflexivity|].
  split; [reflexivity|]. split; [reflexivity|].
  split; [eexists; reflexivity|].
  split.
  { exists (events w1). cbn. rewrite <- app_assoc. reflexivity. }
  intros c1 c2 c3 Hfetch Hc2 Hc1 Hc3 Hsleep.
  unfold try_except in Hbody.
  rewrite (fetch_and_process_fetched self limit [c1; c2; c3]) in Hbody
    by apply Hfetch.
  rewrite process_candidates_cons in Hbody. cbv zeta in Hbody.
  match type of Hbody with
  | context [process_article self c1 ?s] =>
      destruct (Hc1 s) as (r1 & [w2 f2] & Hr1 & Hs1); rewrite Hr1 in Hbody
  end.
  cbn [Nat.ltb Nat.leb length] in Hbody. rewrite Hsleep in Hbody.
  rewrite process_candidates_cons in Hbody. cbv zeta in Hbody.
  match type of Hbody with
  | context [process_article self c2 (?w, ?l)] =>
      destruct (Hc2 w) as (msg & w2' & t2 & Hr2);
      rewrite (process_article_raises self c2 msg w w2' l t2 Hr2) in Hbody
  end.
  cbn [Nat.ltb Nat.leb length] in Hbody. rewrite Hsleep in Hbody.
  rewrite process_candidates_cons in Hbody. cbv zeta in Hbody.
  match type of Hbody with
  | context [process_article self c3 ?s] =>
      destruct (Hc3 s) as (r3 & [w3 f3] & Hr3 & Hs3); rewrite Hr3 in Hbody
  end.
  cbn [Nat.ltb Nat.leb length] in Hbody.
  rewrite process_candidates_nil in Hbody.
  injection Hbody as Hw1 Hst1. subst w1 st1.
  unfold count_result.
  destruct (status r1) eqn:E1; [| |contradiction];
    destruct (status r3) eqn:E3; try contradiction;
    (repeat split; try reflexivity;
     exists r3; split; [rewrite E3; discriminate|];
     cbn; rewrite !in_app_iff; cbn; rewrite E3; tauto).
Qed.

End RunProperties.

(** Three pages, the second of which cannot be downloaded while the other
    two have a five-character title. *)
Lemma run_always_finalizes_witness :
  exists w' st,
    @Pipeline.run
      (PipelineDemo.collaborators_for (Ret PipelineDemo.dull_feed) (Ret tt))
      unit PipelineDemo.publishing_pipeline None (PipelineDemo.empty_world, tt)
    = (Ret tt, (w', tt))
    /\ Pipeline.status_file w' = Some st
    /\ Stats.status st = Stats.Completed
    /\ Stats.processed st = 3
    /\ Stats.failed st = 1.
Proof.
  destruct (@run_always_finalizes
              (PipelineDemo.collaborators_for (Ret PipelineDemo.dull_feed)
                 (Ret tt))
              unit PipelineDemo.publishing_pipeline None
              PipelineDemo.empty_world tt)
    as (w' & st & stamp & Hrun & Hfile & Hstatus & _ & _ & _ & _ & _ & Hbatch).
  assert (Hshort : forall s : Pipeline.world * Stats.t,
            exists r s',
              @Pipeline.process_article
                (PipelineDemo.collaborators_for (Ret PipelineDemo.dull_feed)
                   (Ret tt))
                Stats.t PipelineDemo.publishing_pipeline
                PipelineDemo.short_candidate s = (Ret r, s')
              /\ Pipeline.status r <> Pipeline.Failed).
  { intros [w l]. do 2 eexists. split.
    - apply process_article_short_title
        with (ex := {| ex_url := Some PipelineDemo.short_url;
                       ex_canonical_url := Some PipelineDemo.short_url;
                       ex_title := Some "Hello";
                       ex_text :=
                         Some (QualityDemo.sentence +:+ QualityDemo.sentence);
                       ex_source_name := Some "Example" |}).
      + reflexivity.
      + vm_compute. lia.
      + vm_compute. lia.
    - discriminate. }
  destruct (Hbatch PipelineDemo.short_candidate PipelineDemo.broken_candidate
              PipelineDemo.short_candidate)
    as (_ & Hprocessed & Hfailed & _).
  - intros h. reflexivity.
  - intros w2. exists "HTTP 500". do 2 eexists.
    apply article_steps_extract_raises. reflexivity.
  - exact Hshort.
  - exact Hshort.
  - intros h k. reflexivity.
  - exists w', st. repeat split; assumption.
Defined.

(** A run over the three demonstration pages: one post created, one
    article failed, one skipped. *)
Example run_three_pages :
  exists w',
    @Pipeline.run PipelineDemo.collaborators unit
      PipelineDemo.publishing_pipeline None (PipelineDemo.empty_world, tt)
    = (Ret tt, (w', tt))
    /\ Pipeline.status_file w'
       = Some {| Stats.total_candidates := 3; Stats.processed := 3;
                 Stats.created := 1; Stats.skipped := 1; Stats.failed := 1;
                 Stats.run_id := "0f8fad5b";
                 Stats.status := Stats.Completed;
                 Stats.current_step := Stats.StepCompleted;
                 Stats.current_article := None;
                 Stats.started_at := "2024-05-01T10:00:1";
                 Stats.completed_at := Some "2024-05-01T10:00:21" |}
    /\ length (Pipeline.reports w') = 1
    /\ length (Pipeline.article_hashes w') = 1.
Proof.
  eexists. split; [vm_compute; reflexivity|].
  repeat split; vm_compute; reflexivity.
Qed.

(** The same run interrupted during the first pause: one article was
    processed, and the run is finalized all the same. *)
Example run_interrupted :
  exists w' st,
    @Pipeline.run PipelineDemo.interrupted unit
      PipelineDemo.publishing_pipeline None (PipelineDemo.empty_world, tt)
    = (Ret tt, (w', tt))
    /\ Pipeline.status_file w' = Some st
    /\ Stats.status st = Stats.Completed
    /\ Stats.processed st = 1
    /\ Stats.total_candidates st = 3
    /\ Pipeline.reports w' = [("0f8fad5b", st)].
Proof.
  do 2 eexists. split; [vm_compute; reflexivity|].
  repeat split; vm_compute; reflexivity.
Qed.

(** A run whose fetcher raises: nothing is processed, and the run is
    finalized all the same. *)
Example run_offline :
  exists w' st,
    @Pipeline.run PipelineDemo.offline unit
      PipelineDemo.publishing_pipeline None (PipelineDemo.empty_world, tt)
    = (Ret tt, (w', tt))
    /\ Pipeline.status_file w' = Some st
    /\ Stats.status st = Stats.Completed
    /\ Stats.processed st = 0
    /\ Stats.completed_at st = Some "2024-05-01T10:00:2"
    /\ Pipeline.reports w' = [("0f8fad5b", st)].
Proof.
  do 2 eexists. split; [vm_compute; reflexivity|].
  repeat split; vm_compute; reflexivity.
Qed.

(** ** The monitor *)

Section MonitorProperties.
Import Monitor.

(** While the monitor is running no loop thread leaves its loop. *)
Lemma loop_poll_running tid p :
  is_running (self p) = true -> loop_poll tid p = p.
Proof.
  intros Hrun. unfold loop_poll. rewrite Hrun.
  destruct (threads p !! tid) as [[]|]; reflexivity.
Qed.

Lemma loop_polls_running tids p :
  is_running (self p) = true -> loop_polls tids p = p.
Proof.
  intros Hrun. unfold loop_polls.
  induction tids as [|tid tids IH]; simpl; [reflexivity|].
  rewrite loop_poll_running by exact Hrun. exact IH.
Qed.

Lemma start_while_running now new_pipeline p :
  is_running (self p) = true ->
  start now new_pipeline p = (Ret tt, logged WARNING already_running p).
Proof. intros Hrun. unfold start. rewrite Hrun. reflexivity. Qed.


End MonitorProperties.


(** [start], [stop], [start] without letting the first loop observe the
    stop: two threads are in the loop.  The second [start] here is not a
    [start] while running. *)
Example restart_before_loop_exit :
  let fresh := Monitor.boot (Monitor.new "./config" 300 false) in
  let p1 := snd (Monitor.start "t1" (Ret Monitor.demo_pipeline) fresh) in
  let p2 := Monitor.stop p1 in
  let p3 := snd (Monitor.start "t3" (Ret Monitor.demo_pipeline) p2) in
  Monitor.active_loops p3 = 2
  /\ Monitor.active_loops
       (snd (Monitor.start "t3" (Ret Monitor.demo_pipeline)
               (Monitor.loop_polls [0] p2))) = 1.
Proof. split; vm_compute; reflexivity. Qed.

(* ===================================================================== *)
(** * Further properties *)
(* ===================================================================== *)

Section TextProperties.
Import Text.

Lemma append_cons c s t : String c s +:+ t = String c (s +:+ t).
Proof. reflexivity. Qed.

Lemma map_chars_app f s t :
  Py.map_chars f (s +:+ t) = Py.map_chars f s +:+ Py.map_chars f t.
Proof. induction s as [|c s IH]; simpl; [reflexivity|]. rewrite IH. reflexivity. Qed.

Lemma map_chars_compose f g s :
  Py.map_chars f (Py.map_chars g s) = Py.map_chars (fun c => f (g c)) s.
Proof. induction s as [|c s IH]; simpl; [reflexivity|]. rewrite IH. reflexivity. Qed.

Lemma map_chars_ext f g s :
  (forall c, f c = g c) -> Py.map_chars f s = Py.map_chars g s.
Proof. intros E. induction s as [|c s IH]; simpl; [reflexivity|]. rewrite E, IH. reflexivity. Qed.

Lemma map_chars_fixed f s :
  all_chars (fun c => Ascii.eqb (f c) c) s = true -> Py.map_chars f s = s.
Proof.
  induction s as [|c s IH]; simpl; [reflexivity|].
  intros [Hc Hs]%andb_true_iff. apply Ascii.eqb_eq in Hc.
  rewrite Hc, IH by exact Hs. reflexivity.
Qed.

Lemma all_chars_app p s t :
  all_chars p (s +:+ t) = all_chars p s && all_chars p t.
Proof. induction s as [|c s IH]; simpl; [reflexivity|]. rewrite IH, andb_assoc. reflexivity. Qed.

Lemma all_chars_map p f s :
  all_chars p (Py.map_chars f s) = all_chars (fun c => p (f c)) s.
Proof. induction s as [|c s IH]; simpl; [reflexivity|]. rewrite IH. reflexivity. Qed.

Lemma all_chars_true p s : (forall c, p c = true) -> all_chars p s = true.
Proof. intros Hp. induction s as [|c s IH]; simpl; [reflexivity|]. rewrite Hp, IH. reflexivity. Qed.

Lemma all_chars_impl (p q : ascii -> bool) s :
  (forall c, p c = true -> q c = true) ->
  all_chars p s = true -> all_chars q s = true.
Proof.
  intros Hpq. induction s as [|c s IH]; simpl; [reflexivity|].
  intros [Hc Hs]%andb_true_iff. rewrite (Hpq c Hc), IH by exact Hs. reflexivity.
Qed.

(** *** [split] *)

Lemma split_from_blank cur s :
  blank s = true ->
  Py.split_from cur s = match cur with Some w => [w] | None => [] end.
Proof.
  unfold blank. induction s as [|c s IH] in cur |- *; simpl; [reflexivity|].
  intros [Hc Hs]%andb_true_iff. rewrite Hc.
  destruct cur; rewrite IH by exact Hs; reflexivity.
Qed.

(** Blanks at the end are ignored. *)
Lemma split_from_app_blank cur s suffix :
  blank suffix = true ->
  Py.split_from cur (s +:+ suffix) = Py.split_from cur s.
Proof.
  intros Hb. induction s as [|c s IH] in cur |- *; simpl.
  - apply split_from_blank, Hb.
  - destruct (Py.isspace c); [destruct cur|]; rewrite IH; reflexivity.
Qed.

(** Blanks at the start are ignored. *)
Lemma split_blank_app prefix s :
  blank prefix = true ->
  Py.split_from None (prefix +:+ s) = Py.split_from None s.
Proof.
  unfold blank. induction prefix as [|c p IH]; simpl; [reflexivity|].
  intros [Hc Hp]%andb_true_iff. rewrite Hc. apply IH, Hp.
Qed.

Lemma lstrip_decompose s :
  exists prefix, s = prefix +:+ Py.lstrip s /\ blank prefix = true.
Proof.
  induction s as [|c s (p & Hs & Hp)]; simpl.
  - exists "". split; reflexivity.
  - destruct (Py.isspace c) eqn:Hc.
    + exists (String c p). rewrite append_cons. split; [f_equal; exact Hs|].
      unfold blank in *. simpl. rewrite Hc, Hp. reflexivity.
    + exists "". split; reflexivity.
Qed.

Lemma rstrip_decompose s :
  exists suffix, s = Py.rstrip s +:+ suffix /\ blank suffix = true.
Proof.
  induction s as [|c s (p & Hs & Hp)]; simpl.
  - exists "". split; reflexivity.
  - destruct (Py.rstrip s) as [|d r] eqn:Hr.
    + destruct (Py.isspace c) eqn:Hc.
      * exists (String c s). split; [reflexivity|].
        assert (Hsp : s = p) by exact Hs. rewrite Hsp.
        unfold blank in *. simpl. rewrite Hc, Hp. reflexivity.
      * exists p. rewrite append_cons. split; [f_equal; exact Hs|exact Hp].
    + exists p. rewrite append_cons. split; [f_equal; exact Hs|exact Hp].
Qed.

(** A character map that keeps blanks blank commutes with [strip] as far
    as [split] can tell. *)
Lemma split_map_strip f s :
  (forall c, Py.isspace c = true -> Py.isspace (f c) = true) ->
  Py.split (Py.map_chars f (Py.strip s)) = Py.split (Py.map_chars f s).
Proof.
  intros Hf. unfold Py.split, Py.strip.
  destruct (lstrip_decompose s) as (p & Hs & Hp).
  destruct (rstrip_decompose (Py.lstrip s)) as (q & Hl & Hq).
  rewrite Hs at 2. rewrite Hl at 2.
  rewrite !map_chars_app.
  rewrite split_blank_app, split_from_app_blank; [reflexivity| |].
  - unfold blank. rewrite all_chars_map. revert Hq. apply all_chars_impl, Hf.
  - unfold blank. rewrite all_chars_map. revert Hp. apply all_chars_impl, Hf.
Qed.

(** Reading a word extends the word being read. *)
Lemma split_from_word cur w s :
  all_chars (fun c => negb (Py.isspace c)) w = true ->
  w <> "" ->
  Py.split_from cur (w +:+ s)
  = Py.split_from (Some (match cur with Some x => x +:+ w | None => w end)) s.
Proof.
  induction w as [|c w IH] in cur |- *; simpl; [congruence|].
  intros [Hc Hw]%andb_true_iff _. apply negb_true_iff in Hc. rewrite Hc.
  destruct w as [|d w'].
  - simpl. destruct cur; reflexivity.
  - rewrite IH by (exact Hw || discriminate).
    destruct cur as [x|]; [|reflexivity].
    replace ((x +:+ String c "") +:+ String d w')
      with (x +:+ String c (String d w')); [reflexivity|].
    clear. induction x as [|e x IHx]; [reflexivity|].
    rewrite !append_cons. f_equal. exact IHx.
Qed.

Lemma append_nil_r s : s +:+ "" = s.
Proof. induction s as [|c s IH]; [reflexivity|]. rewrite append_cons, IH. reflexivity. Qed.

Lemma word_not_empty w : word w = true -> w <> "".
Proof. destruct w; [discriminate|discriminate]. Qed.

Lemma word_no_blank w :
  word w = true -> all_chars (fun c => negb (Py.isspace c)) w = true.
Proof. unfold word. intros [_ H]%andb_true_iff. exact H. Qed.

(** [split] undoes [" ".join] on words. *)
Lemma split_join_words ws :
  forallb word ws = true ->
  Py.split (Py.join " " ws) = ws.
Proof.
  unfold Py.split.
  induction ws as [|w ws IH]; [reflexivity|].
  simpl forallb. intros [Hw Hws]%andb_true_iff.
  pose proof (word_not_empty w Hw) as Hne.
  pose proof (word_no_blank w Hw) as Hnb.
  destruct ws as [|w' ws'].
  - change (Py.join " " [w]) with w.
    rewrite <- (append_nil_r w) at 1.
    rewrite split_from_word by assumption. reflexivity.
  - change (Py.join " " (w :: w' :: ws'))
      with (w +:+ " " +:+ Py.join " " (w' :: ws')).
    rewrite split_from_word by assumption.
    change (Py.split_from (Some w) (" " +:+ Py.join " " (w' :: ws')))
      with (w :: Py.split_from None (Py.join " " (w' :: ws'))).
    rewrite (IH Hws). reflexivity.
Qed.

(** What [split] returns are words, made of characters of its argument. *)
Lemma split_from_words cur s :
  match cur with Some x => word x = true | None => True end ->
  forallb word (Py.split_from cur s) = true.
Proof.
  induction s as [|c s IH] in cur |- *; simpl.
  - destruct cur; simpl; [intros ->; reflexivity|reflexivity].
  - intros Hcur. destruct (Py.isspace c) eqn:Hc.
    + destruct cur; simpl; [rewrite Hcur|]; apply IH; exact I.
    + apply IH. destruct cur as [x|].
      * unfold word in *. apply andb_true_iff in Hcur as [Hx Hn].
        rewrite all_chars_app, Hn. simpl. rewrite Hc.
        destruct x; reflexivity.
      * unfold word. simpl. rewrite Hc. reflexivity.
Qed.

Lemma split_from_all_chars p cur s :
  match cur with Some x => all_chars p x = true | None => True end ->
  all_chars p s = true ->
  forallb (all_chars p) (Py.split_from cur s) = true.
Proof.
  induction s as [|c s IH] in cur |- *; simpl.
  - destruct cur; simpl; [intros -> _; reflexivity|reflexivity].
  - intros Hcur [Hc Hs]%andb_true_iff. destruct (Py.isspace c).
    + destruct cur; simpl; [rewrite Hcur|]; apply IH; auto.
    + apply IH; [|exact Hs]. destruct cur as [x|].
      * rewrite all_chars_app, Hcur. simpl. rewrite Hc. reflexivity.
      * simpl. rewrite Hc. reflexivity.
Qed.

Lemma join_all_chars p ws :
  p " "%char = true ->
  forallb (all_chars p) ws = true ->
  all_chars p (Py.join " " ws) = true.
Proof.
  intros Hsp. induction ws as [|w ws IH]; [reflexivity|].
  simpl forallb. intros [Hw Hws]%andb_true_iff.
  destruct ws as [|w' ws']; [exact Hw|].
  change (Py.join " " (w :: w' :: ws'))
    with (w +:+ " " +:+ Py.join " " (w' :: ws')).
  rewrite !all_chars_app, Hw, (IH Hws). simpl. rewrite Hsp. reflexivity.
Qed.

(** *** [_normalize_title] *)

Lemma ascii_cases (P : ascii -> Prop) :
  (forall b0 b1 b2 b3 b4 b5 b6 b7, P (Ascii b0 b1 b2 b3 b4 b5 b6 b7)) ->
  forall c, P c.
Proof. intros HP [b0 b1 b2 b3 b4 b5 b6 b7]. apply HP. Qed.

Ltac by_ascii_cases :=
  let c := fresh "c" in
  intros c; pattern c; apply ascii_cases;
  intros [] [] [] [] [] [] [] []; vm_compute;
  first [reflexivity | intros; first [reflexivity | discriminate]].

Lemma fold_char_idempotent : forall c, fold_char (fold_char c) = fold_char c.
Proof. by_ascii_cases. Qed.

Lemma fold_char_lower : forall c, fold_char (Py.lower_char c) = fold_char c.
Proof. by_ascii_cases. Qed.

Lemma fold_char_blank :
  forall c, implb (Py.isspace c) (Py.isspace (fold_char c)) = true.
Proof. by_ascii_cases. Qed.

Lemma fold_char_steps :
  forall c,
    fold_left (fun acc char => if Ascii.eqb acc char then " "%char else acc)
      Dedupe.punctuation (Py.lower_char c)
    = fold_char c.
Proof. by_ascii_cases. Qed.

Lemma replace_each_char (l : list ascii) s :
  fold_left (fun acc char => Py.replace_char char " " acc) l s
  = Py.map_chars
      (fun c => fold_left (fun acc char => if Ascii.eqb acc char then " "%char else acc) l c)
      s.
Proof.
  induction l as [|a l IH] in s |- *; simpl.
  - induction s as [|c s IHs]; simpl; [reflexivity|]. f_equal. exact IHs.
  - rewrite IH. unfold Py.replace_char. rewrite map_chars_compose. reflexivity.
Qed.

(** The normalized title is the words of the folded title, joined by
    single blanks. *)
Lemma normalize_title_words title :
  Dedupe._normalize_title title
  = Py.join " " (Py.split (Py.map_chars fold_char title)).
Proof.
  unfold Dedupe._normalize_title.
  destruct title as [|c t]; [reflexivity|].
  cbn [Py.truthy negb]. cbv iota.
  rewrite replace_each_char.
  set (r := fun c => fold_left _ Dedupe.punctuation c).
  rewrite split_map_strip.
  - unfold Py.lower. rewrite map_chars_compose.
    f_equal. f_equal. apply map_chars_ext. apply fold_char_steps.
  - subst r. by_ascii_cases.
Qed.

Lemma split_words s : forallb word (Py.split s) = true.
Proof. apply split_from_words. exact I. Qed.



End TextProperties.

Section DedupeDecisions.
Context `{Dedupe.Libs}.
Import Dedupe.

Lemma fingerprint_id_normalized u t t' :
  _normalize_title t' = _normalize_title t ->
  fingerprint_id u t' = fingerprint_id u t.
Proof. unfold fingerprint_id. intros ->. reflexivity. Qed.

(** X3.  A title with the same normalized title as a registered one, under
    the same canonical URL, is reported as an exact duplicate of the
    registered article, whatever was registered in between. *)
Theorem check_duplicate_title_variant
    (self : Deduplicator) (db : list row) (u t t' : string)
    (body : option string) (p : option Z) (now : string)
    (later : list registration) (body' : option string) :
  _normalize_title t' = _normalize_title t ->
  exists d,
    check_duplicate self
      (register_each (snd (register_article db u t body p now)) later)
      u t' body' = Ret d
    /\ is_duplicate d = true
    /\ reason d = Some "exact_hash_match"
    /\ similar_to d = Some (fst (register_article db u t body p now))
    /\ similarity_score d = Some 1%float.
Proof.
  intros Hsame.
  pose proof (fingerprint_id_normalized u t t' Hsame) as Hid.
  destruct (check_duplicate_exact self
              (register_each (snd (register_article db u t body p now)) later)
              u t' body') as [q Hq].
  - apply select_survives_registrations. rewrite Hid.
    destruct (register_article_row db u t body p now) as (r & Hdb & Hr & _).
    rewrite Hdb, <- Hr, select_inserted. discriminate.
  - eexists. split; [exact Hq|]. rewrite Hid. repeat split.
Qed.

Lemma filter_nil_filter {A} (P Q : A -> Prop)
    `{!forall x, Decision (P x)} `{!forall x, Decision (Q x)} (l : list A) :
  filter P l = [] -> filter P (filter Q l) = [].
Proof.
  induction l as [|x l IH]; [reflexivity|].
  destruct (decide (P x)) as [HP|HP].
  - rewrite (filter_cons_True P) by exact HP. discriminate.
  - rewrite (filter_cons_False P) by exact HP. intros Hl.
    destruct (decide (Q x)) as [HQ|HQ].
    + rewrite (filter_cons_True Q) by exact HQ.
      rewrite (filter_cons_False P) by exact HP. apply IH, Hl.
    + rewrite (filter_cons_False Q) by exact HQ. apply IH, Hl.
Qed.

(** The second control decides when the first finds nothing. *)
Lemma check_duplicate_url self db u t body r :
  select_by_hash_id db (fingerprint_id u t) = [] ->
  fetchone (select_by_canonical_url db u) = Some r ->
  check_duplicate self db u t body
  = Ret (duplicate_of "same_canonical_url" (hash_id r) (wp_post_id r) 1%float).
Proof.
  intros Hnone Hurl. unfold check_duplicate. fold (fingerprint_id u t).
  rewrite Hnone. simpl. rewrite Hurl. reflexivity.
Qed.

(** X4.  Once an article is registered under a canonical URL, any title
    whose fingerprint id is not in the table is reported, under that URL,
    as a duplicate for the reason [same_canonical_url]: of the oldest row
    with that URL, with similarity 1.0 and without consulting the sentence
    encoder. *)
Theorem check_duplicate_same_url
    (self : Deduplicator) (db : list row) (u t0 t : string)
    (body0 : option string) (p0 : option Z) (now : string)
    (body : option string) :
  let db1 := snd (register_article db u t0 body0 p0 now) in
  select_by_hash_id db1 (fingerprint_id u t) = [] ->
  exists d r,
    check_duplicate self db1 u t body = Ret d
    /\ is_duplicate d = true
    /\ reason d = Some "same_canonical_url"
    /\ similarity_score d = Some 1%float
    /\ head (select_by_canonical_url db1 u) = Some r
    /\ similar_to d = Some (hash_id r)
    /\ match_wp_post_id d = wp_post_id r
    /\ (select_by_canonical_url db u = [] ->
        hash_id r = fingerprint_id u t0 /\ wp_post_id r = p0).
Proof.
  intros db1 Hnone.
  destruct (register_article_row db u t0 body0 p0 now)
    as (r0 & Hdb & Hid & Hurl & Hp & _).
  fold db1 in Hdb.
  assert (Hsome : select_by_canonical_url db1 u
                  = (select_by_canonical_url
                       (filter (fun x => hash_id x ≠ hash_id r0) db) u ++ [r0])%list).
  { rewrite Hdb. unfold select_by_canonical_url, insert_or_replace.
    rewrite filter_app. f_equal.
    rewrite filter_cons_True by exact Hurl. reflexivity. }
  destruct (fetchone (select_by_canonical_url db1 u)) as [r|] eqn:Hr.
  2: { apply head_None in Hr. rewrite Hsome in Hr.
       apply app_eq_nil in Hr as [_ Hr]. discriminate. }
  exists (duplicate_of "same_canonical_url" (hash_id r) (wp_post_id r) 1%float), r.
  split; [apply check_duplicate_url; assumption|].
  do 6 (split; [first [reflexivity | exact Hr]|]).
  intros Hempty. unfold fetchone in Hr. rewrite Hsome in Hr.
  unfold select_by_canonical_url in Hr, Hempty.
  rewrite (filter_nil_filter _ _ _ Hempty) in Hr.
  injection Hr as <-. split; assumption.
Qed.

(** The best match of the loop, if any, is one of the rows it read. *)
Lemma scan_title_matches_elem cur ms best best' h p :
  scan_title_matches cur ms best = Ret best' ->
  snd best' = Some (h, p) ->
  snd best = Some (h, p)
  \/ exists r, r ∈ ms /\ h = hash_id r /\ p = wp_post_id r.
Proof.
  induction ms as [|m ms IH] in best |- *; simpl.
  - intros [= <-] Hbest. left. exact Hbest.
  - destruct (_compute_embedding (normalized_title m)) as [[e|]|x]; simpl;
      [| |discriminate].
    + destruct (_cosine_similarity cur e) as [sim|x]; simpl; [|discriminate].
      destruct (PrimFloat.ltb (fst best) sim).
      * intros Hscan Hbest.
        destruct (IH _ Hscan Hbest) as [[= <- <-]|(r & Hr & Hh & Hp)].
        -- right. exists m. split; [left|split; reflexivity].
        -- right. exists r. split; [right; exact Hr|split; assumption].
      * intros Hscan Hbest.
        destruct (IH _ Hscan Hbest) as [Hold|(r & Hr & Hh & Hp)].
        -- left. exact Hold.
        -- right. exists r. split; [right; exact Hr|split; assumption].
    + intros Hscan Hbest.
      destruct (IH _ Hscan Hbest) as [Hold|(r & Hr & Hh & Hp)].
      * left. exact Hold.
      * right. exists r. split; [right; exact Hr|split; assumption].
Qed.

(** A semantic match names a row with the title hash, at a score that
    reaches the threshold. *)
Lemma semantic_title_check_sound self ms nt d :
  semantic_title_check self ms nt = Ret (Some d) ->
  exists r score,
    r ∈ ms
    /\ d = duplicate_of "semantic_similarity_title" (hash_id r) (wp_post_id r)
             score
    /\ PrimFloat.leb (similarity_threshold self) score = true
    /\ HAS_ML_DEPS = true.
Proof.
  unfold semantic_title_check, _compute_embedding.
  destruct HAS_ML_DEPS; [|discriminate]. simpl.
  destruct (st_encode _) as [cur|x]; simpl; [|discriminate].
  destruct (scan_title_matches cur ms (0%float, None)) as [[score bm]|x] eqn:Hscan;
    simpl; [|discriminate].
  destruct (PrimFloat.leb (similarity_threshold self) score) eqn:Hthr;
    [|discriminate].
  destruct bm as [[h p]|]; [|discriminate].
  intros [= <-].
  destruct (scan_title_matches_elem _ _ _ _ h p Hscan eq_refl)
    as [Hinit|(r & Hr & -> & ->)]; [discriminate|].
  exists r, score. repeat split; assumption.
Qed.

(** X5.  Whatever [check_duplicate] returns: a decision that is not a
    duplicate carries no reason, and a duplicate names a row of the table,
    with its post id, for one of three reasons.  For [exact_hash_match]
    the row has the fingerprint id of the pair, for [same_canonical_url]
    its canonical URL, both at similarity 1.0; for
    [semantic_similarity_title] the row has the title hash of the new
    title, the sentence encoder is installed and the similarity reaches
    the threshold. *)
Theorem check_duplicate_sound
    (self : Deduplicator) (db : list row) (u t : string)
    (body : option string) (d : decision) :
  check_duplicate self db u t body = Ret d ->
  (is_duplicate d = false -> d = not_duplicate)
  /\ (is_duplicate d = true ->
      exists r,
        r ∈ db
        /\ similar_to d = Some (hash_id r)
        /\ match_wp_post_id d = wp_post_id r
        /\ ((reason d = Some "exact_hash_match"
             /\ hash_id r = fingerprint_id u t
             /\ similarity_score d = Some 1%float)
            \/ (reason d = Some "same_canonical_url"
                /\ canonical_url r = u
                /\ similarity_score d = Some 1%float)
            \/ (reason d = Some "semantic_similarity_title"
                /\ title_hash r = _compute_hash (_normalize_title t)
                /\ HAS_ML_DEPS = true
                /\ exists score,
                     similarity_score d = Some score
                     /\ PrimFloat.leb (similarity_threshold self) score
                        = true))).
Proof.
  unfold check_duplicate. fold (fingerprint_id u t).
  destruct (fetchone (select_by_hash_id db (fingerprint_id u t)))
    as [r|] eqn:Hexact.
  { intros [= <-]. split; [discriminate|]. intros _. exists r.
    apply head_Some_elem_of, list_elem_of_filter in Hexact as [Hid Hin].
    repeat split; [exact Hin|]. left. repeat split. exact Hid. }
  destruct (fetchone (select_by_canonical_url db u)) as [r|] eqn:Hurl.
  { intros [= <-]. split; [discriminate|]. intros _. exists r.
    apply head_Some_elem_of, list_elem_of_filter in Hurl as [Hu Hin].
    repeat split; [exact Hin|]. right; left. repeat split. exact Hu. }
  destruct (select_by_title_hash db (_compute_hash (_normalize_title t)))
    as [|m ms] eqn:Hms.
  { intros [= <-]. split; [reflexivity|discriminate]. }
  destruct (semantic_title_check self (m :: ms) (_normalize_title t))
    as [[d'|]|[msg|]] eqn:Hsem.
  - intros [= <-].
    destruct (semantic_title_check_sound _ _ _ _ Hsem)
      as (r & score & Hr & -> & Hthr & Hml).
    split; [discriminate|]. intros _. exists r.
    rewrite <- Hms in Hr. apply list_elem_of_filter in Hr as [Hth Hin].
    repeat split; [exact Hin|]. right; right.
    repeat split; [exact Hth|exact Hml|]. exists score. split; [reflexivity|exact Hthr].
  - intros [= <-]. split; [reflexivity|discriminate].
  - intros [= <-]. split; [reflexivity|discriminate].
  - discriminate.
Qed.

(** *** The table *)

Lemma hash_ids_insert_or_replace r db :
  NoDup (hash_id <$> db) -> NoDup (hash_id <$> insert_or_replace r db).
Proof.
  intros Hnd. unfold insert_or_replace. rewrite fmap_app. simpl.
  apply NoDup_app. repeat split.
  - induction db as [|x db IH]; [constructor|].
    rewrite fmap_cons in Hnd. apply NoDup_cons in Hnd as [Hx Hdb].
    destruct (decide (hash_id x ≠ hash_id r)) as [Hne|He].
    + rewrite filter_cons_True by exact Hne. rewrite fmap_cons.
      apply NoDup_cons. split; [|apply IH, Hdb].
      intros Hin. apply Hx.
      apply list_elem_of_fmap in Hin as (y & Hy & Hin).
      apply list_elem_of_filter in Hin as [_ Hin].
      apply list_elem_of_fmap. exists y. split; assumption.
    + rewrite filter_cons_False by exact He. apply IH, Hdb.
  - intros h Hin Hr. apply list_elem_of_singleton in Hr as ->.
    apply list_elem_of_fmap in Hin as (y & Hy & Hin).
    apply list_elem_of_filter in Hin as [Hne _]. apply Hne. symmetry. exact Hy.
  - apply NoDup_singleton.
Qed.

Lemma filter_filter_same {A} (P : A -> Prop) `{!forall x, Decision (P x)}
    (l : list A) :
  filter P (filter P l) = filter P l.
Proof.
  induction l as [|x l IH]; [reflexivity|].
  destruct (decide (P x)) as [HP|HP].
  - rewrite (filter_cons_True P x l) by exact HP.
    rewrite filter_cons_True by exact HP. rewrite IH. reflexivity.
  - rewrite (filter_cons_False P x l) by exact HP. exact IH.
Qed.

(** X6.  A registration keeps [hash_id] a key of the table, leaves the
    rows with another id as they were and in their order, and adds at
    most one row; so every table built by registrations from the empty
    one has a key. *)
Theorem register_article_keeps_key
    (db : list row) (u t : string) (body : option string) (p : option Z)
    (now : string) :
  let h := fst (register_article db u t body p now) in
  let db' := snd (register_article db u t body p now) in
  (NoDup (hash_id <$> db) -> NoDup (hash_id <$> db'))
  /\ filter (fun x => hash_id x ≠ h) db' = filter (fun x => hash_id x ≠ h) db
  /\ length db' <= S (length db)
  /\ (select_by_hash_id db h = [] -> length db' = S (length db))
  /\ (forall calls, NoDup (hash_id <$> register_each [] calls)).
Proof.
  intros h db'.
  destruct (register_article_row db u t body p now) as (r & Hdb & Hid & _).
  fold db' in Hdb. change h with (fingerprint_id u t). rewrite <- Hid, Hdb.
  split; [apply hash_ids_insert_or_replace|].
  split.
  { unfold insert_or_replace. rewrite filter_app, filter_filter_same.
    rewrite filter_cons_False by (intros Hne; apply Hne; reflexivity).
    rewrite filter_nil, app_nil_r. reflexivity. }
  split.
  { unfold insert_or_replace. rewrite length_app. simpl.
    pose proof (length_filter (fun x => hash_id x ≠ hash_id r) db). lia. }
  split.
  { intros Hnone. unfold insert_or_replace. rewrite length_app. simpl.
    replace (filter (fun x => hash_id x ≠ hash_id r) db) with db; [lia|].
    unfold select_by_hash_id in Hnone. clear -Hnone.
    induction db as [|x db IH]; [reflexivity|].
    destruct (decide (hash_id x = hash_id r)) as [He|Hne].
    - rewrite filter_cons_True in Hnone by exact He. discriminate.
    - rewrite filter_cons_False in Hnone by exact Hne.
      rewrite filter_cons_True by exact Hne. f_equal. apply IH, Hnone. }
  intros calls.
  assert (Hgen : forall db0, NoDup (hash_id <$> db0) ->
                             NoDup (hash_id <$> register_each db0 calls)).
  { induction calls as [|[[[[u1 t1] b1] p1] n1] calls IH]; intros db0 Hnd.
    - exact Hnd.
    - unfold register_each. simpl. apply IH.
      unfold register_article. simpl. apply hash_ids_insert_or_replace, Hnd. }
  apply Hgen. constructor.
Qed.

(** X7.  With a single row under the title hash, and neither the
    fingerprint id nor the canonical URL in the table, the decision is the
    similarity [s] the encoder gives between the two normalized titles:
    a duplicate for the reason [semantic_similarity_title], of that row
    and at score [s], when [s] is positive and reaches the threshold, and
    not a duplicate otherwise. *)
Theorem check_duplicate_single_title_match
    (self : Deduplicator) (db : list row) (u t : string)
    (body : option string) (m : row) (cur em : embedding) (s : float) :
  fetchone (select_by_hash_id db (fingerprint_id u t)) = None ->
  fetchone (select_by_canonical_url db u) = None ->
  select_by_title_hash db (_compute_hash (_normalize_title t)) = [m] ->
  _compute_embedding (_normalize_title t) = Ret (Some cur) ->
  _compute_embedding (normalized_title m) = Ret (Some em) ->
  _cosine_similarity cur em = Ret s ->
  check_duplicate self db u t body
  = Ret (if PrimFloat.ltb 0 s && PrimFloat.leb (similarity_threshold self) s
         then duplicate_of "semantic_similarity_title" (hash_id m)
                (wp_post_id m) s
         else not_duplicate).
Proof.
  intros Hexact Hurl Hms Hcur Hem Hdot.
  unfold check_duplicate. fold (fingerprint_id u t).
  rewrite Hexact, Hurl, Hms.
  unfold semantic_title_check. rewrite Hcur. simpl.
  rewrite Hem. simpl. rewrite Hdot. simpl.
  destruct (PrimFloat.ltb 0 s); simpl.
  - destruct (PrimFloat.leb (similarity_threshold self) s); reflexivity.
  - destruct (PrimFloat.leb (similarity_threshold self) 0); reflexivity.
Qed.

End DedupeDecisions.

(** "hello world" against the registered "Hello, World!". *)
Lemma check_duplicate_title_variant_witness :
  exists d,
    @Dedupe.check_duplicate Dedupe.hash_only_libs Dedupe.default_deduplicator
      (snd (@Dedupe.register_article Dedupe.hash_only_libs []
              "https://example.org/a" "Hello, World!" None (Some 7%Z)
              "2024-05-01T10:00:00"))
      "https://example.org/a" "hello world" None = Ret d
    /\ Dedupe.reason d = Some "exact_hash_match".
Proof.
  destruct (@check_duplicate_title_variant Dedupe.hash_only_libs
              Dedupe.default_deduplicator [] "https://example.org/a"
              "Hello, World!" "hello world" None (Some 7%Z)
              "2024-05-01T10:00:00" [] None)
    as (d & Hd & _ & Hreason & _).
  - vm_compute. reflexivity.
  - exists d. split; assumption.
Defined.

(** Another title under the URL of the registered article. *)
Lemma check_duplicate_same_url_witness :
  exists d,
    @Dedupe.check_duplicate Dedupe.hash_only_libs Dedupe.default_deduplicator
      DedupeDemo.one_article "https://example.org/a" "Updated: hello" None
    = Ret d
    /\ Dedupe.reason d = Some "same_canonical_url"
    /\ Dedupe.match_wp_post_id d = Some 7%Z.
Proof.
  destruct (@check_duplicate_same_url Dedupe.hash_only_libs
              Dedupe.default_deduplicator [] "https://example.org/a"
              "Hello World" "Updated: hello" None (Some 7%Z)
              "2024-05-01T10:00:00" None)
    as (d & r & Hd & _ & Hreason & _ & _ & _ & Hp & Hfirst).
  - vm_compute. reflexivity.
  - exists d. split; [exact Hd|]. split; [exact Hreason|].
    rewrite Hp. apply Hfirst. reflexivity.
Defined.

(** A duplicate found on a one-row table. *)
Lemma check_duplicate_sound_witness :
  exists d r,
    @Dedupe.check_duplicate Dedupe.hash_only_libs Dedupe.default_deduplicator
      DedupeDemo.one_article "https://example.org/a" "Hello World" None
    = Ret d
    /\ r ∈ DedupeDemo.one_article
    /\ Dedupe.similar_to d = Some (Dedupe.hash_id r).
Proof.
  destruct (@Dedupe.check_duplicate Dedupe.hash_only_libs
              Dedupe.default_deduplicator DedupeDemo.one_article
              "https://example.org/a" "Hello World" None) as [d|e] eqn:Hd;
    [|vm_compute in Hd; discriminate].
  destruct (@check_duplicate_sound Dedupe.hash_only_libs
              Dedupe.default_deduplicator DedupeDemo.one_article
              "https://example.org/a" "Hello World" None d Hd) as [_ Hdup].
  destruct Hdup as (r & Hr & Hsim & _).
  - vm_compute in Hd. injection Hd as <-. reflexivity.
  - exists d, r. split; [reflexivity|]. split; assumption.
Defined.

(** A table of two articles is extended by a third. *)
Lemma register_article_keeps_key_witness :
  let db :=
    @Dedupe.register_each Dedupe.hash_only_libs []
      [("https://example.org/a", "Hello World", None, Some 7%Z, "t1");
       ("https://example.org/b", "Budget approved", None, Some 8%Z, "t2")] in
  length (snd (@Dedupe.register_article Dedupe.hash_only_libs db
                 "https://example.org/c" "Third" None None "t3")) = 3
  /\ NoDup (Dedupe.hash_id <$>
            snd (@Dedupe.register_article Dedupe.hash_only_libs db
                   "https://example.org/c" "Third" None None "t3")).
Proof.
  intros db.
  destruct (@register_article_keeps_key Dedupe.hash_only_libs db
              "https://example.org/c" "Third" None None "t3")
    as (Hkey & _ & _ & Hnew & Hall).
  split.
  - rewrite Hnew; [reflexivity|vm_compute; reflexivity].
  - apply Hkey. apply Hall.
Defined.

(** Similarity 0.9 against the default threshold 0.85, for a title that
    differs from the registered one by case and punctuation, under
    another URL. *)
Lemma check_duplicate_single_title_match_witness :
  exists d,
    @Dedupe.check_duplicate (DedupeDemo.constant_similarity_libs 0.9%float)
      Dedupe.default_deduplicator DedupeDemo.one_article
      "https://example.org/b" "hello, world!" None = Ret d
    /\ Dedupe.is_duplicate d = true
    /\ Dedupe.reason d = Some "semantic_similarity_title"
    /\ Dedupe.similarity_score d = Some 0.9%float.
Proof.
  eexists. split.
  - apply (@check_duplicate_single_title_match
             (DedupeDemo.constant_similarity_libs 0.9%float)
             Dedupe.default_deduplicator DedupeDemo.one_article
             "https://example.org/b" "hello, world!" None
             (hd (Dedupe.Build_row "" "" "" "" None "" None)
                 DedupeDemo.one_article) tt tt 0.9%float);
      vm_compute; reflexivity.
  - repeat split.
Defined.

Section QualityMore.
Context `{QualityGates.Libs}.
Import QualityGates.

(** A loop that raises the level to [High] at every hit. *)
Lemma fold_high_level {B} (test : B -> bool) (msg : B -> string)
    (l : list B) (st : risk * list string) :
  fst (fold_left
         (fun (st : risk * list string) x =>
            if test x then (High, Py.append (snd st) (msg x)) else st) l st)
  = if existsb test l then High else fst st.
Proof.
  induction l as [|x l IH] in st |- *; simpl; [reflexivity|].
  rewrite IH. destruct (test x); simpl; [|reflexivity].
  destruct (existsb test l); reflexivity.
Qed.

(** The loop over the medium keywords, entered below [High]. *)
Lemma fold_medium_level {B} (test : B -> bool) (msg : B -> string)
    (l : list B) (st : risk * list string) :
  fst st <> High ->
  fst (fold_left
         (fun (st : risk * list string) x =>
            if test x
            then ((if decide (fst st = Low) then Medium else fst st),
                  Py.append (snd st) (msg x))
            else st) l st)
  = if existsb test l then Medium else fst st.
Proof.
  induction l as [|x l IH] in st |- *; simpl; [reflexivity|].
  intros Hst. destruct (test x); simpl.
  - rewrite IH; simpl.
    + destruct (fst st); [| |contradiction]; simpl;
        destruct (existsb test l); reflexivity.
    + destruct (fst st); simpl; [discriminate|discriminate|contradiction].
  - apply IH, Hst.
Qed.

(** X9.  The risk level in closed form: high when a high-risk keyword
    occurs in the lower-cased headline, lead and body or a sensitive-data
    pattern matches there; otherwise medium when a medium-risk keyword
    occurs; otherwise low. *)
Theorem check_policy_level
    (self : QualityGates) (rewritten_data : rewritten)
    (original_data : extracted) :
  fst (_check_policy self rewritten_data original_data)
  = if existsb (fun keyword =>
                  Py.contains (Py.lower keyword) (QualityText.combined_text rewritten_data))
         (risk_keywords_high self)
       || existsb (fun pattern =>
                     re_search pattern false (QualityText.combined_text rewritten_data))
            sensitive_patterns
    then High
    else if existsb (fun keyword =>
                       Py.contains (Py.lower keyword)
                         (QualityText.combined_text rewritten_data))
              (risk_keywords_medium self)
         then Medium
         else Low.
Proof.
  unfold _check_policy, QualityText.combined_text. cbv zeta.
  rewrite (fold_high_level
             (fun pattern => re_search pattern false (QualityText.combined_text rewritten_data))
             (fun pattern => "Dati sensibili rilevati: pattern " +:+ pattern)).
  destruct (existsb _ sensitive_patterns); [rewrite orb_true_r; reflexivity|].
  rewrite orb_false_r.
  match goal with |- fst (if ?c then _ else _) = _ => destruct c as [Hlow|Hhigh] end.
  - rewrite (fold_medium_level
               (fun keyword => Py.contains (Py.lower keyword) (QualityText.combined_text rewritten_data))
               (fun keyword => "Contenuto a medio rischio: keyword '" +:+ keyword +:+ "' trovata"))
      by exact Hlow.
    revert Hlow.
    rewrite (fold_high_level
               (fun keyword => Py.contains (Py.lower keyword) (QualityText.combined_text rewritten_data))
               (fun keyword => "Contenuto ad alto rischio: keyword '" +:+ keyword +:+ "' trovata")).
    destruct (existsb _ (risk_keywords_high self)); [contradiction|]. reflexivity.
  - revert Hhigh.
    rewrite (fold_high_level
               (fun keyword => Py.contains (Py.lower keyword) (QualityText.combined_text rewritten_data))
               (fun keyword => "Contenuto ad alto rischio: keyword '" +:+ keyword +:+ "' trovata")).
    destruct (existsb _ (risk_keywords_high self)); [reflexivity|].
    simpl. intros Hc. exfalso. apply Hc. discriminate.
Qed.

(** The policy check reports an issue exactly when it raises the level. *)
Lemma policy_low_iff self rewritten_data original_data :
  fst (_check_policy self rewritten_data original_data) = Low
  <-> snd (_check_policy self rewritten_data original_data) = [].
Proof.
  set (P := fun st : risk * list string => fst st = Low <-> snd st = []).
  change (P (_check_policy self rewritten_data original_data)).
  assert (Hhit : forall r l x, r <> Low -> P (r, Py.append l x)).
  { intros r l x Hr. unfold P. simpl. split; [contradiction|].
    intros Hnil. exfalso. exact (append_not_nil l x Hnil). }
  unfold _check_policy. cbv zeta.
  apply fold_left_preserves.
  { intros st pattern Hst. destruct (re_search pattern false _); [|exact Hst].
    apply Hhit. discriminate. }
  match goal with |- P (if ?c then _ else _) => destruct c end.
  - apply fold_left_preserves.
    { intros st keyword Hst. destruct (Py.contains _ _); [|exact Hst].
      apply Hhit. destruct (decide (fst st = Low)); [discriminate|assumption]. }
    apply fold_left_preserves.
    { intros st keyword Hst. destruct (Py.contains _ _); [|exact Hst].
      apply Hhit. discriminate. }
    split; reflexivity.
  - apply fold_left_preserves.
    { intros st keyword Hst. destruct (Py.contains _ _); [|exact Hst].
      apply Hhit. discriminate. }
    split; reflexivity.
Qed.

(** X8.  In every verdict the two flags are complementary: a verdict
    passes exactly when it does not ask for a review. *)
Theorem verdict_flags_complementary
    (self : QualityGates) (original_data : extracted)
    (rewritten_data : rewritten) (v : verdict) :
  check self original_data rewritten_data = Ret v ->
  ok v = negb (needs_review v).
Proof.
  intros Hcheck.
  destruct (_check_similarity self (get_str (ex_text original_data))
              (get_str (body_markdown rewritten_data)))
    as [[its score]|e] eqn:Hsim.
  2: { unfold check in Hcheck. rewrite Hsim in Hcheck. discriminate. }
  destruct (check_returns self original_data rewritten_data _ _ Hsim)
    as (sim & Hsim_nil & Hret).
  rewrite Hret in Hcheck. injection Hcheck as <-. simpl.
  pose proof (policy_low_iff self rewritten_data original_data) as Hlow.
  set (sanity := _check_sanity self rewritten_data) in *.
  set (policy := _check_policy self rewritten_data original_data) in *.
  destruct its.
  - rewrite !orb_true_r. simpl.
    destruct sim as [|i sim']; [|reflexivity].
    destruct Hsim_nil as [Hc _]. discriminate (Hc eq_refl).
  - assert (sim = []) as -> by (apply Hsim_nil; reflexivity).
    rewrite orb_false_r.
    destruct sanity as [|i sanity']; [|simpl; rewrite !orb_true_r; reflexivity].
    simpl. rewrite orb_false_r.
    destruct (fst policy) eqn:Hrisk.
    + assert (snd policy = []) as -> by (apply Hlow; reflexivity). reflexivity.
    + simpl. apply andb_false_iff. left.
      destruct (snd policy) eqn:Hp; [|reflexivity].
      destruct Hlow as [_ Hc]. discriminate (Hc eq_refl).
    + simpl. apply andb_false_r.
Qed.

(** The loop over the dangerous patterns only adds issues, one for each
    pattern found. *)
Lemma dangerous_loop_keeps (test : string -> bool) (msg : string -> string)
    (l : list string) (issues : list string) (x : string) :
  In x issues ->
  In x (fold_left (fun issues pattern =>
                     if test pattern then Py.append issues (msg pattern)
                     else issues) l issues).
Proof.
  induction l as [|p l IH] in issues |- *; simpl; [auto|].
  intros Hin. apply IH. destruct (test p); [|exact Hin].
  unfold Py.append. apply in_or_app. left. exact Hin.
Qed.

Lemma dangerous_loop_reports (test : string -> bool) (msg : string -> string)
    (l : list string) (issues : list string) (p : string) :
  In p l -> test p = true ->
  In (msg p)
     (fold_left (fun issues pattern =>
                   if test pattern then Py.append issues (msg pattern)
                   else issues) l issues).
Proof.
  induction l as [|q l IH] in issues |- *; simpl; [contradiction|].
  intros [->|Hin] Hp.
  - rewrite Hp. apply dangerous_loop_keeps.
    unfold Py.append. apply in_or_app. right. left. reflexivity.
  - apply IH; assumption.
Qed.

Lemma in_append {A} (l : list A) (x y : A) : In x l -> In x (Py.append l y).
Proof. intros Hin. unfold Py.append. apply in_or_app. left. exact Hin. Qed.

Lemma in_append_last {A} (l : list A) (x : A) : In x (Py.append l x).
Proof. unfold Py.append. apply in_or_app. right. left. reflexivity. Qed.

(** The sanity issues for the word count. *)
Lemma check_sanity_word_count self rewritten_data :
  let word_count := default 0%Z (word_count rewritten_data) in
  ((word_count < min_length self)%Z ->
   In (QualityText.too_short self word_count) (_check_sanity self rewritten_data))
  /\ ((max_length self < word_count)%Z ->
      In (QualityText.too_long self word_count) (_check_sanity self rewritten_data)).
Proof.
  intros wc. unfold _check_sanity. cbv zeta. fold wc.
  split; intros Hwc; apply dangerous_loop_keeps.
  - replace (wc <? min_length self)%Z with true
      by (symmetry; apply Z.ltb_lt; exact Hwc).
    cbv iota.
    repeat first
      [ apply in_append_last
      | match goal with |- In _ (if ?c then _ else _) => destruct c end
      | apply in_append ].
  - replace (max_length self <? wc)%Z with true
      by (symmetry; apply Z.ltb_lt; exact Hwc).
    cbv iota.
    repeat first
      [ apply in_append_last
      | match goal with |- In _ (if ?c then _ else _) => destruct c end
      | apply in_append ].
Qed.

Lemma check_sanity_dangerous self rewritten_data pattern :
  In pattern dangerous_patterns ->
  re_search pattern true (get_str (body_markdown rewritten_data)) = true ->
  In ("Contenuto contiene pattern pericoloso: " +:+ pattern)
     (_check_sanity self rewritten_data).
Proof.
  intros Hin Hfound. unfold _check_sanity. cbv zeta.
  apply (dangerous_loop_reports
           (fun pattern => re_search pattern true (get_str (body_markdown rewritten_data)))
           (fun pattern => "Contenuto contiene pattern pericoloso: " +:+ pattern));
    assumption.
Qed.

(** A sanity issue is an issue of the verdict, which then fails and asks
    for a review. *)
Lemma sanity_issue_fails self original_data rewritten_data v issue :
  check self original_data rewritten_data = Ret v ->
  In issue (_check_sanity self rewritten_data) ->
  In issue (issues v) /\ ok v = false /\ needs_review v = true.
Proof.
  intros Hcheck Hin.
  destruct (_check_similarity self (get_str (ex_text original_data))
              (get_str (body_markdown rewritten_data)))
    as [[its score]|e] eqn:Hsim.
  2: { unfold check in Hcheck. rewrite Hsim in Hcheck. discriminate. }
  destruct (check_returns self original_data rewritten_data _ _ Hsim)
    as (sim & _ & Hret).
  rewrite Hret in Hcheck. injection Hcheck as <-. simpl.
  assert (Hall : In issue
                   (Py.extend (Py.extend sim (_check_sanity self rewritten_data))
                      (snd (_check_policy self rewritten_data original_data)))).
  { unfold Py.extend. apply in_or_app. left. apply in_or_app. right. exact Hin. }
  split; [exact Hall|]. split.
  - apply andb_false_iff. left.
    destruct (Py.extend _ _); [contradiction|reflexivity].
  - rewrite !orb_true_iff. right.
    destruct (_check_sanity self rewritten_data); [contradiction|reflexivity].
Qed.

(** X10.  A word count below the minimum, or above the maximum, is
    reported by its own issue, and the verdict fails and asks for a
    review whatever the similarity check and the policy check say.  A
    rewrite without the key [word_count] counts as zero words. *)
Theorem word_count_out_of_range_fails
    (self : QualityGates) (original_data : extracted)
    (rewritten_data : rewritten) (v : verdict) :
  check self original_data rewritten_data = Ret v ->
  let word_count := default 0%Z (word_count rewritten_data) in
  ((word_count < min_length self)%Z ->
   In (QualityText.too_short self word_count) (issues v)
   /\ ok v = false /\ needs_review v = true)
  /\ ((max_length self < word_count)%Z ->
      In (QualityText.too_long self word_count) (issues v)
      /\ ok v = false /\ needs_review v = true).
Proof.
  intros Hcheck wc.
  destruct (check_sanity_word_count self rewritten_data) as [Hshort Hlong].
  split; intros Hwc.
  - apply (sanity_issue_fails self original_data rewritten_data v _ Hcheck).
    apply Hshort, Hwc.
  - apply (sanity_issue_fails self original_data rewritten_data v _ Hcheck).
    apply Hlong, Hwc.
Qed.

(** X11.  A body in which [re.search] finds one of the five dangerous
    patterns, case ignored, is reported with that pattern, and the verdict
    fails and asks for a review. *)
Theorem dangerous_pattern_fails
    (self : QualityGates) (original_data : extracted)
    (rewritten_data : rewritten) (v : verdict) (pattern : string) :
  check self original_data rewritten_data = Ret v ->
  In pattern dangerous_patterns ->
  re_search pattern true (get_str (body_markdown rewritten_data)) = true ->
  In ("Contenuto contiene pattern pericoloso: " +:+ pattern) (issues v)
  /\ ok v = false
  /\ needs_review v = true.
Proof.
  intros Hcheck Hin Hfound.
  apply (sanity_issue_fails self original_data rewritten_data v _ Hcheck).
  apply check_sanity_dangerous; assumption.
Qed.

(** X12.  The similarity check fails open: when the encoder raises an
    [Exception] on the original text or on the rewritten body, or the dot
    product does, [check] still returns a verdict; its similarity is 0.0,
    it has no similarity issue, and it passes exactly when the sanity
    check reports nothing and the risk level is low. *)
Theorem similarity_fails_open
    (self : QualityGates) (original_data : extracted)
    (rewritten_data : rewritten) :
  let original := Py.take 2000 (get_str (ex_text original_data)) in
  let rewritten := Py.take 2000 (get_str (body_markdown rewritten_data)) in
  ((exists msg, st_encode original = Raise (Exception msg))
   \/ (exists a msg,
         st_encode original = Ret a
         /\ st_encode rewritten = Raise (Exception msg))
   \/ (exists a b msg,
         st_encode original = Ret a /\ st_encode rewritten = Ret b
         /\ np_dot a b = Raise (Exception msg))) ->
  exists v,
    check self original_data rewritten_data = Ret v
    /\ similarity_score v = 0%float
    /\ issues v
       = (_check_sanity self rewritten_data
          ++ snd (_check_policy self rewritten_data original_data))%list
    /\ (ok v = true <->
        _check_sanity self rewritten_data = []
        /\ risk_level v = Low).
Proof.
  intros original rewritten Hfail.
  assert (Hsim : _check_similarity self (get_str (ex_text original_data))
                   (get_str (body_markdown rewritten_data))
                 = Ret (false, 0%float)).
  { unfold _check_similarity. fold original. fold rewritten.
    destruct Hfail as [[msg H1]|[(a & msg & H1 & H2)|(a & b & msg & H1 & H2 & H3)]].
    - rewrite H1. reflexivity.
    - rewrite H1. simpl. rewrite H2. reflexivity.
    - rewrite H1. simpl. rewrite H2. simpl. rewrite H3. reflexivity. }
  destruct (check_returns self original_data rewritten_data _ _ Hsim)
    as (sim & Hsim_nil & Hret).
  assert (sim = []) as -> by (apply Hsim_nil; reflexivity).
  eexists. split; [exact Hret|]. simpl.
  split; [reflexivity|]. split; [reflexivity|].
  pose proof (policy_low_iff self rewritten_data original_data) as Hlow.
  rewrite andb_true_iff, length_zero_iff_nil, bool_decide_eq_true.
  unfold Py.extend. simpl. split.
  - intros [Hnil Hrisk]. apply app_eq_nil in Hnil as [Hs Hp].
    split; [exact Hs|]. apply Hlow, Hp.
  - intros [Hs Hl]. rewrite Hs, Hl. split; [|discriminate].
    simpl. apply Hlow, Hl.
Qed.

End QualityMore.

(** A rewrite of fifty words against the default minimum of 200, with an
    encoder that finds it identical to its source. *)
Lemma word_count_out_of_range_fails_witness :
  let fifty :=
    {| headline := Some "Council approves the budget";
       lead := Some "After a long debate the council approved the budget.";
       body_markdown :=
         Some (QualityDemo.sentence +:+ QualityDemo.sentence
               +:+ QualityDemo.sentence);
       word_count := Some 50%Z;
       category := Some "news" |} in
  exists v,
    @QualityGates.check QualityDemo.same_text_libs QualityDemo.default_gates
      QualityDemo.source_article fifty = Ret v
    /\ In "Articolo troppo corto: 50 parole (min: 200)" (QualityGates.issues v)
    /\ QualityGates.ok v = false.
Proof.
  intros fifty.
  destruct (@QualityGates.check QualityDemo.same_text_libs
              QualityDemo.default_gates QualityDemo.source_article fifty)
    as [v|e] eqn:Hcheck; [|vm_compute in Hcheck; discriminate].
  destruct (@word_count_out_of_range_fails QualityDemo.same_text_libs
              QualityDemo.default_gates QualityDemo.source_article fifty v
              Hcheck) as [Hshort _].
  destruct Hshort as (Hin & Hok & _); [vm_compute; reflexivity|].
  exists v. split; [reflexivity|]. split; [exact Hin|exact Hok].
Defined.

(** A body with a script tag in capitals. *)
Lemma dangerous_pattern_fails_witness :
  exists v,
    @QualityGates.check QualityDemo.no_model_libs QualityDemo.default_gates
      QualityDemo.source_article QualityDemo.script_rewrite = Ret v
    /\ In "Contenuto contiene pattern pericoloso: <script" (QualityGates.issues v)
    /\ QualityGates.ok v = false.
Proof.
  destruct (@QualityGates.check QualityDemo.no_model_libs
              QualityDemo.default_gates QualityDemo.source_article
              QualityDemo.script_rewrite)
    as [v|e] eqn:Hcheck; [|vm_compute in Hcheck; discriminate].
  destruct (@dangerous_pattern_fails QualityDemo.no_model_libs
              QualityDemo.default_gates QualityDemo.source_article
              QualityDemo.script_rewrite v "<script" Hcheck)
    as (Hin & Hok & _).
  - left. reflexivity.
  - vm_compute. reflexivity.
  - exists v. split; [reflexivity|]. split; [exact Hin|exact Hok].
Defined.

(** The verdict on the rewrite that mentions "gossip". *)
Lemma verdict_flags_complementary_witness :
  exists v,
    @QualityGates.check QualityDemo.no_model_libs QualityDemo.default_gates
      QualityDemo.source_article QualityDemo.gossip_rewrite = Ret v
    /\ QualityGates.ok v = negb (QualityGates.needs_review v).
Proof.
  destruct (@QualityGates.check QualityDemo.no_model_libs
              QualityDemo.default_gates QualityDemo.source_article
              QualityDemo.gossip_rewrite)
    as [v|e] eqn:Hcheck; [|vm_compute in Hcheck; discriminate].
  exists v. split; [reflexivity|].
  exact (@verdict_flags_complementary QualityDemo.no_model_libs
           QualityDemo.default_gates QualityDemo.source_article
           QualityDemo.gossip_rewrite v Hcheck).
Defined.

(** An encoder that cannot be loaded, on a clean rewrite. *)
Lemma similarity_fails_open_witness :
  exists v,
    @QualityGates.check QualityDemo.no_model_libs QualityDemo.default_gates
      QualityDemo.source_article QualityDemo.good_rewrite = Ret v
    /\ QualityGates.similarity_score v = 0%float.
Proof.
  destruct (@similarity_fails_open QualityDemo.no_model_libs
              QualityDemo.default_gates QualityDemo.source_article
              QualityDemo.good_rewrite)
    as (v & Hcheck & Hscore & _).
  - left. exists "model not found". reflexivity.
  - exists v. split; assumption.
Defined.

Section WordFrequencies.
Import QualityGates.

(** The dictionary after the loop, from any dictionary before it. *)
Lemma word_freq_loop (words : list string) (m : gmap string nat) (w : string) :
  fold_left
    (fun (word_freq : gmap string nat) word =>
       if (4 <? Py.len word)%nat
       then <[word := (default 0%nat (word_freq !! word) + 1)%nat]> word_freq
       else word_freq) words m !! w
  = if (4 <? Py.len w)%nat && (0 <? length (filter (fun x => x = w) words))%nat
    then Some (default 0%nat (m !! w) + length (filter (fun x => x = w) words))%nat
    else m !! w.
Proof.
  induction words as [|x words IH] in m |- *; simpl.
  - rewrite andb_false_r. reflexivity.
  - rewrite IH. destruct (decide (x = w)) as [->|Hne].
    + rewrite (filter_cons_True (fun x => x = w)) by reflexivity. simpl.
      destruct (4 <? Py.len w)%nat eqn:Hlen; simpl.
      * rewrite lookup_insert_eq. simpl.
        destruct (length (filter (fun x => x = w) words)) as [|c]; simpl;
          f_equal; lia.
      * reflexivity.
    + rewrite (filter_cons_False (fun x => x = w)) by exact Hne.
      destruct (4 <? Py.len x)%nat; [|reflexivity].
      rewrite lookup_insert_ne by exact Hne. reflexivity.
Qed.


End WordFrequencies.

(** ** One article, whatever the collaborators do *)

Section ArticleProperties.
Context `{Pipeline.Collaborators}.
Import Pipeline.

Ltac article_unfold :=
  cbv beta iota zeta delta
    [article_steps bind call now_seconds record_elapsed update_locals locals
     ret raise subscript skipped_because deduplicator_check_duplicate
     deduplicator_register_article quality_gates_check _save_rewritten_data
     update_world fst snd].

Ltac article_case :=
  match goal with
  | |- context [match ?x with _ => _ end] =>
      lazymatch x with
      | context [match _ with _ => _ end] => fail
      | _ => destruct x eqn:?
      end
  end.

Ltac world_fields :=
  cbn [events reports status_file article_hashes clock_reads tick record_event
       set_article_hashes status reason post_id timing Nat.pred].

(** What the body of the [try] leaves behind, path by path. *)
Lemma article_steps_post self c start_time w tm o w' tm' :
  article_steps self c start_time (w, tm) = (o, (w', tm')) ->
  reports w' = reports w
  /\ status_file w' = status_file w
  /\ exists url cu t passed id new,
       events w' = (events w ++ new)%list
       /\ new `prefix_of` ArticleCalls.in_order c url cu t passed id
       /\ 1 <= length new
       /\ match o with
          | Raise e =>
              article_hashes w' = article_hashes w
              /\ length new <= 6
              /\ (wp_client self = None -> length new <= 5)
              /\ tm' !! "total" = tm !! "total"
          | Ret r =>
              timing r = tm'
              /\ match status r with
                 | Skipped =>
                     post_id r = None
                     /\ reason r <> None
                     /\ article_hashes w' = article_hashes w
                     /\ length new <= 5
                     /\ tm' !! "total" = tm !! "total"
                 | Failed =>
                     post_id r = None
                     /\ reason r = Some "wp_post_creation_failed"
                     /\ article_hashes w' = article_hashes w
                     /\ length new = 6
                     /\ wp_client self <> None
                     /\ tm' !! "total" = tm !! "total"
                 | Created =>
                     post_id r = Some id
                     /\ id <> 0%Z
                     /\ reason r = None
                     /\ new = ArticleCalls.in_order c url cu t passed id
                     /\ wp_client self <> None
                     /\ tm' !! "total"
                        = Some (PrimFloat.sub
                                  (time_time (Nat.pred (clock_reads w')))
                                  start_time)
                     /\ exists ex n,
                          extractor_extract (events w) (cand_url c)
                            (cand_source c) = Ret ex
                          /\ ex_url ex = url
                          /\ ex_canonical_url ex = Some cu
                          /\ ex_title ex = Some t
                          /\ (Py.len (Py.strip (get_str (ex_text ex))) <? 100)%nat
                             = false
                          /\ (Py.len (Py.strip t) <? 10)%nat = false
                          /\ article_hashes w'
                             = snd (Dedupe.register_article (article_hashes w)
                                      cu t (ex_text ex) (Some id)
                                      (datetime_now_isoformat n))
                 end
          end.
Proof.
  intros Heq. pattern o, w', tm'.
  match goal with |- ?P o w' tm' => set (Q := P) end.
  revert Heq. article_unfold.
  repeat (article_case; article_unfold).
  all: intros Heq; injection Heq as <- <- <-; subst Q; cbv beta.
  all: world_fields.
  all: split; [reflexivity|split; [reflexivity|]].
  all: rewrite <- ?app_assoc; cbn [app].
  all: eexists _, _, _, _, _, _; (split; [reflexivity|]);
    (split; [eexists; reflexivity|]).
  all: repeat match goal with
         | |- _ /\ _ => split
         | |- _ = _ => reflexivity
         | |- Some _ <> None => discriminate
         | |- _ <= _ => cbn [length]; lia
         | |- _ = None -> _ <= _ =>
             let Hn := fresh in
             intros Hn;
             first [cbn [length]; lia | discriminate Hn
                   | rewrite Hn in *; discriminate]
         | |- length _ = _ => reflexivity
         | |- _ !! "total" = _ => rewrite ?lookup_insert_ne by discriminate; reflexivity
         | Hc : wp_client _ = Some _ |- wp_client _ <> None => rewrite Hc; discriminate
         | |- Z.pos _ <> 0%Z => discriminate
         | |- Z.neg _ <> 0%Z => discriminate
         | |- <["total" := _]> _ !! "total" = Some _ => apply lookup_insert_eq
         end.
  all: match goal with
       | Hex : extractor_extract _ _ _ = Ret ?a,
         Hreg : Dedupe.register_article _ _ _ _ _ (datetime_now_isoformat ?n) = _
         |- _ => exists a, n
       end.
  all: apply orb_false_elim in Heqb as [_ Htext];
    apply orb_false_elim in Heqb0 as [_ Htitle].
  all: repeat split; try assumption.
  all: match goal with
       | Hreg : Dedupe.register_article _ _ _ _ _ _ = _ |- _ =>
           apply (f_equal snd) in Hreg; symmetry; exact Hreg
       end.
  Unshelve.
  all: first [exact None | exact "" | exact false | exact 0%Z].
Qed.

(** The same for [process_article]: the [except] clause turns an
    [Exception] into a failed outcome, and lets a [KeyboardInterrupt]
    through. *)
Lemma process_article_post {L} self c (w : world) (l : L) o w' l' :
  process_article self c (w, l) = (o, (w', l')) ->
  l' = l
  /\ reports w' = reports w
  /\ status_file w' = status_file w
  /\ exists url cu t passed id new,
       events w' = (events w ++ new)%list
       /\ new `prefix_of` ArticleCalls.in_order c url cu t passed id
       /\ 1 <= length new
       /\ (wp_client self = None -> length new <= 5)
       /\ match o with
          | Raise e =>
              e = KeyboardInterrupt
              /\ article_hashes w' = article_hashes w
              /\ length new <= 6
          | Ret r =>
              match status r with
              | Skipped =>
                  post_id r = None
                  /\ reason r <> None
                  /\ article_hashes w' = article_hashes w
                  /\ length new <= 5
                  /\ timing r !! "total" = None
              | Failed =>
                  post_id r = None
                  /\ reason r <> None
                  /\ article_hashes w' = article_hashes w
                  /\ length new <= 6
              | Created =>
                  post_id r = Some id
                  /\ id <> 0%Z
                  /\ reason r = None
                  /\ new = ArticleCalls.in_order c url cu t passed id
                  /\ wp_client self <> None
                  /\ timing r !! "total"
                     = Some (PrimFloat.sub
                               (time_time (Nat.pred (clock_reads w')))
                               (time_time (clock_reads w)))
                  /\ exists ex n,
                       extractor_extract (events w) (cand_url c)
                         (cand_source c) = Ret ex
                       /\ ex_url ex = url
                       /\ ex_canonical_url ex = Some cu
                       /\ ex_title ex = Some t
                       /\ (Py.len (Py.strip (get_str (ex_text ex))) <? 100)%nat
                          = false
                       /\ (Py.len (Py.strip t) <? 10)%nat = false
                       /\ article_hashes w'
                          = snd (Dedupe.register_article (article_hashes w)
                                   cu t (ex_text ex) (Some id)
                                   (datetime_now_isoformat n))
              end
          end.
Proof.
  unfold process_article, with_frame. cbn [fst snd].
  unfold bind at 1. unfold now_seconds at 1. cbn [fst snd].
  unfold try_except.
  destruct (article_steps self c (time_time (clock_reads w)) (tick w, ∅))
    as [[r|[msg|]] [w1 tm1]] eqn:Hsteps;
    apply article_steps_post in Hsteps
      as (Hrep & Hfile & url & cu & t & passed & id & new & Hev & Hpre & Hone
          & Hout).
  - intros Heq; injection Heq as <- <- <-.
    split; [reflexivity|]. split; [exact Hrep|]. split; [exact Hfile|].
    exists url, cu, t, passed, id, new.
    split; [exact Hev|]. split; [exact Hpre|]. split; [exact Hone|].
    destruct Hout as [Htm Hout]. rewrite Htm.
    destruct (status r).
    + destruct Hout as (Hp & Hr & Hdb & Hlen & Htot).
      split; [intros _; exact Hlen|].
      rewrite Htot, lookup_empty. repeat split; assumption.
    + destruct Hout as (Hp & Hne & Hr & Hnew & Hwp & Htot & Hex).
      split; [intros Hn; contradiction|].
      repeat split; assumption.
    + destruct Hout as (Hp & Hr & Hdb & Hlen & Hwp & Htot).
      split; [intros Hn; contradiction|].
      repeat split; try assumption; [rewrite Hr; discriminate|lia].
  - unfold except_Exception, article_failed.
    unfold bind at 1. unfold record_elapsed at 1.
    unfold bind at 1. unfold now_seconds at 1. cbn [fst snd].
    unfold update_locals at 1. cbn [fst snd].
    unfold bind at 1. unfold locals at 1. cbn [fst snd]. unfold ret.
    intros Heq; injection Heq as <- <- <-.
    destruct Hout as (Hdb & Hlen & Hwp & Htot).
    split; [reflexivity|]. split; [exact Hrep|]. split; [exact Hfile|].
    exists url, cu, t, passed, id, new.
    split; [exact Hev|]. split; [exact Hpre|]. split; [exact Hone|]. split; [exact Hwp|].
    cbn [status post_id reason]. repeat split; try assumption. discriminate.
  - unfold except_Exception.
    intros Heq; injection Heq as <- <- <-.
    destruct Hout as (Hdb & Hlen & Hwp & Htot).
    split; [reflexivity|]. split; [exact Hrep|]. split; [exact Hfile|].
    exists url, cu, t, passed, id, new.
    split; [exact Hev|]. split; [exact Hpre|]. split; [exact Hone|]. split; [exact Hwp|].
    repeat split; assumption.
Qed.


Lemma long_truthy (s : string) (n : nat) :
  (Py.len s <? S n)%nat = false -> Py.truthy s = true.
Proof.
  intros Hlen. apply Nat.ltb_ge in Hlen.
  destruct s; [simpl in Hlen; lia|reflexivity].
Qed.

(** An article whose canonical URL and title the deduplicator knows: the
    body of the [try] stops after the duplicate check. *)
Lemma article_steps_duplicate self c ex cu t d start_time w tm :
  extractor_extract (events w) (cand_url c) (cand_source c) = Ret ex ->
  (Py.len (Py.strip (get_str (ex_text ex))) <? 100)%nat = false ->
  ex_canonical_url ex = Some cu ->
  ex_title ex = Some t ->
  (Py.len (Py.strip t) <? 10)%nat = false ->
  Dedupe.check_duplicate (deduplicator self) (article_hashes w) cu t
    (ex_text ex) = Ret d ->
  Dedupe.is_duplicate d = true ->
  exists tm' w',
    article_steps self c start_time (w, tm)
    = (Ret {| status := Skipped;
              reason := Some ("duplicate: "
                              +:+ default "None" (Dedupe.reason d));
              post_id := None; timing := tm' |}, (w', tm'))
    /\ events w'
       = (events w ++ [EvExtract (cand_url c) (cand_source c);
                       EvCheckDuplicate cu t])%list
    /\ article_hashes w' = article_hashes w
    /\ reports w' = reports w
    /\ status_file w' = status_file w.
Proof.
  intros Hex Htext Hcu Ht Htitle Hcheck Hdup.
  article_unfold. world_fields. rewrite Hex. article_unfold.
  rewrite Htext, (long_truthy _ _ Htext), Ht. cbn [negb orb].
  change (get_str (Some t)) with t.
  rewrite Htitle, (long_truthy _ _ Htitle), Hcu. cbn [negb orb].
  article_unfold. world_fields. rewrite Hcheck. article_unfold.
  rewrite Hdup. article_unfold.
  eexists _, _. split; [reflexivity|]. world_fields.
  rewrite <- app_assoc. repeat split.
Qed.

(** X14.  Whatever the collaborators answer, the calls one article causes
    are an initial part of one fixed sequence: extraction, duplicate
    check, rewriting, quality gates, the file of the rewritten article,
    publication, registration, each at most once and with the URL, the
    canonical URL and the title of the same extraction.  The extractor is
    always called; the sequence is complete exactly when the outcome is
    created; without a WordPress client the last two calls are never made;
    the locals of the caller, the status file and the reports are not
    touched. *)
Theorem process_article_calls_in_order {L} (self : NewsPipeline)
    (c : candidate) (w : world) (l : L) o w' l' :
  process_article self c (w, l) = (o, (w', l')) ->
  l' = l
  /\ reports w' = reports w
  /\ status_file w' = status_file w
  /\ exists url cu t passed id new,
       events w' = (events w ++ new)%list
       /\ new `prefix_of` ArticleCalls.in_order c url cu t passed id
       /\ 1 <= length new
       /\ (wp_client self = None -> length new <= 5)
       /\ (new = ArticleCalls.in_order c url cu t passed id
           <-> exists r, o = Ret r /\ status r = Created).
Proof.
  intros Hrun.
  apply process_article_post in Hrun
    as (Hl & Hrep & Hfile & url & cu & t & passed & id & new & Hev & Hpre
        & Hone & Hwp & Hout).
  split; [exact Hl|]. split; [exact Hrep|]. split; [exact Hfile|].
  exists url, cu, t, passed, id, new.
  split; [exact Hev|]. split; [exact Hpre|]. split; [exact Hone|].
  split; [exact Hwp|].
  destruct o as [r|e].
  - destruct (status r) eqn:Hstatus.
    + destruct Hout as (_ & _ & _ & Hlen & _). split.
      * intros Hnew. rewrite Hnew in Hlen. cbn in Hlen. lia.
      * intros (r' & Hr' & Hc). injection Hr' as <-.
        rewrite Hstatus in Hc. discriminate.
    + destruct Hout as (_ & _ & _ & Hnew & _). split.
      * intros _. exists r. split; [reflexivity|exact Hstatus].
      * intros _. exact Hnew.
    + destruct Hout as (_ & _ & _ & Hlen). split.
      * intros Hnew. rewrite Hnew in Hlen. cbn in Hlen. lia.
      * intros (r' & Hr' & Hc). injection Hr' as <-.
        rewrite Hstatus in Hc. discriminate.
  - destruct Hout as (_ & _ & Hlen). split.
    + intros Hnew. rewrite Hnew in Hlen. cbn in Hlen. lia.
    + intros (r' & Hr' & _). discriminate.
Qed.

(** X15.  [process_article] never lets an [Exception] out: it returns an
    outcome or is interrupted.  An outcome is created exactly when it
    carries a post id, which is then not 0, and exactly when it carries no
    reason; a skipped outcome never has a [total] in its timing map, a
    created one always has. *)
Theorem process_article_outcome {L} (self : NewsPipeline) (c : candidate)
    (s s' : world * L) o :
  process_article self c s = (o, s') ->
  match o with
  | Raise e => e = KeyboardInterrupt
  | Ret r =>
      (status r = Created <-> exists id, post_id r = Some id /\ id <> 0%Z)
      /\ (status r = Created <-> reason r = None)
      /\ (status r = Skipped -> timing r !! "total" = None)
      /\ (status r = Created -> is_Some (timing r !! "total"))
  end.
Proof.
  destruct s as [w l], s' as [w' l']. intros Hrun.
  apply process_article_post in Hrun
    as (_ & _ & _ & url & cu & t & passed & id & new & _ & _ & _ & _ & Hout).
  destruct o as [r|e]; [|exact (proj1 Hout)].
  destruct (status r).
  - destruct Hout as (Hp & Hr & _ & _ & Htot).
    split; [split; [discriminate|intros (i & Hi & _); rewrite Hp in Hi; discriminate]|].
    split; [split; [discriminate|intros Hn; contradiction]|].
    split; [intros _; exact Htot|discriminate].
  - destruct Hout as (Hp & Hid & Hr & _ & _ & Htot & _).
    split; [split; [intros _; exists id; split; assumption|reflexivity]|].
    split; [split; [intros _; exact Hr|reflexivity]|].
    split; [discriminate|intros _; rewrite Htot; eexists; reflexivity].
  - destruct Hout as (Hp & Hr & _).
    split; [split; [discriminate|intros (i & Hi & _); rewrite Hp in Hi; discriminate]|].
    split; [split; [discriminate|intros Hn; contradiction]|].
    split; discriminate.
Qed.

(** X16.  The table of the deduplicator changes only when the outcome is
    created.  It is then the table before with the canonical URL and the
    title of the extraction registered under the post id of the outcome,
    and from then on [check_duplicate] answers for this pair, whatever the
    body, with an exact match that points to that post. *)
Theorem table_changes_only_when_created {L} (self : NewsPipeline)
    (c : candidate) (w : world) (l : L) o w' l' :
  process_article self c (w, l) = (o, (w', l')) ->
  match o with
  | Ret r =>
      match status r with
      | Created =>
          exists ex cu t id n,
            extractor_extract (events w) (cand_url c) (cand_source c) = Ret ex
            /\ ex_canonical_url ex = Some cu
            /\ ex_title ex = Some t
            /\ post_id r = Some id
            /\ article_hashes w'
               = snd (Dedupe.register_article (article_hashes w) cu t
                        (ex_text ex) (Some id) (datetime_now_isoformat n))
            /\ forall body,
                 Dedupe.check_duplicate (deduplicator self) (article_hashes w')
                   cu t body
                 = Ret (Dedupe.duplicate_of "exact_hash_match"
                          (Dedupe.fingerprint_id cu t) (Some id) 1%float)
      | _ => article_hashes w' = article_hashes w
      end
  | Raise _ => article_hashes w' = article_hashes w
  end.
Proof.
  intros Hrun.
  apply process_article_post in Hrun
    as (_ & _ & _ & url & cu & t & passed & id & new & _ & _ & _ & _ & Hout).
  destruct o as [r|e]; [|exact (proj1 (proj2 Hout))].
  destruct (status r).
  - exact (proj1 (proj2 (proj2 Hout))).
  - destruct Hout as (Hp & _ & _ & _ & _ & _ & ex & n & Hex & _ & Hcu & Ht
                      & _ & _ & Hdb).
    exists ex, cu, t, id, n. repeat split; try assumption.
    intros body. rewrite Hdb. unfold Dedupe.check_duplicate.
    fold (Dedupe.fingerprint_id cu t).
    destruct (register_article_row (article_hashes w) cu t (ex_text ex)
                (Some id) (datetime_now_isoformat n))
      as (row & Hrow & Hid & _ & Hpost & _).
    rewrite Hrow, <- Hid, select_inserted. cbn [Dedupe.fetchone head].
    rewrite Hpost. reflexivity.
  - exact (proj1 (proj2 (proj2 Hout))).
Qed.

(** X17.  An article that was published is skipped when it comes back.
    If an article ended created, then in any later world whose table is
    the one it left, with any further registrations, a candidate whose
    extraction has the same canonical URL and the same title, and a text
    of at least a hundred characters, ends skipped as a duplicate by exact
    match: the extractor and the duplicate check are the only calls made,
    nothing is rewritten or published, and the table stays as it is. *)
Theorem published_article_skipped_next_time {L} (self : NewsPipeline)
    (c c2 : candidate) (w w' w2 : world) (l l' l2 : L) (r : result)
    (ex ex2 : extracted) (later : list Dedupe.registration) :
  process_article self c (w, l) = (Ret r, (w', l')) ->
  status r = Created ->
  extractor_extract (events w) (cand_url c) (cand_source c) = Ret ex ->
  article_hashes w2 = Dedupe.register_each (article_hashes w') later ->
  extractor_extract (events w2) (cand_url c2) (cand_source c2) = Ret ex2 ->
  ex_canonical_url ex2 = ex_canonical_url ex ->
  ex_title ex2 = ex_title ex ->
  100 <= Py.len (Py.strip (get_str (ex_text ex2))) ->
  exists r2 w2' cu t,
    process_article self c2 (w2, l2) = (Ret r2, (w2', l2))
    /\ status r2 = Skipped
    /\ reason r2 = Some "duplicate: exact_hash_match"
    /\ post_id r2 = None
    /\ ex_canonical_url ex = Some cu
    /\ ex_title ex = Some t
    /\ events w2'
       = (events w2 ++ [EvExtract (cand_url c2) (cand_source c2);
                        EvCheckDuplicate cu t])%list
    /\ article_hashes w2' = article_hashes w2.
Proof.
  intros Hrun Hcreated Hex Hlater Hex2 Hcu2 Ht2 Htext2.
  apply process_article_post in Hrun
    as (_ & _ & _ & url & cu & t & passed & id & new & _ & _ & _ & _ & Hout).
  cbn iota in Hout. rewrite Hcreated in Hout.
  destruct Hout as (_ & _ & _ & _ & _ & _ & ex0 & n & Hex0 & _ & Hcu & Ht
                    & _ & Htitle & Hdb).
  rewrite Hex in Hex0. injection Hex0 as <-.
  rewrite Hcu in Hcu2. rewrite Ht in Ht2.
  destruct (check_duplicate_exact (deduplicator self) (article_hashes w2)
              cu t (ex_text ex2)) as [p Hcheck].
  { rewrite Hlater. apply select_survives_registrations. rewrite Hdb.
    destruct (register_article_row (article_hashes w) cu t (ex_text ex)
                (Some id) (datetime_now_isoformat n))
      as (row & Hrow & Hid & _).
    rewrite Hrow, <- Hid, select_inserted. discriminate. }
  assert (Htext : (Py.len (Py.strip (get_str (ex_text ex2))) <? 100)%nat = false)
    by (apply Nat.ltb_ge; exact Htext2).
  destruct (article_steps_duplicate self c2 ex2 cu t _
              (time_time (clock_reads w2)) (tick w2) ∅
              Hex2 Htext Hcu2 Ht2 Htitle Hcheck eq_refl)
    as (tm' & w2' & Hsteps & Hev & Hdb2 & _).
  eexists _, w2', cu, t. split.
  - unfold process_article, with_frame. cbn [fst snd].
    unfold bind at 1. unfold now_seconds at 1. cbn [fst snd].
    unfold try_except. rewrite Hsteps. reflexivity.
  - repeat split; try assumption.
Qed.

End ArticleProperties.

(** The budget page, published with post id 42. *)
Lemma process_article_calls_in_order_witness :
  exists new,
    Pipeline.events PipelineRuns.world_after_first_pass = new
    /\ 1 <= length new.
Proof.
  destruct (@process_article_calls_in_order PipelineDemo.collaborators unit
              PipelineDemo.publishing_pipeline PipelineDemo.budget_candidate
              PipelineDemo.empty_world tt
              (fst PipelineRuns.first_pass)
              PipelineRuns.world_after_first_pass
              (snd (snd PipelineRuns.first_pass)))
    as (_ & _ & _ & url & cu & t & passed & id & new & Hev & _ & Hone & _).
  - vm_compute. reflexivity.
  - exists new. split; [exact Hev|exact Hone].
Defined.

Lemma process_article_outcome_witness :
  match fst PipelineRuns.first_pass with
  | Raise e => e = KeyboardInterrupt
  | Ret r =>
      (Pipeline.status r = Pipeline.Created
       <-> exists id, Pipeline.post_id r = Some id /\ id <> 0%Z)
      /\ (Pipeline.status r = Pipeline.Created <-> Pipeline.reason r = None)
      /\ (Pipeline.status r = Pipeline.Skipped
          -> Pipeline.timing r !! "total" = None)
      /\ (Pipeline.status r = Pipeline.Created
          -> is_Some (Pipeline.timing r !! "total"))
  end.
Proof.
  apply (@process_article_outcome PipelineDemo.collaborators unit
           PipelineDemo.publishing_pipeline PipelineDemo.budget_candidate
           (PipelineDemo.empty_world, tt) (snd PipelineRuns.first_pass)).
  vm_compute. reflexivity.
Defined.


Lemma table_changes_only_when_created_witness :
  match fst PipelineRuns.first_pass with
  | Ret r =>
      match Pipeline.status r with
      | Pipeline.Created =>
          exists ex cu t id (n : nat),
            PipelineDemo.page PipelineDemo.budget_url = Ret ex
            /\ ex_canonical_url ex = Some cu
            /\ ex_title ex = Some t
            /\ Pipeline.post_id r = Some id
            /\ Pipeline.article_hashes PipelineRuns.world_after_first_pass
               = snd (@Dedupe.register_article Dedupe.hash_only_libs [] cu t
                        (ex_text ex) (Some id)
                        ("2024-05-01T10:00:" +:+ pretty n))
            /\ forall body,
                 @Dedupe.check_duplicate Dedupe.hash_only_libs
                   Dedupe.default_deduplicator
                   (Pipeline.article_hashes PipelineRuns.world_after_first_pass)
                   cu t body
                 = Ret (Dedupe.duplicate_of "exact_hash_match"
                          (@Dedupe.fingerprint_id Dedupe.hash_only_libs cu t)
                          (Some id) 1%float)
      | _ => Pipeline.article_hashes PipelineRuns.world_after_first_pass = []
      end
  | Raise _ => Pipeline.article_hashes PipelineRuns.world_after_first_pass = []
  end.
Proof.
  apply (@table_changes_only_when_created PipelineDemo.collaborators unit
           PipelineDemo.publishing_pipeline PipelineDemo.budget_candidate
           PipelineDemo.empty_world tt
           (fst PipelineRuns.first_pass)
           PipelineRuns.world_after_first_pass
           (snd (snd PipelineRuns.first_pass))).
  vm_compute. reflexivity.
Defined.

(** The budget page offered a second time. *)
Lemma published_article_skipped_next_time_witness :
  exists r2 w2',
    @Pipeline.process_article PipelineDemo.collaborators unit
      PipelineDemo.publishing_pipeline PipelineDemo.budget_candidate
      (PipelineRuns.world_after_first_pass, tt) = (Ret r2, (w2', tt))
    /\ Pipeline.status r2 = Pipeline.Skipped
    /\ Pipeline.reason r2 = Some "duplicate: exact_hash_match".
Proof.
  edestruct (@published_article_skipped_next_time PipelineDemo.collaborators
               unit PipelineDemo.publishing_pipeline
               PipelineDemo.budget_candidate PipelineDemo.budget_candidate
               PipelineDemo.empty_world PipelineRuns.world_after_first_pass
               PipelineRuns.world_after_first_pass tt tt tt)
    as (r2 & w2' & cu & t & Hrun & Hstatus & Hreason & _).
  - vm_compute. reflexivity.
  - reflexivity.
  - reflexivity.
  - instantiate (1 := []). vm_compute. reflexivity.
  - reflexivity.
  - reflexivity.
  - reflexivity.
  - vm_compute. lia.
  - exists r2, w2'. repeat split; assumption.
Defined.

(** ** The counters of a run *)

Section RunCounters.
Context `{Pipeline.Collaborators}.
Import Pipeline.

Lemma count_app p (l1 l2 : list event) :
  ArticleCalls.count p (l1 ++ l2)%list
  = ArticleCalls.count p l1 + ArticleCalls.count p l2.
Proof. unfold ArticleCalls.count. rewrite List.filter_app, length_app. reflexivity. Qed.

(** The calls of one article hold no entry of the audit trail and no
    pause, and a registration only as the seventh. *)
Lemma in_order_counts c url cu t passed id (new : list event) :
  new `prefix_of` ArticleCalls.in_order c url cu t passed id ->
  ArticleCalls.count ArticleCalls.is_log_operation new = 0
  /\ ArticleCalls.count ArticleCalls.is_sleep new = 0
  /\ (length new <= 6 ->
      ArticleCalls.count ArticleCalls.is_register_article new = 0).
Proof.
  intros [k Hk]. unfold ArticleCalls.in_order in Hk.
  do 7 (destruct new as [|? new];
        [cbn; repeat split; reflexivity|cbn in Hk; injection Hk as <- Hk]).
  destruct new; [|discriminate Hk].
  cbn. repeat split; try reflexivity. intros Hlen; lia.
Qed.


Lemma count_cons p e (l : list event) :
  ArticleCalls.count p (e :: l)
  = (if p e then 1 else 0) + ArticleCalls.count p l.
Proof. unfold ArticleCalls.count. cbn. destruct (p e); reflexivity. Qed.

(** The loop over the candidates, from any statistics: what it adds to
    the counters, and the calls that go with it. *)
Lemma process_candidates_post self n todo : forall i w st o w' st',
  i + length todo = S n ->
  process_candidates self n i todo (w, st) = (o, (w', st')) ->
  reports w' = reports w
  /\ Stats.total_candidates st' = Stats.total_candidates st
  /\ Stats.run_id st' = Stats.run_id st
  /\ Stats.started_at st' = Stats.started_at st
  /\ exists new kc ks kf,
       events w' = (events w ++ new)%list
       /\ Stats.created st' = Stats.created st + kc
       /\ Stats.skipped st' = Stats.skipped st + ks
       /\ Stats.failed st' = Stats.failed st + kf
       /\ Stats.processed st' = Stats.processed st + (kc + ks + kf)
       /\ kc + ks + kf <= length todo
       /\ (o = Ret tt -> kc + ks + kf = length todo)
       /\ ArticleCalls.count ArticleCalls.is_log_operation new = kc + ks + kf
       /\ ArticleCalls.count ArticleCalls.is_register_article new = kc
       /\ ArticleCalls.count ArticleCalls.is_sleep new
          = Nat.min (kc + ks + kf) (length todo - 1).
Proof.
  induction todo as [|c rest IH]; intros i w st o w' st' Hi.
  - rewrite process_candidates_nil. intros Heq; injection Heq as <- <- <-.
    repeat (split; [reflexivity|]).
    exists [], 0, 0, 0. rewrite app_nil_r. cbn. repeat split; lia.
  - rewrite process_candidates_cons. cbv zeta.
    set (st1 := Stats.set_current_article _ st).
    set (w1 := record_event (EvSaveStatus st1) (set_status_file st1 w)).
    destruct (process_article self c (w1, st1)) as [[r|e] [w2 l2]] eqn:Hart;
      apply process_article_post in Hart
        as (Hl & Hrep & _ & url & cu & t & passed & id & new & Hev & Hpre & _
            & _ & Hout);
      destruct (in_order_counts _ _ _ _ _ _ _ Hpre) as (Hlog & Hsleep & Hreg).
    + (* the article returned *)
      set (st2 := count_result r (Stats.incr_processed st1)).
      set (w3 := record_event _ w2).
      assert (Hkind : exists kc ks kf,
                 kc + ks + kf = 1
                 /\ Stats.created st2 = Stats.created st + kc
                 /\ Stats.skipped st2 = Stats.skipped st + ks
                 /\ Stats.failed st2 = Stats.failed st + kf
                 /\ Stats.processed st2 = Stats.processed st + 1
                 /\ Stats.total_candidates st2 = Stats.total_candidates st
                 /\ Stats.run_id st2 = Stats.run_id st
                 /\ Stats.started_at st2 = Stats.started_at st
                 /\ ArticleCalls.count ArticleCalls.is_register_article new = kc).
      { subst st2. unfold count_result.
        destruct (status r).
        - exists 0, 1, 0. cbn. repeat split; try lia.
          all: apply Hreg; destruct Hout as (_ & _ & _ & Hlen & _); lia.
        - exists 1, 0, 0. cbn. repeat split; try lia.
          all: destruct Hout as (_ & _ & _ & Hnew & _); rewrite Hnew; reflexivity.
        - exists 0, 0, 1. cbn. repeat split; try lia.
          all: apply Hreg; destruct Hout as (_ & _ & _ & Hlen); lia. }
      destruct Hkind as (kc & ks & kf & Hone & Hc & Hs & Hf & Hp & Htot & Hid
                         & Hstart & Hregs).
      assert (Hev3 : events w3
                     = (events w
                        ++ EvSaveStatus st1
                           :: new ++ [EvLogOperation (cand_url c) (status r)
                                        (reason r) (timing r) (post_id r)])%list).
      { subst w3 w1. cbn. cbn in Hev. rewrite Hev.
        rewrite <- !app_assoc. reflexivity. }
      assert (Hrep3 : reports w3 = reports w) by (subst w3; cbn; rewrite Hrep; reflexivity).
      clearbody st2 w3. clear Hout.
      cbn [length] in Hi |- *.
      destruct (i <? n)%nat eqn:Hin.
      * apply Nat.ltb_lt in Hin.
        destruct (time_sleep (events w3) 2) as [[]|e] eqn:Hpause.
        -- intros Hrest.
           apply IH in Hrest as (Hrep' & Htot' & Hid' & Hstart' & new' & kc' & ks'
                                 & kf' & Hev' & Hc' & Hs' & Hf' & Hp' & Hle & Hall
                                 & Hlog' & Hreg' & Hsleep'); [|lia].
           split; [cbn in Hrep'; rewrite Hrep'; exact Hrep3|].
           split; [rewrite Htot'; exact Htot|].
           split; [rewrite Hid'; exact Hid|].
           split; [rewrite Hstart'; exact Hstart|].
           exists (EvSaveStatus st1
                   :: new ++ [EvLogOperation (cand_url c) (status r) (reason r)
                                (timing r) (post_id r)]
                      ++ EvSleep 2 :: new')%list,
             (kc + kc'), (ks + ks'), (kf + kf').
           split.
           { rewrite Hev'. cbn. rewrite Hev3. rewrite <- !app_assoc. cbn.
             rewrite <- !app_assoc. reflexivity. }
           rewrite count_cons, !count_app, count_cons, count_cons.
           rewrite count_cons, !count_app, count_cons, count_cons.
           rewrite count_cons, !count_app, count_cons, count_cons.
           rewrite Hlog, Hsleep, Hregs, Hlog', Hreg', Hsleep'.
           cbn [ArticleCalls.is_log_operation ArticleCalls.is_sleep
                ArticleCalls.is_register_article ArticleCalls.count
                List.filter length].
           repeat split; try lia.
           intros Ho. specialize (Hall Ho). lia.
        -- intros Heq; injection Heq as <- <- <-.
           split; [exact Hrep3|].
           split; [exact Htot|]. split; [exact Hid|]. split; [exact Hstart|].
           exists (EvSaveStatus st1
                   :: new ++ [EvLogOperation (cand_url c) (status r) (reason r)
                                (timing r) (post_id r); EvSleep 2])%list,
             kc, ks, kf.
           split.
           { cbn. rewrite Hev3. rewrite <- !app_assoc. cbn.
             rewrite <- !app_assoc. reflexivity. }
           rewrite count_cons, !count_app, count_cons, count_cons.
           rewrite count_cons, !count_app, count_cons, count_cons.
           rewrite count_cons, !count_app, count_cons, count_cons.
           rewrite Hlog, Hsleep, Hregs.
           cbn [ArticleCalls.is_log_operation ArticleCalls.is_sleep
                ArticleCalls.is_register_article ArticleCalls.count
                List.filter length].
           repeat split; try lia. discriminate.
      * apply Nat.ltb_ge in Hin.
        assert (Hnil : rest = []) by (destruct rest; [reflexivity|cbn in Hi; lia]).
        subst rest. rewrite process_candidates_nil.
        intros Heq; injection Heq as <- <- <-.
        split; [exact Hrep3|].
        split; [exact Htot|]. split; [exact Hid|]. split; [exact Hstart|].
        exists (EvSaveStatus st1
                :: new ++ [EvLogOperation (cand_url c) (status r) (reason r)
                             (timing r) (post_id r)])%list,
          kc, ks, kf.
        split; [exact Hev3|].
        rewrite count_cons, !count_app, count_cons.
        rewrite count_cons, !count_app, count_cons.
        rewrite count_cons, !count_app, count_cons.
        rewrite Hlog, Hsleep, Hregs.
        cbn [ArticleCalls.is_log_operation ArticleCalls.is_sleep
             ArticleCalls.is_register_article ArticleCalls.count
             List.filter length].
        repeat split; lia.
    + (* the article was interrupted *)
      intros Heq; injection Heq as <- <- <-. subst l2.
      destruct Hout as (_ & _ & Hlen).
      split; [rewrite Hrep; reflexivity|].
      repeat (split; [reflexivity|]).
      exists (EvSaveStatus st1 :: new)%list, 0, 0, 0.
      split.
      { rewrite Hev. subst w1. cbn. rewrite <- !app_assoc. reflexivity. }
      specialize (Hreg Hlen).
      rewrite !count_cons. rewrite Hlog, Hsleep, Hreg.
      cbn [ArticleCalls.is_log_operation ArticleCalls.is_sleep
           ArticleCalls.is_register_article].
      subst st1. cbn. repeat split; try lia. discriminate.
Qed.


(** The body of the [try] of [run], from statistics whose counters are
    still zero. *)
Lemma fetch_and_process_post self limit w st o w' st' :
  Stats.processed st = 0 -> Stats.created st = 0 ->
  Stats.skipped st = 0 -> Stats.failed st = 0 ->
  Stats.total_candidates st = 0 ->
  fetch_and_process self limit (w, st) = (o, (w', st')) ->
  reports w' = reports w
  /\ Stats.run_id st' = Stats.run_id st
  /\ Stats.started_at st' = Stats.started_at st
  /\ (forall e, fetcher_fetch_all (events w) limit = Raise e ->
                o = Raise e /\ st' = st /\ w' = record_event (EvFetchAll limit) w)
  /\ (forall candidates, fetcher_fetch_all (events w) limit = Ret candidates ->
                         Stats.total_candidates st' = length candidates)
  /\ exists new,
       events w' = (events w ++ new)%list
       /\ Stats.processed st'
          = Stats.created st' + Stats.skipped st' + Stats.failed st'
       /\ Stats.processed st' <= Stats.total_candidates st'
       /\ (o = Ret tt -> Stats.processed st' = Stats.total_candidates st')
       /\ ArticleCalls.count ArticleCalls.is_log_operation new
          = Stats.processed st'
       /\ ArticleCalls.count ArticleCalls.is_register_article new
          = Stats.created st'
       /\ ArticleCalls.count ArticleCalls.is_sleep new
          = Nat.min (Stats.processed st') (Stats.total_candidates st' - 1).
Proof.
  intros Hp Hc Hs Hf Ht.
  destruct (fetcher_fetch_all (events w) limit) as [candidates|e] eqn:Hfetch.
  - rewrite (fetch_and_process_fetched self limit candidates w st Hfetch).
    cbv zeta. intros Hloop.
    apply process_candidates_post in Hloop
      as (Hrep & Htot & Hid & Hstart & new & kc & ks & kf & Hev & Hc' & Hs'
          & Hf' & Hp' & Hle & Hall & Hlog & Hreg & Hsleep); [|lia].
    cbn in Hrep, Htot, Hid, Hstart, Hc', Hs', Hf', Hp', Hev.
    split; [exact Hrep|]. split; [exact Hid|]. split; [exact Hstart|].
    split; [intros e He; discriminate He|].
    split; [intros cs Hcs; injection Hcs as <-; exact Htot|].
    eexists. split.
    { rewrite Hev. rewrite <- !app_assoc. reflexivity. }
    rewrite !count_app, !count_cons, Hlog, Hreg, Hsleep.
    cbn [ArticleCalls.is_log_operation ArticleCalls.is_sleep
         ArticleCalls.is_register_article ArticleCalls.count List.filter length].
    rewrite Htot, Hp', Hc', Hs', Hf', Hp, Hc, Hs, Hf.
    repeat split; try lia. intros Ho. specialize (Hall Ho). lia.
  - unfold fetch_and_process.
    unfold bind at 1. unfold call at 1. cbn [fst snd]. rewrite Hfetch.
    intros Heq; injection Heq as <- <- <-.
    split; [reflexivity|]. split; [reflexivity|]. split; [reflexivity|].
    split; [intros e' He'; injection He' as <-; repeat split|].
    split; [intros cs Hcs; discriminate Hcs|].
    exists [EvFetchAll limit]. cbn.
    rewrite Hp, Hc, Hs, Hf, Ht. repeat split; lia.
Qed.



End RunCounters.


(** ** The URL table of the fetcher *)

Section UrlTable.
Context `{Fetch.Libs}.
Import Fetch.

Lemma filter_mark_other db url (b : bool) now h :
  h ≠ sha256_hexdigest url ->
  (forall r, r ∈ db -> url_hash r = h -> sha256_hexdigest (row_url r) = h) ->
  filter (fun r => url_hash r = h) (_mark_url_seen db url b now)
  = filter (fun r => url_hash r = h) db.
Proof.
  intros Hne Hrows. unfold _mark_url_seen.
  rewrite filter_app, filter_cons_False, filter_nil, app_nil_r
    by (cbn; intros Heq; apply Hne; symmetry; exact Heq).
  induction db as [|r db IH]; [reflexivity|].
  assert (Hrest : forall r', r' ∈ db -> url_hash r' = h ->
                             sha256_hexdigest (row_url r') = h)
    by (intros r' Hin; apply Hrows; right; exact Hin).
  destruct (decide (url_hash r = h)) as [Hr|Hr].
  - rewrite (filter_cons_True (fun r => url_hash r = h) r) by exact Hr.
    rewrite (filter_cons_True (fun r => url_hash r ≠ _ /\ row_url r ≠ url)).
    + rewrite filter_cons_True by exact Hr. rewrite IH by exact Hrest.
      reflexivity.
    + split.
      * rewrite Hr. exact Hne.
      * intros Hu. apply Hne. rewrite <- Hu. symmetry.
        apply Hrows; [left|exact Hr].
  - rewrite (filter_cons_False (fun r => url_hash r = h) r) by exact Hr.
    destruct (decide (url_hash r ≠ sha256_hexdigest url /\ row_url r ≠ url)).
    + rewrite (filter_cons_True (fun r => _ /\ _)) by assumption.
      rewrite filter_cons_False by exact Hr. apply IH, Hrest.
    + rewrite (filter_cons_False (fun r => _ /\ _)) by assumption.
      apply IH, Hrest.
Qed.

Lemma filter_mark_same db url (b : bool) now :
  filter (fun r => url_hash r = sha256_hexdigest url)
    (_mark_url_seen db url b now)
  = [{| url_hash := sha256_hexdigest url; row_url := url;
        first_seen_at :=
          match head (filter (fun r => url_hash r = sha256_hexdigest url) db) with
          | Some r => first_seen_at r
          | None => now
          end;
        last_seen_at := now;
        processed := if b then 1%Z else 0%Z |}].
Proof.
  unfold _mark_url_seen.
  rewrite filter_app, filter_cons_True, filter_nil by reflexivity.
  match goal with |- (?l ++ _)%list = _ => assert (Hnil : l = []) end.
  { induction db as [|r db IH]; [reflexivity|].
    destruct (decide (url_hash r ≠ sha256_hexdigest url /\ row_url r ≠ url))
      as [Hk|Hk].
    - rewrite (filter_cons_True (fun r => _ /\ _)) by exact Hk.
      rewrite filter_cons_False by exact (proj1 Hk). exact IH.
    - rewrite (filter_cons_False (fun r => _ /\ _)) by exact Hk. exact IH. }
  rewrite Hnil. reflexivity.
Qed.

(** Every row of a table the fetcher has built is filed under the hash of
    its own URL, and carries the flag 0. *)
Lemma mark_each_rows seen : forall db,
  (forall r, r ∈ db -> url_hash r = sha256_hexdigest (row_url r)
                       /\ processed r = 0%Z) ->
  forall r, r ∈ mark_each db seen ->
            url_hash r = sha256_hexdigest (row_url r) /\ processed r = 0%Z.
Proof.
  induction seen as [|[url now] seen IH]; intros db Hdb; [exact Hdb|].
  cbn. apply IH. intros r Hin. unfold _mark_url_seen in Hin.
  apply elem_of_app in Hin as [Hin|Hin].
  - apply list_elem_of_filter in Hin as [_ Hin]. apply Hdb, Hin.
  - apply list_elem_of_singleton in Hin. subst r. split; reflexivity.
Qed.

(** X20.  The flag [processed] works as a flag: right after
    [_mark_url_seen], [_is_url_processed] answers for that URL with the
    flag that was passed.  But the fetcher only ever passes [False]: on
    a table built by its own calls, from the empty one, no URL is ever
    reported as processed, so the filter of [fetch_rss_feeds] on
    processed URLs lets every URL through. *)
Theorem url_never_reported_processed :
  (forall db url (b : bool) now,
     _is_url_processed (_mark_url_seen db url b now) url = b)
  /\ (forall seen url, _is_url_processed (mark_each [] seen) url = false).
Proof.
  split.
  - intros db url b now. unfold _is_url_processed.
    rewrite filter_mark_same. cbn. destruct b; reflexivity.
  - intros seen url. unfold _is_url_processed.
    destruct (head _) as [r|] eqn:Hhead; [|reflexivity].
    apply head_Some_elem_of, list_elem_of_filter in Hhead as [_ Hin].
    apply (mark_each_rows seen []) in Hin as [_ Hflag].
    + rewrite Hflag. reflexivity.
    + intros r' Hr'. inversion Hr'.
Qed.

(** X21.  A URL has one row, and the row remembers when the URL was first
    seen: once a URL is marked, then after any further marks made by the
    fetcher, of this URL or of others, its hash selects exactly one row,
    whose [first_seen_at] is still the one the first mark wrote (the time
    of that mark, or what the table held before it). *)
Theorem first_seen_is_kept (db : list url_row) (url : string) (now : string)
    (later : list (string * string)) :
  (forall r, r ∈ db -> url_hash r = sha256_hexdigest (row_url r)) ->
  exists r,
    filter (fun r => url_hash r = sha256_hexdigest url)
      (mark_each (_mark_url_seen db url false now) later) = [r]
    /\ first_seen_at r
       = match head (filter (fun r => url_hash r = sha256_hexdigest url) db) with
         | Some r0 => first_seen_at r0
         | None => now
         end
    /\ (later = [] -> last_seen_at r = now).
Proof.
  intros Hdb.
  set (first := match head _ with Some r0 => first_seen_at r0 | None => now end).
  assert (Hstart :
            (forall r, r ∈ _mark_url_seen db url false now ->
                       url_hash r = sha256_hexdigest (row_url r))
            /\ exists r,
                 filter (fun r => url_hash r = sha256_hexdigest url)
                   (_mark_url_seen db url false now) = [r]
                 /\ first_seen_at r = first
                 /\ last_seen_at r = now).
  { split.
    - intros r Hin. unfold _mark_url_seen in Hin.
      apply elem_of_app in Hin as [Hin|Hin].
      + apply list_elem_of_filter in Hin as [_ Hin]. apply Hdb, Hin.
      + apply list_elem_of_singleton in Hin. subst r. reflexivity.
    - rewrite filter_mark_same. eexists. repeat split. }
  destruct later as [|m later].
  { destruct Hstart as (_ & r & Hr & Hfirst & Hlast).
    exists r. split; [exact Hr|]. split; [exact Hfirst|intros _; exact Hlast]. }
  cut (exists r,
         filter (fun r => url_hash r = sha256_hexdigest url)
           (mark_each (_mark_url_seen db url false now) (m :: later)) = [r]
         /\ first_seen_at r = first).
  { intros (r & Hr & Hfirst). exists r.
    split; [exact Hr|]. split; [exact Hfirst|discriminate]. }
  destruct Hstart as (Hrows & r & Hr & Hfirst & _).
  assert (Hkept : exists r,
             filter (fun r => url_hash r = sha256_hexdigest url)
               (_mark_url_seen db url false now) = [r]
             /\ first_seen_at r = first)
    by (exists r; split; assumption).
  clear r Hr Hfirst. revert Hrows Hkept.
  generalize (_mark_url_seen db url false now) as db1.
  generalize (m :: later) as marks. generalize first as t0. clear.
  intros t0 marks.
  induction marks as [|[url' now'] marks IH]; intros db1 Hrows Hkept.
  - exact Hkept.
  - cbn. apply IH.
    + intros r' Hin. unfold _mark_url_seen in Hin.
      apply elem_of_app in Hin as [Hin|Hin].
      * apply list_elem_of_filter in Hin as [_ Hin]. apply Hrows, Hin.
      * apply list_elem_of_singleton in Hin. subst r'. reflexivity.
    + destruct Hkept as (r & Hr & Hfirst).
      destruct (decide (sha256_hexdigest url = sha256_hexdigest url'))
        as [Heq|Hne].
      * rewrite Heq, filter_mark_same. rewrite <- Heq, Hr. cbn.
        eexists. split; [reflexivity|exact Hfirst].
      * exists r. split; [|exact Hfirst].
        rewrite filter_mark_other; [exact Hr|exact Hne|].
        intros r' Hin Hh. rewrite <- Hh. symmetry. apply Hrows, Hin.
Qed.

End UrlTable.

(** A page seen at ten, another at eleven, the first again at twelve. *)
Lemma first_seen_is_kept_witness :
  exists r,
    filter (fun r => Fetch.url_hash r = Sha256.hexdigest "https://example.org/council")
      (@Fetch.mark_each FetchDemo.libs
         (@Fetch._mark_url_seen FetchDemo.libs [] "https://example.org/council"
            false "2024-05-01T10:00:00")
         [("https://example.org/bridge", "2024-05-01T11:00:00");
          ("https://example.org/council", "2024-05-01T12:00:00")]) = [r]
    /\ Fetch.first_seen_at r = "2024-05-01T10:00:00".
Proof.
  destruct (@first_seen_is_kept FetchDemo.libs [] "https://example.org/council"
              "2024-05-01T10:00:00"
              [("https://example.org/bridge", "2024-05-01T11:00:00");
               ("https://example.org/council", "2024-05-01T12:00:00")])
    as (r & Hr & Hfirst & _).
  - intros r Hin. inversion Hin.
  - exists r. split; [exact Hr|exact Hfirst].
Defined.

(** ** The selection of [fetch_all] *)

Section FetchAll.
Context `{Fetch.Libs}.
Import Fetch.

(** The order of Python on strings is transitive. *)
Lemma string_compare_trans (a : string) : forall b c,
  String.compare a b <> Lt -> String.compare b c <> Lt ->
  String.compare a c <> Lt.
Proof.
  induction a as [|x a IH]; intros [|y b] [|z c]; cbn; try congruence.
  unfold Ascii.compare.
  destruct (N.compare_spec (N_of_ascii x) (N_of_ascii y)) as [Hxy|Hxy|Hxy];
    destruct (N.compare_spec (N_of_ascii y) (N_of_ascii z)) as [Hyz|Hyz|Hyz];
    destruct (N.compare_spec (N_of_ascii x) (N_of_ascii z)) as [Hxz|Hxz|Hxz];
    try congruence; try lia.
  apply IH.
Qed.

Lemma not_before_trans (a b c : string) :
  String.ltb a b = false -> String.ltb b c = false -> String.ltb a c = false.
Proof.
  unfold String.ltb. intros Hab Hbc.
  pose proof (string_compare_trans a b c) as Htrans.
  destruct (String.compare a b), (String.compare b c), (String.compare a c);
    try reflexivity; try discriminate;
    exfalso; apply Htrans; first [discriminate|reflexivity].
Qed.


Lemma before_not_after (a b : string) :
  String.ltb a b = true -> String.ltb b a = false.
Proof.
  unfold String.ltb. rewrite (String.compare_antisym b a).
  destruct (String.compare a b); cbn; congruence.
Qed.

(** *** The stable sort *)

Lemma insert_by_date_perm x l : insert_by_date x l ≡ₚ x :: l.
Proof.
  induction l as [|y l IH]; [reflexivity|]. cbn.
  destruct (String.ltb (date_key x) (date_key y)); [|reflexivity].
  rewrite IH. apply Permutation_swap.
Qed.

Lemma sort_by_date_perm l : sort_by_date l ≡ₚ l.
Proof.
  induction l as [|x l IH]; [reflexivity|]. cbn.
  rewrite insert_by_date_perm, IH. reflexivity.
Qed.

Lemma insert_by_date_sorted x l :
  newest_first l -> newest_first (insert_by_date x l).
Proof.
  induction l as [|y l IH]; intros Hl; [cbn; split; [constructor|exact I]|].
  destruct Hl as [Hy Hl]. cbn.
  destruct (String.ltb (date_key x) (date_key y)) eqn:Hxy.
  - cbn. split; [|exact (IH Hl)].
    rewrite insert_by_date_perm. constructor; [|exact Hy].
    apply before_not_after, Hxy.
  - cbn. split; [|split; assumption].
    constructor; [exact Hxy|].
    eapply Forall_impl; [exact Hy|]. cbn. intros z Hz.
    exact (not_before_trans _ _ _ Hxy Hz).
Qed.

Lemma sort_by_date_sorted l : newest_first (sort_by_date l).
Proof.
  induction l as [|x l IH]; [exact I|]. cbn.
  apply insert_by_date_sorted, IH.
Qed.

Lemma Forall_of_sublist {A} (P : A -> Prop) (l1 l2 : list A) :
  sublist l1 l2 -> Forall P l2 -> Forall P l1.
Proof.
  induction 1 as [|x l1 l2 Hsub IH|x l1 l2 Hsub IH]; intros Hall.
  - constructor.
  - apply Forall_cons in Hall as [Hx Hl]. constructor; [exact Hx|exact (IH Hl)].
  - apply Forall_cons in Hall as [_ Hl]. exact (IH Hl).
Qed.

Lemma newest_first_sublist l1 l2 :
  sublist l1 l2 -> newest_first l2 -> newest_first l1.
Proof.
  induction 1 as [|x l1 l2 Hsub IH|x l1 l2 Hsub IH]; cbn.
  - intros _. exact I.
  - intros [Hx Hl]. split; [|exact (IH Hl)].
    eapply Forall_of_sublist; eassumption.
  - intros [_ Hl]. exact (IH Hl).
Qed.

(** *** The last loop *)

Lemma drop_old_spec l r :
  drop_old l = Ret r ->
  r = List.filter (fun c => negb (reported_old c)) l.
Proof.
  revert r. induction l as [|c l IH]; intros r; cbn.
  - intros [= <-]. reflexivity.
  - unfold reported_old.
    destruct (published_at c) as [p|]; [destruct (Py.truthy p)|]; cbn.
    + destruct (older_than_two_days p) as [[[]|]|e]; cbn;
        destruct (drop_old l) as [r'|e'] eqn:Hrest; cbn;
        try discriminate; intros [= <-]; rewrite (IH r' eq_refl); reflexivity.
    + destruct (drop_old l) as [r'|e'] eqn:Hrest; cbn;
        try discriminate; intros [= <-]; rewrite (IH r' eq_refl); reflexivity.
    + destruct (drop_old l) as [r'|e'] eqn:Hrest; cbn;
        try discriminate; intros [= <-]; rewrite (IH r' eq_refl); reflexivity.
Qed.

Lemma drop_old_returns l :
  Forall (fun c => forall p, published_at c = Some p -> Py.truthy p = true ->
                             exists v, older_than_two_days p = Ret v) l ->
  exists r, drop_old l = Ret r.
Proof.
  induction 1 as [|c l Hc Hl [r IH]]; cbn; [eexists; reflexivity|].
  rewrite IH.
  destruct (published_at c) as [p|]; [destruct (Py.truthy p) eqn:Hp|]; cbn.
  - destruct (Hc p eq_refl Hp) as [v ->]. cbn.
    destruct v as [[]|]; eexists; reflexivity.
  - eexists; reflexivity.
  - eexists; reflexivity.
Qed.

Lemma filter_sublist {A} (p : A -> bool) (l : list A) :
  sublist (List.filter p l) l.
Proof.
  induction l as [|x l IH]; cbn; [constructor|].
  destruct (p x); [apply sublist_skip|apply sublist_cons]; exact IH.
Qed.


(** *** The dictionary of groups *)

Lemma lookup_set_same s l l0 bs :
  lookup_source s bs = Some l0 -> lookup_source s (set_source s l bs) = Some l.
Proof.
  induction bs as [|[s' l'] bs IH]; cbn; [discriminate|].
  destruct (String.eqb s' s) eqn:Hs; cbn; rewrite Hs; [reflexivity|exact IH].
Qed.

Lemma lookup_set_other s s' l bs :
  s' <> s -> lookup_source s' (set_source s l bs) = lookup_source s' bs.
Proof.
  intros Hne. induction bs as [|[s0 l0] bs IH]; cbn; [reflexivity|].
  destruct (String.eqb s0 s) eqn:Hs; cbn.
  - apply String.eqb_eq in Hs. subst s0.
    destruct (String.eqb s s') eqn:Hs'; [|reflexivity].
    apply String.eqb_eq in Hs'. congruence.
  - destruct (String.eqb s0 s'); [reflexivity|exact IH].
Qed.

Lemma set_source_perm s first rest bs :
  lookup_source s bs = Some (first :: rest) ->
  concat (map snd bs) ≡ₚ first :: concat (map snd (set_source s rest bs)).
Proof.
  induction bs as [|[s' l'] bs IH]; cbn; [discriminate|].
  destruct (String.eqb s' s); cbn.
  - intros [= ->]. reflexivity.
  - intros Hl. rewrite (IH Hl). symmetry. apply Permutation_middle.
Qed.

Lemma set_source_keys s l bs : map fst (set_source s l bs) = map fst bs.
Proof.
  induction bs as [|[s' l'] bs IH]; cbn; [reflexivity|].
  destruct (String.eqb s' s); cbn; [reflexivity|rewrite IH; reflexivity].
Qed.

Lemma lookup_source_keys s bs :
  s ∈ map fst bs <-> exists l, lookup_source s bs = Some l.
Proof.
  induction bs as [|[s' l'] bs IH]; cbn.
  - split; [intros Hin; inversion Hin|intros [l Hl]; discriminate].
  - destruct (String.eqb s' s) eqn:Hs.
    + apply String.eqb_eq in Hs. subst s'.
      split; [intros _; eexists; reflexivity|intros _; left].
    + apply String.eqb_neq in Hs. rewrite <- IH. split.
      * intros Hin. apply elem_of_cons in Hin as [Heq|Hin];
          [congruence|exact Hin].
      * intros Hin. right. exact Hin.
Qed.

Lemma remove_first_elem s sl x :
  NoDup sl -> x ∈ remove_first s sl <-> x ∈ sl /\ x <> s.
Proof.
  induction sl as [|y sl IH]; cbn; intros Hnd.
  - split; [intros Hin; inversion Hin|intros [Hin _]; inversion Hin].
  - apply NoDup_cons in Hnd as [Hy Hnd].
    destruct (String.eqb y s) eqn:Hs.
    + apply String.eqb_eq in Hs. subst y. split.
      * intros Hin. split; [right; exact Hin|]. intros ->. contradiction.
      * intros [Hin Hne]. apply elem_of_cons in Hin as [Heq|Hin];
          [contradiction|exact Hin].
    + apply String.eqb_neq in Hs. rewrite elem_of_cons, (IH Hnd), elem_of_cons.
      split.
      * intros [->|[Hin Hne]]; [split; [left; reflexivity|exact Hs]|].
        split; [right; exact Hin|exact Hne].
      * intros [[->|Hin] Hne]; [left; reflexivity|right; split; assumption].
Qed.

Lemma remove_first_nodup s sl : NoDup sl -> NoDup (remove_first s sl).
Proof.
  induction sl as [|y sl IH]; cbn; intros Hnd; [constructor|].
  pose proof Hnd as Hnd'. apply NoDup_cons in Hnd as [Hy Hnd].
  destruct (String.eqb y s); [exact Hnd|].
  apply NoDup_cons. split; [|exact (IH Hnd)].
  intros Hin. apply (remove_first_elem s sl y Hnd) in Hin as [Hin _].
  contradiction.
Qed.

Lemma taken_from_app s d c :
  taken_from s (d ++ [c])%list
  = taken_from s d + (if decide (source c = Some s) then 1 else 0).
Proof.
  unfold taken_from. rewrite filter_app, length_app. f_equal.
  destruct (decide (source c = Some s)) as [Hc|Hc].
  - rewrite filter_cons_True by exact Hc. reflexivity.
  - rewrite filter_cons_False by exact Hc. reflexivity.
Qed.

(** *** The round-robin loop *)

Lemma distribute_post todo : forall i max_per_source bs sl d,
  NoDup sl -> sl <> [] ->
  (forall s, s ∈ sl -> exists c l, lookup_source s bs = Some (c :: l)) ->
  (forall s l, lookup_source s bs = Some l ->
               Forall (fun c => default "Unknown" (source c) = s) l) ->
  (forall s, taken_from s d <= max_per_source) ->
  exists r,
    distribute todo i max_per_source bs sl d = Ret r
    /\ r ⊆+ (d ++ concat (map snd bs))%list
    /\ length r <= length d + todo
    /\ (forall s, taken_from s r <= max_per_source).
Proof.
  induction todo as [|todo IH]; intros i m bs sl d Hnd Hne Hpending Hgroup Htaken.
  - exists d. cbn. split; [reflexivity|]. split; [apply submseteq_inserts_r; reflexivity|].
    split; [lia|exact Htaken].
  - cbn [distribute].
    destruct sl as [|s0 sl0] eqn:Hsl; [contradiction|]. rewrite <- Hsl in *.
    assert (Hidx : i mod length sl < length sl)
      by (apply Nat.mod_upper_bound; rewrite Hsl; cbn; lia).
    replace (match sl with [] => 0 | _ :: _ => i mod length sl end)
      with (i mod length sl) by (rewrite Hsl; reflexivity).
    destruct (lookup_lt_is_Some_2 sl _ Hidx) as [source Hsource].
    rewrite Hsource.
    assert (Hin : source ∈ sl) by (eapply list_elem_of_lookup_2; exact Hsource).
    destruct (Hpending source Hin) as (first & rest & Hlook). rewrite Hlook.
    assert (Hfirst : default "Unknown" (Fetch.source first) = source).
    { pose proof (Hgroup source _ Hlook) as Hall.
      apply Forall_cons in Hall as [Hf _]. exact Hf. }
    destruct (taken_from source d <? m)%nat eqn:Hroom.
    + (* one candidate is taken *)
      apply Nat.ltb_lt in Hroom.
      assert (Hperm : (d ++ concat (map snd bs))%list
                      ≡ₚ ((d ++ [first])
                          ++ concat (map snd (set_source source rest bs)))%list).
      { rewrite (set_source_perm source first rest bs Hlook).
        rewrite <- app_assoc. reflexivity. }
      assert (Htaken' : forall s, taken_from s (d ++ [first])%list <= m).
      { intros s. rewrite taken_from_app.
        destruct (decide (Fetch.source first = Some s)) as [Hs|Hs].
        - rewrite Hs in Hfirst. cbn in Hfirst. subst s. lia.
        - specialize (Htaken s). lia. }
      assert (Hgroup' : forall s l,
                 lookup_source s (set_source source rest bs) = Some l ->
                 Forall (fun c => default "Unknown" (Fetch.source c) = s) l).
      { intros s l Hl. destruct (decide (s = source)) as [->|Hs].
        - rewrite (lookup_set_same _ _ _ _ Hlook) in Hl. injection Hl as <-.
          pose proof (Hgroup source _ Hlook) as Hall.
          apply Forall_cons in Hall as [_ Hrest]. exact Hrest.
        - rewrite lookup_set_other in Hl by exact Hs. exact (Hgroup s l Hl). }
      destruct rest as [|second rest].
      * (* the source is used up *)
        destruct (remove_first source sl) as [|s1 sl1] eqn:Hrem.
        -- exists (d ++ [first])%list. split; [reflexivity|].
           split; [rewrite Hperm; apply submseteq_inserts_r; reflexivity|].
           split; [rewrite length_app; cbn; lia|exact Htaken'].
        -- rewrite <- Hrem.
           destruct (IH (S i) m (set_source source [] bs) (remove_first source sl)
                       (d ++ [first])%list) as (r & Hr & Hsub & Hlen & Hcount).
           ++ apply remove_first_nodup, Hnd.
           ++ rewrite Hrem. discriminate.
           ++ intros s Hs. apply (remove_first_elem _ _ _ Hnd) in Hs as [Hs Hdiff].
              rewrite lookup_set_other by exact Hdiff. apply Hpending, Hs.
           ++ exact Hgroup'.
           ++ exact Htaken'.
           ++ exists r. split; [exact Hr|]. split; [rewrite Hperm; exact Hsub|].
              split; [rewrite length_app in Hlen; cbn in Hlen; lia|exact Hcount].
      * destruct (IH (S i) m (set_source source (second :: rest) bs) sl
                    (d ++ [first])%list) as (r & Hr & Hsub & Hlen & Hcount).
        -- exact Hnd.
        -- exact Hne.
        -- intros s Hs. destruct (decide (s = source)) as [->|Hdiff].
           ++ rewrite (lookup_set_same _ _ _ _ Hlook). eexists _, _. reflexivity.
           ++ rewrite lookup_set_other by exact Hdiff. apply Hpending, Hs.
        -- exact Hgroup'.
        -- exact Htaken'.
        -- exists r. split; [exact Hr|]. split; [rewrite Hperm; exact Hsub|].
           split; [rewrite length_app in Hlen; cbn in Hlen; lia|exact Hcount].
    + (* the source has had its share *)
      destruct (IH (S i) m bs sl d Hnd Hne Hpending Hgroup Htaken)
        as (r & Hr & Hsub & Hlen & Hcount).
      exists r. split; [exact Hr|]. split; [exact Hsub|].
      split; [lia|exact Hcount].
Qed.


(** *** Grouping *)

Lemma lookup_source_elem s l bs : lookup_source s bs = Some l -> (s, l) ∈ bs.
Proof.
  induction bs as [|[s' l'] bs IH]; cbn; [discriminate|].
  destruct (String.eqb s' s) eqn:Hs.
  - apply String.eqb_eq in Hs. subst s'. intros [= ->]. left.
  - intros Hl. right. exact (IH Hl).
Qed.

Lemma Forall_set_source (P : string * list candidate -> Prop) s l bs :
  Forall P bs -> P (s, l) -> Forall P (set_source s l bs).
Proof.
  intros Hall Hnew. induction Hall as [|[s' l'] bs Hx Hall IH]; cbn;
    [constructor|].
  destruct (String.eqb s' s) eqn:Hs.
  - apply String.eqb_eq in Hs. subst s'. constructor; assumption.
  - constructor; assumption.
Qed.

Lemma group_one_perm bs c :
  concat (map snd (group_one bs c)) ≡ₚ (concat (map snd bs) ++ [c])%list.
Proof.
  unfold group_one.
  destruct (lookup_source _ bs) as [l|] eqn:Hl.
  - clear -Hl. revert Hl. generalize (default "Unknown" (source c)) as s.
    intros s. induction bs as [|[s' l'] bs IH]; cbn; [discriminate|].
    destruct (String.eqb s' s); cbn.
    + intros [= ->]. rewrite <- !app_assoc. cbn.
      apply Permutation_app_head, Permutation_cons_append.
    + intros Hl. rewrite (IH Hl), app_assoc. reflexivity.
  - rewrite map_app, concat_app. cbn. reflexivity.
Qed.

Lemma group_by_source_from l : forall bs,
  concat (map snd (fold_left group_one l bs)) ≡ₚ (concat (map snd bs) ++ l)%list.
Proof.
  induction l as [|c l IH]; intros bs; cbn; [rewrite app_nil_r; reflexivity|].
  rewrite IH, group_one_perm, <- app_assoc. reflexivity.
Qed.

Lemma group_one_ok bs c :
  NoDup (map fst bs) ->
  Forall (fun g => snd g <> []
                   /\ Forall (fun c => default "Unknown" (source c) = fst g)
                        (snd g)) bs ->
  NoDup (map fst (group_one bs c))
  /\ Forall (fun g => snd g <> []
                      /\ Forall (fun c => default "Unknown" (source c) = fst g)
                           (snd g)) (group_one bs c).
Proof.
  intros Hnd Hall. unfold group_one.
  destruct (lookup_source _ bs) as [l|] eqn:Hl.
  - rewrite set_source_keys. split; [exact Hnd|].
    apply Forall_set_source; [exact Hall|]. cbn.
    split; [destruct l; discriminate|].
    apply Forall_app. split; [|constructor; [reflexivity|constructor]].
    apply lookup_source_elem in Hl.
    rewrite Forall_forall in Hall. exact (proj2 (Hall _ Hl)).
  - split.
    + rewrite map_app. cbn. apply NoDup_app. split; [exact Hnd|].
      split; [|apply NoDup_singleton].
      intros s Hs Hs'. apply list_elem_of_singleton in Hs'. subst s.
      apply lookup_source_keys in Hs as [l' Hl']. congruence.
    + apply Forall_app. split; [exact Hall|].
      constructor; [|constructor]. cbn.
      split; [discriminate|constructor; [reflexivity|constructor]].
Qed.

Lemma group_by_source_ok l : forall bs,
  NoDup (map fst bs) ->
  Forall (fun g => snd g <> []
                   /\ Forall (fun c => default "Unknown" (source c) = fst g)
                        (snd g)) bs ->
  NoDup (map fst (fold_left group_one l bs))
  /\ Forall (fun g => snd g <> []
                      /\ Forall (fun c => default "Unknown" (source c) = fst g)
                           (snd g)) (fold_left group_one l bs).
Proof.
  induction l as [|c l IH]; intros bs Hnd Hall; cbn; [split; assumption|].
  destruct (group_one_ok bs c Hnd Hall) as [Hnd' Hall']. apply IH; assumption.
Qed.

Lemma lookup_source_sorted s (bs : groups) :
  lookup_source s (map (fun '(source, l) => (source, sort_by_date l)) bs)
  = sort_by_date <$> lookup_source s bs.
Proof.
  induction bs as [|[s' l'] bs IH]; cbn; [reflexivity|].
  destruct (String.eqb s' s); [reflexivity|exact IH].
Qed.

Lemma sorted_groups_keys (bs : groups) :
  map fst (map (fun '(source, l) => (source, sort_by_date l)) bs) = map fst bs.
Proof.
  induction bs as [|[s l] bs IH]; cbn; [reflexivity|]. rewrite IH. reflexivity.
Qed.

Lemma sorted_groups_perm (bs : groups) :
  concat (map snd (map (fun '(source, l) => (source, sort_by_date l)) bs))
  ≡ₚ concat (map snd bs).
Proof.
  induction bs as [|[s l] bs IH]; cbn; [reflexivity|].
  rewrite IH, sort_by_date_perm. reflexivity.
Qed.

Lemma taken_from_perm s l1 l2 : l1 ≡ₚ l2 -> taken_from s l1 = taken_from s l2.
Proof. intros Hp. unfold taken_from. rewrite Hp. reflexivity. Qed.

Lemma taken_from_sublist s l1 l2 :
  sublist l1 l2 -> taken_from s l1 <= taken_from s l2.
Proof.
  unfold taken_from.
  induction 1 as [|x l1 l2 Hsub IH|x l1 l2 Hsub IH]; [reflexivity| |].
  - destruct (decide (source x = Some s)) as [Hx|Hx].
    + rewrite !filter_cons_True by exact Hx. cbn. lia.
    + rewrite !filter_cons_False by exact Hx. exact IH.
  - destruct (decide (source x = Some s)) as [Hx|Hx].
    + rewrite filter_cons_True by exact Hx. cbn. lia.
    + rewrite filter_cons_False by exact Hx. exact IH.
Qed.

(** The branch with a limit, on at least one candidate: it returns, and
    what it returns. *)
Lemma round_robin_post limit all :
  all <> [] ->
  exists r,
    round_robin limit all = Ret r
    /\ r ⊆+ all
    /\ length r <= limit
    /\ (forall s, taken_from s r
                  <= limit / length (group_by_source all) + 1)
    /\ newest_first r.
Proof.
  intros Hall. unfold round_robin.
  set (bs := group_by_source all).
  set (bs' := map (fun '(source, l) => (source, sort_by_date l)) bs).
  destruct (group_by_source_ok all [] (NoDup_nil_2) (Forall_nil_2 _))
    as [Hnd Hgroups]. fold (group_by_source all) in Hnd, Hgroups. fold bs in Hnd, Hgroups.
  pose proof (group_by_source_from all []) as Hperm.
  fold (group_by_source all) in Hperm. fold bs in Hperm. cbn in Hperm.
  assert (Hbs : bs <> []).
  { intros Hnil. rewrite Hnil in Hperm. cbn in Hperm.
    apply Permutation_nil_l in Hperm. congruence. }
  assert (Hkeys : map fst bs' = map fst bs) by apply sorted_groups_keys.
  assert (Hmax : match map fst bs' with
                 | [] => limit
                 | _ :: _ => limit / length (map fst bs') + 1
                 end = limit / length bs + 1).
  { rewrite Hkeys. destruct bs as [|g bs0]; [contradiction|].
    cbn [map]. rewrite !length_cons, length_map. reflexivity. }
  rewrite Hmax.
  destruct (distribute_post limit 0 (limit / length bs + 1) bs' (map fst bs') [])
    as (d & Hd & Hsub & Hlen & Hcount).
  - rewrite Hkeys. exact Hnd.
  - rewrite Hkeys. destruct bs; [contradiction|discriminate].
  - intros s Hs. rewrite Hkeys in Hs.
    apply lookup_source_keys in Hs as [l Hl].
    unfold bs'. rewrite lookup_source_sorted, Hl. cbn.
    apply lookup_source_elem in Hl. rewrite Forall_forall in Hgroups.
    destruct (Hgroups _ Hl) as [Hne _]. cbn in Hne.
    destruct (sort_by_date l) as [|c l'] eqn:Hsort.
    + exfalso. apply Hne. apply Permutation_nil_r. rewrite <- Hsort.
      symmetry. apply sort_by_date_perm.
    + eexists _, _. reflexivity.
  - intros s l Hl. unfold bs' in Hl. rewrite lookup_source_sorted in Hl.
    destruct (lookup_source s bs) as [l0|] eqn:Hl0; [|discriminate].
    cbn in Hl. injection Hl as <-.
    apply lookup_source_elem in Hl0. rewrite Forall_forall in Hgroups.
    destruct (Hgroups _ Hl0) as [_ Hmem]. cbn in Hmem.
    rewrite sort_by_date_perm. exact Hmem.
  - intros s. cbn. lia.
  - rewrite Hd. cbn. eexists. split; [reflexivity|].
    split.
    { rewrite sort_by_date_perm. cbn in Hsub.
      unfold bs' in Hsub.
      rewrite Hsub, sorted_groups_perm, Hperm. reflexivity. }
    split.
    { rewrite (Permutation_length (sort_by_date_perm d)). cbn in Hlen. lia. }
    split.
    { intros s. rewrite (taken_from_perm s _ _ (sort_by_date_perm d)).
      apply Hcount. }
    apply sort_by_date_sorted.
Qed.


Lemma round_robin_nil limit :
  0 < limit ->
  round_robin limit [] = Raise (Exception "list index out of range").
Proof. destruct limit; [lia|reflexivity]. Qed.

Lemma positive_limit (n : Z) :
  negb (n =? 0)%Z && (0 <? n)%Z = true <-> (0 < n)%Z.
Proof.
  destruct (Z.eqb_spec n 0), (Z.ltb_spec 0 n); cbn; split;
    first [lia|discriminate|reflexivity].
Qed.

Lemma fetch_all_unfold limit all :
  fetch_rss_feeds = Ret all ->
  fetch_all limit
  = match limit with
    | Some n =>
        if negb (n =? 0)%Z && (0 <? n)%Z
        then match round_robin (Z.to_nat n) all with
             | Ret r => drop_old r
             | Raise e => Raise e
             end
        else drop_old (sort_by_date all)
    | None => drop_old (sort_by_date all)
    end.
Proof.
  intros Hfetch. unfold fetch_all. rewrite Hfetch. cbn.
  destruct limit as [n|]; [|reflexivity].
  destruct (negb (n =? 0)%Z && (0 <? n)%Z); reflexivity.
Qed.

(** X22.  A fetch that finds nothing, under a limit: when the feeds give
    no candidate, [fetch_all] with a positive limit does not return the
    empty list, it raises the IndexError of [sources_list[0]] on the empty
    list of sources; without a limit, or with a limit that is not
    positive, it returns the empty list. *)
Theorem fetch_all_without_candidates :
  fetch_rss_feeds = Ret [] ->
  (forall n, (0 < n)%Z ->
             fetch_all (Some n) = Raise (Exception "list index out of range"))
  /\ (forall n, (n <= 0)%Z -> fetch_all (Some n) = Ret [])
  /\ fetch_all None = Ret [].
Proof.
  intros Hfetch. split; [|split].
  - intros n Hn. rewrite (fetch_all_unfold _ [] Hfetch).
    rewrite (proj2 (positive_limit n) Hn).
    rewrite round_robin_nil by lia. reflexivity.
  - intros n Hn. rewrite (fetch_all_unfold _ [] Hfetch).
    destruct (negb (n =? 0)%Z && (0 <? n)%Z) eqn:Hpos; [|reflexivity].
    apply positive_limit in Hpos. lia.
  - rewrite (fetch_all_unfold _ [] Hfetch). reflexivity.
Qed.

(** X23.  What [fetch_all] returns is a selection of what the feeds gave:
    every candidate returned was collected, and no more often than it was
    collected; the list is in the order of the docstring, most recent
    first; no candidate in it is one the date parser finds older than two
    days; and under a positive limit it has at most that many candidates,
    and of each source at most the limit divided by the number of sources,
    plus one. *)
Theorem fetch_all_selection (limit : option Z) (all result : list candidate) :
  fetch_rss_feeds = Ret all ->
  fetch_all limit = Ret result ->
  result ⊆+ all
  /\ newest_first result
  /\ Forall (fun c => reported_old c = false) result
  /\ (forall n, limit = Some n -> (0 < n)%Z ->
        length result <= Z.to_nat n
        /\ forall s, taken_from s result
                     <= Z.to_nat n / length (group_by_source all) + 1).
Proof.
  intros Hfetch. rewrite (fetch_all_unfold limit all Hfetch).
  assert (Hlast : forall l r,
             drop_old l = Ret r ->
             sublist r l /\ Forall (fun c => reported_old c = false) r).
  { intros l r Hr. apply drop_old_spec in Hr. subst r.
    split; [apply filter_sublist|].
    apply Forall_forall. intros c Hc. apply list_elem_of_In, filter_In in Hc.
    destruct Hc as [_ Hc]. destruct (reported_old c); [discriminate|reflexivity]. }
  assert (Hplain : forall r,
             drop_old (sort_by_date all) = Ret r ->
             r ⊆+ all /\ newest_first r
             /\ Forall (fun c => reported_old c = false) r).
  { intros r Hr. destruct (Hlast _ _ Hr) as [Hsub Hold].
    split; [rewrite <- (sort_by_date_perm all); apply sublist_submseteq, Hsub|].
    split; [|exact Hold].
    eapply newest_first_sublist; [exact Hsub|apply sort_by_date_sorted]. }
  destruct limit as [n|].
  - destruct (negb (n =? 0)%Z && (0 <? n)%Z) eqn:Hpos.
    + destruct all as [|c0 all0] eqn:Hall.
      { rewrite round_robin_nil by (apply positive_limit in Hpos; lia).
        discriminate. }
      rewrite <- Hall in *.
      destruct (round_robin_post (Z.to_nat n) all) as (r & Hr & Hsub & Hlen & Hcount & Hsorted);
        [rewrite Hall; discriminate|].
      rewrite Hr. intros Hresult.
      destruct (Hlast _ _ Hresult) as [Hsubl Hold].
      split; [rewrite <- Hsub; apply sublist_submseteq, Hsubl|].
      split; [eapply newest_first_sublist; eassumption|].
      split; [exact Hold|].
      intros n' [= <-] _. split.
      * apply sublist_length in Hsubl. lia.
      * intros s. pose proof (taken_from_sublist s _ _ Hsubl).
        specialize (Hcount s). lia.
    + intros Hresult. destruct (Hplain _ Hresult) as (Hsub & Hsorted & Hold).
      split; [exact Hsub|]. split; [exact Hsorted|]. split; [exact Hold|].
      intros n' Hn' Hpos'. injection Hn' as <-.
      apply positive_limit in Hpos'. congruence.
  - intros Hresult. destruct (Hplain _ Hresult) as (Hsub & Hsorted & Hold).
    split; [exact Hsub|]. split; [exact Hsorted|]. split; [exact Hold|].
    intros n' Hn'. discriminate Hn'.
Qed.

(** X24.  When the date parser raises nothing but what [fetch_all]
    catches, [fetch_all] returns whenever the feeds gave a candidate; and
    without a limit it returns every candidate that is not old, in the
    stable order of the sort. *)
Theorem fetch_all_returns (limit : option Z) (all : list candidate) :
  fetch_rss_feeds = Ret all ->
  all <> [] ->
  (forall p, exists v, older_than_two_days p = Ret v) ->
  (exists result, fetch_all limit = Ret result)
  /\ fetch_all None
     = Ret (List.filter (fun c => negb (reported_old c)) (sort_by_date all))
  /\ sort_by_date all ≡ₚ all.
Proof.
  intros Hfetch Hall Horacle.
  assert (Hlast : forall l, exists r, drop_old l = Ret r).
  { intros l. apply drop_old_returns. apply Forall_forall.
    intros c _ p _ _. apply Horacle. }
  split; [|split].
  - rewrite (fetch_all_unfold limit all Hfetch).
    destruct limit as [n|]; [|apply Hlast].
    destruct (negb (n =? 0)%Z && (0 <? n)%Z); [|apply Hlast].
    destruct (round_robin_post (Z.to_nat n) all Hall) as (r & Hr & _).
    rewrite Hr. apply Hlast.
  - rewrite (fetch_all_unfold None all Hfetch).
    destruct (Hlast (sort_by_date all)) as [r Hr]. rewrite Hr.
    rewrite (drop_old_spec _ _ Hr). reflexivity.
  - apply sort_by_date_perm.
Qed.

End FetchAll.

(** Feeds that give nothing. *)
Lemma fetch_all_without_candidates_witness :
  @Fetch.fetch_all FetchDemo.quiet (Some 20%Z)
  = Raise (Exception "list index out of range")
  /\ @Fetch.fetch_all FetchDemo.quiet None = Ret [].
Proof.
  destruct (@fetch_all_without_candidates FetchDemo.quiet eq_refl)
    as (Hlimit & _ & Hplain).
  split; [apply Hlimit; lia|exact Hplain].
Defined.

(** Three entries from two feeds, one of them a week old, under a limit
    of two. *)
Lemma fetch_all_selection_witness :
  [FetchDemo.bridge] ⊆+ [FetchDemo.council; FetchDemo.bridge; FetchDemo.harvest]
  /\ length [FetchDemo.bridge] <= 2.
Proof.
  destruct (@fetch_all_selection FetchDemo.libs (Some 2%Z)
              [FetchDemo.council; FetchDemo.bridge; FetchDemo.harvest]
              [FetchDemo.bridge] eq_refl)
    as (Hsub & _ & _ & Hlimit).
  - vm_compute. reflexivity.
  - split; [exact Hsub|].
    destruct (Hlimit 2%Z eq_refl) as [Hlen _]; [lia|exact Hlen].
Defined.

Lemma fetch_all_returns_witness :
  @Fetch.fetch_all FetchDemo.libs None
  = Ret [FetchDemo.bridge; FetchDemo.council].
Proof.
  destruct (@fetch_all_returns FetchDemo.libs None
              [FetchDemo.council; FetchDemo.bridge; FetchDemo.harvest] eq_refl)
    as (_ & Hplain & _).
  - discriminate.
  - intros p. eexists. reflexivity.
  - rewrite Hplain. vm_compute. reflexivity.
Defined.

(** ** The rewriter and its stub *)

Section RewriteProperties.
Context `{Rewrite.Libs}.
Import Rewrite.

Lemma take_length (n : nat) (s : string) : Py.len (Py.take n s) <= n.
Proof.
  unfold Py.take, Py.len. revert n.
  induction s as [|c s IH]; intros [|n]; cbn; try lia.
  specialize (IH n). lia.
Qed.

Lemma take_all (n : nat) (s : string) : Py.len s <= n -> Py.take n s = s.
Proof.
  unfold Py.take, Py.len. revert n.
  induction s as [|c s IH]; intros [|n]; cbn; try reflexivity; try lia.
  intros Hlen. rewrite IH by lia. reflexivity.
Qed.

Lemma take_take (m n : nat) (s : string) :
  m <= n -> Py.take m (Py.take n s) = Py.take m s.
Proof.
  unfold Py.take. revert m n.
  induction s as [|c s IH]; intros [|m] [|n] Hmn; cbn; try reflexivity; try lia.
  rewrite IH by lia. reflexivity.
Qed.

Lemma split_sep_from_cons sep s : forall skip cur,
  exists piece rest, split_sep_from sep skip cur s = piece :: rest.
Proof.
  induction s as [|c s IH]; intros skip cur; cbn [split_sep_from];
    [eexists _, _; reflexivity|].
  destruct skip as [|k]; [|apply IH].
  destruct (String.prefix sep (String c s)); [eexists _, _; reflexivity|apply IH].
Qed.

Lemma or_stub_outcome ex (body : outcome article) :
  match or_stub ex body with
  | Ret a => body = Ret a \/ a = _stub_rewrite ex
  | Raise e => e = KeyboardInterrupt
  end.
Proof.
  destruct body as [a|[msg|]]; cbn; [left; reflexivity|right; reflexivity|reflexivity].
Qed.

(** X25.  [rewrite] never lets an [Exception] out, and whatever goes
    wrong ends in the stub: without an API key (absent or empty), with a
    provider that is neither of the two, and when the call to OpenAI or
    the parsing of its answer raises an [Exception], the result is the
    stub of the article. *)
Theorem rewrite_falls_back_to_stub (self : ArticleRewriter)
    (extracted_data : extracted) :
  (forall e, rewrite self extracted_data = Raise e -> e = KeyboardInterrupt)
  /\ (Py.truthy (get_str (api_key self)) = false ->
      rewrite self extracted_data = Ret (_stub_rewrite extracted_data))
  /\ (provider self <> "openai" -> provider self <> "anthropic" ->
      rewrite self extracted_data = Ret (_stub_rewrite extracted_data))
  /\ (provider self = "openai" ->
      forall msg,
        openai_content self extracted_data = Raise (Exception msg)
        \/ (exists content,
              openai_content self extracted_data = Ret content
              /\ json_loads content = Raise (Exception msg)) ->
        rewrite self extracted_data = Ret (_stub_rewrite extracted_data)).
Proof.
  unfold rewrite. split; [|split; [|split]].
  - intros e.
    destruct (api_key self) as [key|]; [|discriminate].
    destruct (Py.truthy key); cbn; [|discriminate].
    match goal with |- or_stub ?ex ?b = _ -> _ =>
      pose proof (or_stub_outcome ex b) as Hout; destruct (or_stub ex b)
    end; [discriminate|]. intros [= <-]. exact Hout.
  - destruct (api_key self) as [key|]; cbn; [|reflexivity].
    intros ->. reflexivity.
  - intros Ho Ha. apply String.eqb_neq in Ho, Ha. rewrite Ho, Ha.
    destruct (api_key self) as [key|]; [|reflexivity].
    destruct (Py.truthy key); reflexivity.
  - intros Ho msg Hfail. rewrite Ho. cbn.
    assert (Hopenai : _rewrite_openai self extracted_data
                      = Ret (_stub_rewrite extracted_data)).
    { unfold _rewrite_openai.
      destruct Hfail as [Hcall|(content & Hcall & Hparse)].
      - rewrite Hcall. reflexivity.
      - rewrite Hcall. cbn. rewrite Hparse. reflexivity. }
    rewrite Hopenai.
    destruct (api_key self) as [key|]; [|reflexivity].
    destruct (Py.truthy key); reflexivity.
Qed.

Lemma stub_word_count (extracted_data : extracted) :
  word_count (_stub_rewrite extracted_data)
  = Z.of_nat (length (Py.split (Py.take 2000 (get_str (ex_text extracted_data))))).
Proof.
  unfold _stub_rewrite. cbn [word_count].
  destruct (2000 <? Py.len (get_str (ex_text extracted_data)))%nat eqn:Hlen;
    [reflexivity|].
  apply Nat.ltb_ge in Hlen. rewrite take_all by exact Hlen. reflexivity.
Qed.


End RewriteProperties.

Section StubAtTheGates.
Context `{Rewrite.Libs} `{QualityGates.Libs}.

Lemma stub_read_word_count (extracted_data : extracted) :
  default 0%Z
    (word_count (Rewrite.as_rewritten (Rewrite._stub_rewrite extracted_data)))
  = Z.of_nat
      (length (Py.split (Py.take 2000 (get_str (ex_text extracted_data))))).
Proof.
  unfold Rewrite.as_rewritten, Rewrite.read_by_pipeline. cbn [word_count default].
  apply stub_word_count.
Qed.


End StubAtTheGates.


(** ** The round of the monitor *)

Section MonitorRound.
Context `{Pipeline.Collaborators} `{MonitorFeeds.Notifier}.
Import Pipeline MonitorFeeds.

Ltac round_unfold :=
  cbv beta iota zeta delta
    [bind locals ret raise try_except except_Exception process_one
     the_pipeline now_isoformat update_locals log_message fst snd].

Lemma articles_only_refl p : articles_only p p.
Proof. unfold articles_only. repeat split; lia. Qed.

Lemma articles_only_trans p1 p2 p3 :
  articles_only p1 p2 -> articles_only p2 p3 -> articles_only p1 p3.
Proof.
  unfold articles_only.
  intros (A1 & A2 & A3 & A4 & A5 & A6 & A7 & A8 & A9)
         (B1 & B2 & B3 & B4 & B5 & B6 & B7 & B8 & B9).
  repeat split; try congruence. lia.
Qed.

Lemma articles_only_logged l msg p : articles_only p (Monitor.logged l msg p).
Proof. unfold articles_only. cbn. repeat split; lia. Qed.

Lemma articles_only_remembered a p :
  articles_only p (with_stats (remembered a) p).
Proof.
  unfold articles_only. cbn [with_stats remembered Monitor.with_self
    Monitor.threads Monitor.stats_file Monitor.self Monitor.is_running
    Monitor.pipeline Monitor.stats Monitor.total_checks Monitor.last_check
    Monitor.total_articles_found Monitor.total_articles_processed
    Monitor.last_articles].
  repeat split. rewrite length_firstn. lia.
Qed.

Lemma process_new_post candidates : forall k w p o w' p',
  process_new candidates k (w, p) = (o, (w', p')) ->
  articles_only p p'
  /\ reports w' = reports w
  /\ status_file w' = status_file w
  /\ exists new,
       events w' = (events w ++ new)%list
       /\ ArticleCalls.count ArticleCalls.is_log_operation new = 0
       /\ match o with
          | Ret k' =>
              k' = k + ArticleCalls.count ArticleCalls.is_register_article new
              /\ k' <= k + length candidates
          | Raise e => e = KeyboardInterrupt
          end.
Proof.
  induction candidates as [|c rest IH]; intros k w p o w' p'.
  - cbn. intros Heq; injection Heq as <- <- <-.
    split; [apply articles_only_refl|]. split; [reflexivity|].
    split; [reflexivity|].
    exists []. rewrite app_nil_r. cbn. repeat split; lia.
  - cbn [process_new]. intros Heq. pattern o, w', p'.
    match goal with |- ?P o w' p' => set (Q := P) end.
    revert Heq. round_unfold.
    destruct (Monitor.is_running (Monitor.self p)) eqn:Hrun; cbn [negb];
      round_unfold.
    2: { intros Heq; injection Heq as <- <- <-. subst Q. cbv beta.
         split; [apply articles_only_refl|]. split; [reflexivity|].
         split; [reflexivity|].
         exists []. rewrite app_nil_r. cbn. repeat split; lia. }
    destruct (Monitor.pipeline (Monitor.self p)) as [pl|] eqn:Hpl; round_unfold.
    2: { (* no pipeline: the AttributeError is logged *)
         intros Hrest. apply IH in Hrest
           as (Hkeep & Hrep & Hfile & new & Hev & Hlog & Hout).
         subst Q. cbv beta.
         split; [eapply articles_only_trans;
                 [apply articles_only_logged|exact Hkeep]|].
         split; [exact Hrep|]. split; [exact Hfile|].
         exists new. split; [exact Hev|]. split; [exact Hlog|].
         destruct o as [k'|e]; [|exact Hout]. cbn [length]. lia. }
    destruct (process_article pl c (w, p)) as [[r|[msg|]] [w2 p2]] eqn:Hart;
      apply process_article_post in Hart
        as (Hl & Hrep2 & Hfile2 & url & cu & t & passed & id & new2 & Hev2
            & Hpre & _ & _ & Hout2);
      subst p2;
      destruct (in_order_counts _ _ _ _ _ _ _ Hpre) as (Hlog2 & _ & Hreg2).
    + (* the article returned *)
      destruct (status r) eqn:Hstatus; round_unfold; intros Hrest;
        apply IH in Hrest
          as (Hkeep & Hrep & Hfile & new & Hev & Hlog & Hout);
        subst Q; cbv beta.
      * destruct Hout2 as (_ & _ & _ & Hlen & _).
        split; [exact Hkeep|].
        split; [rewrite Hrep; exact Hrep2|].
        split; [rewrite Hfile; exact Hfile2|].
        exists (new2 ++ new)%list.
        split; [rewrite Hev, Hev2, app_assoc; reflexivity|].
        rewrite !count_app, Hlog, Hlog2, (Hreg2 ltac:(lia)).
        split; [reflexivity|].
        destruct o as [k'|e]; [|exact Hout]. cbn [length]. lia.
      * destruct Hout2 as (_ & _ & _ & Hnew & _).
        split; [eapply articles_only_trans;
                [apply articles_only_remembered|exact Hkeep]|].
        split; [rewrite Hrep; exact Hrep2|].
        split; [rewrite Hfile; exact Hfile2|].
        exists (new2 ++ new)%list.
        split; [rewrite Hev; cbn [events tick]; rewrite Hev2, app_assoc;
                reflexivity|].
        rewrite !count_app, Hlog, Hlog2.
        split; [reflexivity|].
        assert (Hone : ArticleCalls.count ArticleCalls.is_register_article new2
                       = 1) by (rewrite Hnew; reflexivity).
        destruct o as [k'|e]; [|exact Hout]. cbn [length]. lia.
      * destruct Hout2 as (_ & _ & _ & Hlen).
        split; [exact Hkeep|].
        split; [rewrite Hrep; exact Hrep2|].
        split; [rewrite Hfile; exact Hfile2|].
        exists (new2 ++ new)%list.
        split; [rewrite Hev, Hev2, app_assoc; reflexivity|].
        rewrite !count_app, Hlog, Hlog2, (Hreg2 ltac:(lia)).
        split; [reflexivity|].
        destruct o as [k'|e]; [|exact Hout]. cbn [length]. lia.
    + (* excluded: [process_article] lets no [Exception] out *)
      destruct Hout2 as [Hno _]. discriminate Hno.
    + (* interrupted *)
      intros Heq; injection Heq as <- <- <-. subst Q. cbv beta.
      destruct Hout2 as (_ & _ & Hlen).
      split; [apply articles_only_refl|].
      split; [exact Hrep2|]. split; [exact Hfile2|].
      exists new2. split; [exact Hev2|]. split; [exact Hlog2|reflexivity].
Qed.


Ltac monitor_fields :=
  cbn [with_stats checked_at found processed remembered Monitor.with_self
       Monitor.logged Monitor._save_stats
       Monitor.threads Monitor.stats_file Monitor.self Monitor.log
       Monitor.is_running Monitor.pipeline Monitor.stats Monitor.total_checks
       Monitor.last_check Monitor.total_articles_found
       Monitor.total_articles_processed Monitor.last_articles
       Monitor.config_dir Monitor.poll_interval Monitor.dry_run
       Monitor.monitor_thread
       events reports status_file article_hashes clock_reads tick record_event].

Ltac monitor_fields_in H :=
  cbn [with_stats checked_at found processed remembered Monitor.with_self
       Monitor.logged Monitor._save_stats
       Monitor.threads Monitor.stats_file Monitor.self Monitor.log
       Monitor.is_running Monitor.pipeline Monitor.stats Monitor.total_checks
       Monitor.last_check Monitor.total_articles_found
       Monitor.total_articles_processed Monitor.last_articles
       Monitor.config_dir Monitor.poll_interval Monitor.dry_run
       Monitor.monitor_thread
       events reports status_file article_hashes clock_reads tick record_event]
    in H.





End MonitorRound.



(** ** A start that fails *)

Section MonitorStart.
Import Monitor.

(** X30.  A [start] whose pipeline cannot be built leaves the monitor
    marked as running without a loop: the exception of the constructor
    comes out of [start] after both running flags were set and written to
    the statistics file, and before any thread was made.  From then on
    every [start] only logs that the monitor is already running; it takes
    a [stop] for the next [start] to make the loop thread. *)
Theorem failed_start_leaves_monitor_running (p : process) (now : string)
    (e : exn) :
  is_running (self p) = false ->
  let p1 := snd (start now (Raise e) p) in
  fst (start now (Raise e) p) = Raise e
  /\ is_running (self p1) = true
  /\ running (stats (self p1)) = true
  /\ started_at (stats (self p1)) = Some now
  /\ stats_file p1 = Some (stats (self p1))
  /\ threads p1 = threads p
  /\ monitor_thread (self p1) = monitor_thread (self p)
  /\ pipeline (self p1) = pipeline (self p)
  /\ log p1 = log p
  /\ (forall now' new_pipeline,
        start now' new_pipeline p1 = (Ret tt, logged WARNING already_running p1))
  /\ (forall now' pl,
        let p2 := snd (start now' (Ret pl) (stop p1)) in
        fst (start now' (Ret pl) (stop p1)) = Ret tt
        /\ threads p2 = (threads p ++ [Alive])%list
        /\ pipeline (self p2) = Some pl
        /\ is_running (self p2) = true).
Proof.
  intros Hstopped p1.
  assert (Hstart : start now (Raise e) p
                   = (Raise e,
                      _save_stats
                        (with_self (set_running true (Some now) (self p)) p)))
    by (unfold start; rewrite Hstopped; reflexivity).
  subst p1. rewrite Hstart. cbn [fst snd].
  do 9 (split; [reflexivity|]). split.
  - intros now' new_pipeline. reflexivity.
  - intros now' pl. cbn. repeat split.
Qed.

End MonitorStart.

(** A new monitor whose configuration cannot be read. *)
Lemma failed_start_leaves_monitor_running_witness :
  let p1 :=
    snd (Monitor.start "2024-05-01T10:00:00"
           (Raise (Exception "config/sources.yaml not found"))
           (Monitor.boot (Monitor.new "./config" 300 false))) in
  Monitor.is_running (Monitor.self p1) = true
  /\ Monitor.threads p1 = [].
Proof.
  destruct (failed_start_leaves_monitor_running
              (Monitor.boot (Monitor.new "./config" 300 false))
              "2024-05-01T10:00:00"
              (Exception "config/sources.yaml not found") eq_refl)
    as (_ & Hrun & _ & _ & _ & Hthreads & _).
  split; [exact Hrun|exact Hthreads].
Defined.
